(** * Bike-gear storefront: cart, order and address rules

    A shallow embedding of the Django models, serializers and API views of
    the storefront (apps/catalog, apps/cart, apps/orders, apps/accounts,
    apps/api), followed by the properties checked against it.

    Conventions
    - A [DecimalField(max_digits=10, decimal_places=2)] value is an
      integer number of hundredths ([Z]); the Python integer [n] used in
      decimal arithmetic is [Decimal_of_int n].  All the arithmetic the
      code performs on amounts (sum, difference, product with an integer
      quantity) is exact.
    - A table is the list of its rows, in the order of the model's
      [Meta.ordering] where a query depends on it, or a finite map from
      primary key to row (the catalogue tables, which the code reads and
      updates by key).
    - A method that writes is a function from the store to an outcome and
      a store ([M]); [atomic] is [transaction.atomic()].
    - A related object ([item.variant], [variant.product]) is looked up
      through its key column when it is accessed.
    - The constraints the models declare ([unique=True], one-to-one keys,
      [Meta.constraints]) are checked where a row is written.  The range
      checks of single columns ([PositiveIntegerField], [max_digits]) are
      the database's and are not part of the model. *)

From Stdlib Require Import ZArith Lia Ascii String.
From stdpp Require Import base option numbers list strings gmap pretty.

Local Open Scope string_scope.
Local Open Scope Z_scope.

(** ** Python values *)

Abbreviation Decimal := Z (only parsing).

Definition Decimal_of_int (n : Z) : Decimal := 100 * n.

(** Truth value of a nullable decimal: [None] and zero are false. *)
Definition truthy_decimal (d : option Decimal) : bool :=
  match d with
  | Some x => negb (x =? 0)
  | None => false
  end.

(** Truth value of a nullable string: [None] and the empty string are false. *)
Definition truthy_str (s : option string) : bool :=
  match s with
  | Some EmptyString => false
  | Some _ => true
  | None => false
  end.

(** Truth value of a nullable integer: [None] and zero are false. *)
Definition truthy_int (n : option Z) : bool :=
  match n with
  | Some x => negb (x =? 0)
  | None => false
  end.

(** [sum(...)]: a left fold from the integer 0. *)
Definition sum (l : list Z) : Z := foldl Z.add 0 l.

(** [sep.join(parts)] *)
Fixpoint join (sep : string) (parts : list string) : string :=
  match parts with
  | [] => ""
  | [p] => p
  | p :: rest => p +:+ sep +:+ join sep rest
  end.

(** [str.isspace] on one character.  A string is the sequence of its code
    points; the model covers the code points below 256. *)
Definition isspace (c : ascii) : bool :=
  let n := N_of_ascii c in
  ((9 <=? n) && (n <=? 13) || (28 <=? n) && (n <=? 32)
   || (n =? 133) || (n =? 160))%N.

(** [str.lower] on one character: A-Z and the Latin-1 capitals. *)
Definition lower_char (c : ascii) : ascii :=
  let n := N_of_ascii c in
  if ((65 <=? n) && (n <=? 90)
      || (192 <=? n) && (n <=? 222) && negb (n =? 215))%N
  then ascii_of_N (n + 32) else c.

Fixpoint lower (s : string) : string :=
  match s with
  | EmptyString => EmptyString
  | String c s' => String (lower_char c) (lower s')
  end.

Fixpoint lstrip (s : string) : string :=
  match s with
  | EmptyString => EmptyString
  | String c s' => if isspace c then lstrip s' else s
  end.

Definition rstrip (s : string) : string := String.rev (lstrip (String.rev s)).

(** [str.strip()] with no argument. *)
Definition strip (s : string) : string := rstrip (lstrip s).

(** Exceptions the modelled code can raise. *)
Inductive exn :=
| DoesNotExist (model : string)
| MultipleObjectsReturned (model : string)
| AttributeError (cls attr : string)
| IntegrityError (constraint : string)
| ValueError (message : string).

Inductive result (A : Type) :=
| Ok (a : A)
| Raise (e : exn).
Arguments Ok {A} a.
Arguments Raise {A} e.

(** ** catalog/models.py *)

Module Product.
Record t := mk {
  title : string;
  price : Decimal;
  sale_price : option Decimal;
  stock : Z;
  is_active : bool
}.
Definition set_stock (s : Z) (p : t) : t :=
  mk (title p) (price p) (sale_price p) s (is_active p).
End Product.

Module ProductVariant.
(** [attributes] is the result of the [attributes] relation joined to its
    values and ordered by the attribute type's display order. *)
Record t := mk {
  product_id : Z;
  sku : string;
  price : Decimal;
  sale_price : option Decimal;
  stock : Z;
  is_active : bool;
  attributes : list string
}.
Definition set_stock (s : Z) (v : t) : t :=
  mk (product_id v) (sku v) (price v) (sale_price v) s (is_active v)
     (attributes v).
End ProductVariant.

Definition ProductVariant_get_effective_price (self : ProductVariant.t) : Decimal :=
  match ProductVariant.sale_price self with
  | Some sp => sp
  | None => ProductVariant.price self
  end.

Definition ProductVariant_get_attributes_display (self : ProductVariant.t) : string :=
  join " / " (ProductVariant.attributes self).

Definition ProductVariant_is_in_stock (self : ProductVariant.t) : bool :=
  0 <? ProductVariant.stock self.

Definition ProductVariant_is_on_sale (self : ProductVariant.t) : bool :=
  match ProductVariant.sale_price self with
  | Some _ => true
  | None => false
  end.

(** ** accounts/models.py, cart/models.py, orders/models.py: rows *)

Inductive AddressType := billing | shipping.

Global Instance AddressType_eq_dec : EqDecision AddressType.
Proof. solve_decision. Defined.

Module Address.
(** [id] is [None] on an instance that was never saved. *)
Record t := mk {
  id : option Z;
  user : Z;
  label : string;
  address_type : AddressType;
  street : string;
  city : string;
  state : string;
  postal_code : string;
  country : string;
  phone : string;
  is_default_billing : bool;
  is_default_shipping : bool
}.
Definition set_id (k : option Z) (a : t) : t :=
  mk k (user a) (label a) (address_type a) (street a) (city a) (state a)
     (postal_code a) (country a) (phone a) (is_default_billing a)
     (is_default_shipping a).
Definition set_is_default_billing (b : bool) (a : t) : t :=
  mk (id a) (user a) (label a) (address_type a) (street a) (city a) (state a)
     (postal_code a) (country a) (phone a) b (is_default_shipping a).
Definition set_is_default_shipping (b : bool) (a : t) : t :=
  mk (id a) (user a) (label a) (address_type a) (street a) (city a) (state a)
     (postal_code a) (country a) (phone a) (is_default_billing a) b.
End Address.

Module Cart.
Record t := mk {
  id : Z;
  user : option Z;
  session_key : option string
}.
End Cart.

Module CartItem.
(** [variant_id] and [product_id] are the key columns of the two
    nullable foreign keys.  [price_snapshot] is a NOT NULL column, so a
    stored row always carries a value. *)
Record t := mk {
  id : Z;
  cart_id : Z;
  variant_id : option Z;
  product_id : option Z;
  variant_sku : string;
  product_title : string;
  variant_attributes : string;
  quantity : Z;
  price_snapshot : Decimal
}.
Definition set_cart_id (c : Z) (i : t) : t :=
  mk (id i) c (variant_id i) (product_id i) (variant_sku i)
     (product_title i) (variant_attributes i) (quantity i) (price_snapshot i).
Definition set_quantity (q : Z) (i : t) : t :=
  mk (id i) (cart_id i) (variant_id i) (product_id i) (variant_sku i)
     (product_title i) (variant_attributes i) q (price_snapshot i).
End CartItem.

Inductive OrderStatus := pending | processing | shipped | delivered | cancelled.
Inductive PaymentStatus := unpaid | paid | failed | refunded.
Inductive PaymentMethod := cod | card | bkash | nagad.

Global Instance OrderStatus_eq_dec : EqDecision OrderStatus.
Proof. solve_decision. Defined.
Global Instance PaymentStatus_eq_dec : EqDecision PaymentStatus.
Proof. solve_decision. Defined.

(** Address fields carried inline by a checkout request
    ([GuestAddressSerializer]). *)
Module GuestAddress.
Record t := mk {
  label : string;
  phone : string;
  street : string;
  city : string;
  state : string;
  postal_code : string;
  country : string
}.
End GuestAddress.

Module Order.
Record t := mk {
  id : option Z;
  user : option Z;
  session_key : option string;
  order_number : string;
  status : OrderStatus;
  payment_status : PaymentStatus;
  billing_address : option Z;
  shipping_address : option Z;
  guest_email : option string;
  guest_phone : option string;
  guest_billing_address_data : option GuestAddress.t;
  guest_shipping_address_data : option GuestAddress.t;
  subtotal : Decimal;
  discount : Decimal;
  shipping_cost : Decimal;
  total_price : Decimal;
  notes : string
}.
Definition set_id (k : option Z) (o : t) : t :=
  mk k (user o) (session_key o) (order_number o) (status o)
     (payment_status o) (billing_address o) (shipping_address o)
     (guest_email o) (guest_phone o) (guest_billing_address_data o)
     (guest_shipping_address_data o) (subtotal o) (discount o)
     (shipping_cost o) (total_price o) (notes o).
Definition set_order_number (n : string) (o : t) : t :=
  mk (id o) (user o) (session_key o) n (status o)
     (payment_status o) (billing_address o) (shipping_address o)
     (guest_email o) (guest_phone o) (guest_billing_address_data o)
     (guest_shipping_address_data o) (subtotal o) (discount o)
     (shipping_cost o) (total_price o) (notes o).
Definition set_status (s : OrderStatus) (p : PaymentStatus) (o : t) : t :=
  mk (id o) (user o) (session_key o) (order_number o) s p
     (billing_address o) (shipping_address o)
     (guest_email o) (guest_phone o) (guest_billing_address_data o)
     (guest_shipping_address_data o) (subtotal o) (discount o)
     (shipping_cost o) (total_price o) (notes o).
End Order.

Module OrderItem.
Record t := mk {
  order_id : Z;
  product_id : option Z;
  variant_id : option Z;
  product_title : string;
  variant_sku : string;
  variant_attributes : string;
  quantity : Z;
  unit_price : Decimal;
  subtotal : Decimal
}.
End OrderItem.

Module Payment.
Record t := mk {
  order_id : Z;
  method : PaymentMethod;
  amount : Decimal;
  success : bool
}.
End Payment.

(** ** The store *)

(** [address_seq] and [order_seq] are the next keys the database hands out
    for the two tables whose inserts are modelled; a key is never handed
    out twice. *)
Record Db := mkDb {
  products : gmap Z Product.t;
  variants : gmap Z ProductVariant.t;
  addresses : list Address.t;
  address_seq : Z;
  carts : list Cart.t;
  cart_items : list CartItem.t;
  orders : list Order.t;
  order_seq : Z;
  order_items : list OrderItem.t;
  payments : list Payment.t
}.

Definition set_products (x : gmap Z Product.t) (db : Db) : Db :=
  mkDb x (variants db) (addresses db) (address_seq db) (carts db)
       (cart_items db) (orders db) (order_seq db) (order_items db) (payments db).
Definition set_variants (x : gmap Z ProductVariant.t) (db : Db) : Db :=
  mkDb (products db) x (addresses db) (address_seq db) (carts db)
       (cart_items db) (orders db) (order_seq db) (order_items db) (payments db).
Definition set_addresses (x : list Address.t) (s : Z) (db : Db) : Db :=
  mkDb (products db) (variants db) x s (carts db)
       (cart_items db) (orders db) (order_seq db) (order_items db) (payments db).
Definition set_carts (x : list Cart.t) (db : Db) : Db :=
  mkDb (products db) (variants db) (addresses db) (address_seq db) x
       (cart_items db) (orders db) (order_seq db) (order_items db) (payments db).
Definition set_cart_items (x : list CartItem.t) (db : Db) : Db :=
  mkDb (products db) (variants db) (addresses db) (address_seq db) (carts db)
       x (orders db) (order_seq db) (order_items db) (payments db).
Definition set_orders (x : list Order.t) (s : Z) (db : Db) : Db :=
  mkDb (products db) (variants db) (addresses db) (address_seq db) (carts db)
       (cart_items db) x s (order_items db) (payments db).
Definition set_order_items (x : list OrderItem.t) (db : Db) : Db :=
  mkDb (products db) (variants db) (addresses db) (address_seq db) (carts db)
       (cart_items db) (orders db) (order_seq db) x (payments db).
Definition set_payments (x : list Payment.t) (db : Db) : Db :=
  mkDb (products db) (variants db) (addresses db) (address_seq db) (carts db)
       (cart_items db) (orders db) (order_seq db) (order_items db) x.

(** A computation over the store.  The store is returned on both outcomes:
    outside a transaction every write that happened before an exception
    stays committed. *)
Definition M (A : Type) : Type := Db -> result A * Db.

Definition ret {A} (a : A) : M A := fun db => (Ok a, db).
Definition raise {A} (e : exn) : M A := fun db => (Raise e, db).
Definition bind {A B} (m : M A) (k : A -> M B) : M B :=
  fun db =>
    match m db with
    | (Ok a, db') => k a db'
    | (Raise e, db') => (Raise e, db')
    end.
Definition gets {A} (f : Db -> A) : M A := fun db => (Ok (f db), db).
Definition modify (f : Db -> Db) : M unit := fun db => (Ok tt, f db).

(** [with transaction.atomic(): body]: an exception leaving the block
    restores the store of the block's entry. *)
Definition atomic {A} (body : M A) : M A :=
  fun db =>
    match body db with
    | (Ok a, db') => (Ok a, db')
    | (Raise e, _) => (Raise e, db)
    end.

Notation "'do' x <- m ; k" := (bind m (fun x => k))
  (at level 10, x name, m at level 100, k at level 200).
Notation "'run' m ; k" := (bind m (fun _ => k))
  (at level 10, m at level 100, k at level 200).

(** [for x in xs: body(x)] *)
Fixpoint for_each {A} (xs : list A) (body : A -> M unit) : M unit :=
  match xs with
  | [] => ret tt
  | x :: rest => run body x; for_each rest body
  end.

(** ** cart/models.py *)

(** The related-object accessors.  The key columns are foreign keys
    (SET_NULL for the two keys of a cart item, CASCADE for a variant's
    product), so in a store the database accepts a key that is set always
    resolves. *)
Definition CartItem_variant (db : Db) (self : CartItem.t) : option ProductVariant.t :=
  CartItem.variant_id self ≫= fun k => variants db !! k.

Definition CartItem_product (db : Db) (self : CartItem.t) : option Product.t :=
  CartItem.product_id self ≫= fun k => products db !! k.

Definition ProductVariant_product (db : Db) (self : ProductVariant.t) : option Product.t :=
  products db !! ProductVariant.product_id self.

(** [product.sale_price or product.price] *)
Definition Product_sale_price_or_price (p : Product.t) : Decimal :=
  match Product.sale_price p with
  | Some sp => if sp =? 0 then Product.price p else sp
  | None => Product.price p
  end.

Definition CartItem_get_total (self : CartItem.t) : Decimal :=
  CartItem.price_snapshot self * CartItem.quantity self.

Definition CartItem_get_savings (db : Db) (self : CartItem.t) : Decimal :=
  match CartItem_variant db self, CartItem_product db self with
  | Some {| ProductVariant.price := original;
            ProductVariant.sale_price := Some sp |}, _ =>
      let discount := original - sp in
      discount * CartItem.quantity self
  | _, Some {| Product.price := original; Product.sale_price := Some sp |} =>
      if sp =? 0 then 0
      else
        let discount := original - sp in
        discount * CartItem.quantity self
  | _, _ => 0
  end.

Definition CartItem_is_available (db : Db) (self : CartItem.t) : bool :=
  match CartItem_variant db self, CartItem_product db self with
  | Some v, _ => ProductVariant.is_active v && ProductVariant_is_in_stock v
  | None, Some p => Product.is_active p && (0 <? Product.stock p)
  | None, None => false
  end.

Definition CartItem_get_display_title (db : Db) (self : CartItem.t) : result string :=
  match CartItem_variant db self, CartItem_product db self with
  | Some v, _ =>
      match ProductVariant_product db v with
      | Some p =>
          let attributes := ProductVariant_get_attributes_display v in
          if String.eqb attributes "" then Ok (Product.title p)
          else Ok (Product.title p +:+ " (" +:+ attributes +:+ ")")
      | None => Raise (DoesNotExist "Product")
      end
  | None, Some p => Ok (Product.title p)
  | None, None =>
      if String.eqb (CartItem.variant_attributes self) ""
      then Ok (CartItem.product_title self)
      else Ok (CartItem.product_title self +:+ " ("
               +:+ CartItem.variant_attributes self +:+ ")")
  end.

Definition CartItem_get_stock (db : Db) (self : CartItem.t) : Z :=
  match CartItem_variant db self, CartItem_product db self with
  | Some v, _ => ProductVariant.stock v
  | None, Some p => Product.stock p
  | None, None => 0
  end.

(** The three constraints of [CartItem.Meta], as the database checks them
    when the row [self] is written into [rows]. *)
Definition CartItem_violated_constraint (rows : list CartItem.t) (self : CartItem.t)
  : option string :=
  let other r := negb (CartItem.id r =? CartItem.id self) in
  let same_cart r := CartItem.cart_id r =? CartItem.cart_id self in
  if negb (xorb (bool_decide (is_Some (CartItem.variant_id self)))
                (bool_decide (is_Some (CartItem.product_id self))))
  then Some "cart_item_variant_or_product"
  else if bool_decide (is_Some (CartItem.variant_id self))
          && existsb (fun r => other r && same_cart r
                       && bool_decide (CartItem.variant_id r = CartItem.variant_id self))
                     rows
  then Some "unique_cart_variant"
  else if bool_decide (is_Some (CartItem.product_id self))
          && existsb (fun r => other r && same_cart r
                       && bool_decide (CartItem.product_id r = CartItem.product_id self))
                     rows
  then Some "unique_cart_product"
  else None.

(** [Model.save] on an instance whose key is set: update the row with that
    key, or insert it when no such row exists. *)
Definition CartItem_write (self : CartItem.t) (rows : list CartItem.t) : list CartItem.t :=
  if existsb (fun r => CartItem.id r =? CartItem.id self) rows
  then map (fun r => if CartItem.id r =? CartItem.id self then self else r) rows
  else rows ++ [self].

(** [CartItem.save]: refresh the snapshot and backup columns from the
    target, then write the row. *)
Definition CartItem_save (self : CartItem.t) : M unit :=
  fun db =>
    let self' :=
      match CartItem_variant db self, CartItem_product db self with
      | Some v, _ =>
          CartItem.mk (CartItem.id self) (CartItem.cart_id self)
            (CartItem.variant_id self) (CartItem.product_id self)
            (ProductVariant.sku v)
            (match ProductVariant_product db v with
             | Some p => Product.title p
             | None => CartItem.product_title self
             end)
            (ProductVariant_get_attributes_display v)
            (CartItem.quantity self)
            (if CartItem.price_snapshot self =? 0
             then ProductVariant_get_effective_price v
             else CartItem.price_snapshot self)
      | None, Some p =>
          CartItem.mk (CartItem.id self) (CartItem.cart_id self)
            (CartItem.variant_id self) (CartItem.product_id self)
            ("PROD-" +:+ pretty (default 0 (CartItem.product_id self)))
            (Product.title p)
            ""
            (CartItem.quantity self)
            (if CartItem.price_snapshot self =? 0
             then Product_sale_price_or_price p
             else CartItem.price_snapshot self)
      | None, None => self
      end in
    match CartItem_violated_constraint (cart_items db) self' with
    | Some c => (Raise (IntegrityError c), db)
    | None => (Ok tt, set_cart_items (CartItem_write self' (cart_items db)) db)
    end.

(** [cart.items.all()], in the order of [CartItem.Meta.ordering]. *)
Definition Cart_items (db : Db) (self : Cart.t) : list CartItem.t :=
  filter (fun it => CartItem.cart_id it = Cart.id self) (cart_items db).

Definition Cart_get_total_items (db : Db) (self : Cart.t) : Z :=
  sum (map CartItem.quantity (Cart_items db self)).

Definition Cart_get_subtotal (db : Db) (self : Cart.t) : Decimal :=
  sum (map CartItem_get_total (Cart_items db self)).

Definition Cart_get_total_savings (db : Db) (self : Cart.t) : Decimal :=
  sum (map (CartItem_get_savings db) (Cart_items db self)).

(** [cart.items.all().delete()] *)
Definition Cart_clear (self : Cart.t) : M unit :=
  modify (fun db =>
    set_cart_items
      (filter (fun it => CartItem.cart_id it ≠ Cart.id self) (cart_items db)) db).

(** [cart.delete()]: the row goes, and its items with it (CASCADE). *)
Definition Cart_delete (self : Cart.t) : M unit :=
  modify (fun db =>
    set_carts (filter (fun c => Cart.id c ≠ Cart.id self) (carts db))
      (set_cart_items
         (filter (fun it => CartItem.cart_id it ≠ Cart.id self) (cart_items db))
         db)).

(** ** api/serializers/cart.py *)

(** [CartItemSerializer.get_savings] and [CartSerializer.get_total_savings];
    the value is the number the returned string prints ("0.00" is 0). *)
Definition CartItemSerializer_get_savings (db : Db) (obj : CartItem.t) : Decimal :=
  let savings := CartItem_get_savings db obj in
  if 0 <? savings then savings else 0.

Definition CartSerializer_get_total_savings (db : Db) (obj : Cart.t) : Decimal :=
  Cart_get_total_savings db obj.

(** ** accounts/models.py *)

(** [Address.objects.filter(user=self.user, address_type='billing',
    is_default_billing=True).exclude(pk=self.pk).update(is_default_billing=False)] *)
Definition Address_unset_other_default_billing (self : Address.t)
    (rows : list Address.t) : list Address.t :=
  map (fun r =>
         if (Address.user r =? Address.user self)
            && bool_decide (Address.address_type r = billing)
            && Address.is_default_billing r
            && negb (bool_decide (Address.id r = Address.id self))
         then Address.set_is_default_billing false r else r) rows.

(** The same statement for [address_type='shipping'] and
    [is_default_shipping]. *)
Definition Address_unset_other_default_shipping (self : Address.t)
    (rows : list Address.t) : list Address.t :=
  map (fun r =>
         if (Address.user r =? Address.user self)
            && bool_decide (Address.address_type r = shipping)
            && Address.is_default_shipping r
            && negb (bool_decide (Address.id r = Address.id self))
         then Address.set_is_default_shipping false r else r) rows.

(** The two conditional unique constraints of [Address.Meta], as the
    database checks them when the row [self] is written into [rows]. *)
Definition Address_violated_constraint (rows : list Address.t) (self : Address.t)
  : option string :=
  let clash (flag : Address.t -> bool) r :=
    negb (bool_decide (Address.id r = Address.id self))
    && (Address.user r =? Address.user self)
    && bool_decide (Address.address_type r = Address.address_type self)
    && flag r in
  if Address.is_default_billing self
     && existsb (clash Address.is_default_billing) rows
  then Some "unique_default_billing_per_user"
  else if Address.is_default_shipping self
          && existsb (clash Address.is_default_shipping) rows
  then Some "unique_default_shipping_per_user"
  else None.

(** [super().save()] for an address: the constraints, then an UPDATE of the
    row with the instance's key (an INSERT when the key is new or unset;
    an unset key is drawn from the sequence). *)
Definition Address_write (self : Address.t) : M Address.t :=
  fun db =>
    match Address_violated_constraint (addresses db) self with
    | Some c => (Raise (IntegrityError c), db)
    | None =>
        match Address.id self with
        | Some k =>
            if existsb (fun r => bool_decide (Address.id r = Some k)) (addresses db)
            then (Ok self,
                  set_addresses
                    (map (fun r => if bool_decide (Address.id r = Some k)
                                   then self else r) (addresses db))
                    (address_seq db) db)
            else (Ok self,
                  set_addresses (addresses db ++ [self]) (address_seq db) db)
        | None =>
            let self' := Address.set_id (Some (address_seq db)) self in
            (Ok self',
             set_addresses (addresses db ++ [self']) (address_seq db + 1) db)
        end
    end.

Definition Address_save (self : Address.t) : M Address.t :=
  run (if Address.is_default_billing self
       then modify (fun db =>
              set_addresses
                (Address_unset_other_default_billing self (addresses db))
                (address_seq db) db)
       else ret tt);
  run (if Address.is_default_shipping self
       then modify (fun db =>
              set_addresses
                (Address_unset_other_default_shipping self (addresses db))
                (address_seq db) db)
       else ret tt);
  Address_write self.

(** ** api/serializers/auth.py *)

(** [validated_data] of a partial update: the fields the request carries. *)
Module AddressData.
Record t := mk {
  label : option string;
  street : option string;
  city : option string;
  state : option string;
  postal_code : option string;
  country : option string;
  phone : option string;
  address_type : option AddressType;
  is_default_billing : option bool;
  is_default_shipping : option bool
}.
End AddressData.

(** [Address.objects.filter(user=user, address_type__in=['billing'],
    is_default_billing=True).update(is_default_billing=False)] *)
Definition Address_unset_default_billing (user : Z) (rows : list Address.t)
  : list Address.t :=
  map (fun r =>
         if (Address.user r =? user)
            && bool_decide (Address.address_type r = billing)
            && Address.is_default_billing r
         then Address.set_is_default_billing false r else r) rows.

Definition Address_unset_default_shipping (user : Z) (rows : list Address.t)
  : list Address.t :=
  map (fun r =>
         if (Address.user r =? user)
            && bool_decide (Address.address_type r = shipping)
            && Address.is_default_shipping r
         then Address.set_is_default_shipping false r else r) rows.

(** [AddressSerializer.create].  [validated_data] is given as the instance
    the model builds from it, model defaults included; [user] is the
    caller. *)
Definition AddressSerializer_create (user : Z) (validated_data : Address.t)
  : M Address.t :=
  run (if Address.is_default_billing validated_data
       then modify (fun db =>
              set_addresses (Address_unset_default_billing user (addresses db))
                            (address_seq db) db)
       else ret tt);
  run (if Address.is_default_shipping validated_data
       then modify (fun db =>
              set_addresses (Address_unset_default_shipping user (addresses db))
                            (address_seq db) db)
       else ret tt);
  Address_save
    (Address.mk None user (Address.label validated_data)
       (Address.address_type validated_data) (Address.street validated_data)
       (Address.city validated_data) (Address.state validated_data)
       (Address.postal_code validated_data) (Address.country validated_data)
       (Address.phone validated_data)
       (Address.is_default_billing validated_data)
       (Address.is_default_shipping validated_data)).

(** [setattr(instance, attr, value)] for every field of [validated_data]. *)
Definition Address_setattrs (instance : Address.t) (validated_data : AddressData.t)
  : Address.t :=
  Address.mk (Address.id instance) (Address.user instance)
    (default (Address.label instance) (AddressData.label validated_data))
    (default (Address.address_type instance)
             (AddressData.address_type validated_data))
    (default (Address.street instance) (AddressData.street validated_data))
    (default (Address.city instance) (AddressData.city validated_data))
    (default (Address.state instance) (AddressData.state validated_data))
    (default (Address.postal_code instance)
             (AddressData.postal_code validated_data))
    (default (Address.country instance) (AddressData.country validated_data))
    (default (Address.phone instance) (AddressData.phone validated_data))
    (default (Address.is_default_billing instance)
             (AddressData.is_default_billing validated_data))
    (default (Address.is_default_shipping instance)
             (AddressData.is_default_shipping validated_data)).

(** [AddressSerializer.update]; [super().update] sets the fields and saves
    the instance. *)
Definition AddressSerializer_update (instance : Address.t)
    (validated_data : AddressData.t) : M Address.t :=
  run (if default false (AddressData.is_default_billing validated_data)
          && negb (Address.is_default_billing instance)
       then modify (fun db =>
              set_addresses
                (Address_unset_other_default_billing instance (addresses db))
                (address_seq db) db)
       else ret tt);
  run (if default false (AddressData.is_default_shipping validated_data)
          && negb (Address.is_default_shipping instance)
       then modify (fun db =>
              set_addresses
                (Address_unset_other_default_shipping instance (addresses db))
                (address_seq db) db)
       else ret tt);
  Address_save (Address_setattrs instance validated_data).

(** ** orders/models.py *)

(** The key of [Order.objects.order_by('-id').first()], [None] on an empty
    table. *)
Definition Order_last_id (rows : list Order.t) : option Z :=
  foldr (fun o acc =>
           match Order.id o, acc with
           | Some k, Some b => Some (Z.max k b)
           | Some k, None => Some k
           | None, _ => acc
           end) None rows.

(** The key of a saved order. *)
Definition Order_pk (o : Order.t) : Z := default 0 (Order.id o).

(** [super().save()] for an order: the unique index on [order_number],
    then the UPDATE or INSERT. *)
Definition Order_write (self : Order.t) : M Order.t :=
  fun db =>
    if existsb (fun r => negb (bool_decide (Order.id r = Order.id self))
                         && String.eqb (Order.order_number r) (Order.order_number self))
               (orders db)
    then (Raise (IntegrityError "order_number"), db)
    else
      match Order.id self with
      | Some k =>
          if existsb (fun r => bool_decide (Order.id r = Some k)) (orders db)
          then (Ok self,
                set_orders
                  (map (fun r => if bool_decide (Order.id r = Some k)
                                 then self else r) (orders db))
                  (order_seq db) db)
          else (Ok self, set_orders (self :: orders db) (order_seq db) db)
      | None =>
          let self' := Order.set_id (Some (order_seq db)) self in
          (Ok self', set_orders (self' :: orders db) (order_seq db + 1) db)
      end.

Definition Order_save (self : Order.t) : M Order.t :=
  do self <- (if String.eqb (Order.order_number self) ""
              then
                let prefix := "ORD" in
                do last_order <- gets (fun db => Order_last_id (orders db));
                let next_id := match last_order with
                               | None => 1
                               | Some last_id => last_id + 1
                               end in
                ret (Order.set_order_number (prefix +:+ "-" +:+ pretty next_id) self)
              else ret self);
  Order_write self.

(** [order.delete()]: the row goes, and with it its items and its payment
    (both CASCADE). *)
Definition Order_delete (pk : Z) : M unit :=
  modify (fun db =>
    set_orders (filter (fun o => Order.id o ≠ Some pk) (orders db)) (order_seq db)
      (set_order_items
         (filter (fun i => OrderItem.order_id i ≠ pk) (order_items db))
         (set_payments
            (filter (fun p => Payment.order_id p ≠ pk) (payments db)) db))).

Definition Order_items (db : Db) (self : Order.t) : list OrderItem.t :=
  filter (fun i => OrderItem.order_id i = Order_pk self) (order_items db).

Definition Order_get_total_items (db : Db) (self : Order.t) : Z :=
  sum (map OrderItem.quantity (Order_items db self)).

Definition OrderItem_create (item : OrderItem.t) : M unit :=
  modify (fun db => set_order_items (order_items db ++ [item]) db).

(** [Payment.objects.create]; [order] is a one-to-one key. *)
Definition Payment_create (p : Payment.t) : M unit :=
  fun db =>
    if existsb (fun r => Payment.order_id r =? Payment.order_id p) (payments db)
    then (Raise (IntegrityError "payments_order_id"), db)
    else (Ok tt, set_payments (payments db ++ [p]) db).

Definition Order_create_from_cart (cart : Cart.t)
    (billing_address shipping_address : option Z)
    (discount shipping_cost : Decimal) : M Order.t :=
  let user := Cart.user cart in
  do subtotal <- gets (fun db => Cart_get_subtotal db cart);
  let total_price := subtotal - discount + shipping_cost in
  do order <- Order_save
    (Order.mk None user (Cart.session_key cart) "" pending unpaid
       billing_address shipping_address None None None None
       subtotal discount shipping_cost total_price "");
  do items <- gets (fun db => Cart_items db cart);
  run for_each items (fun item =>
    do variant <- gets (fun db => CartItem_variant db item);
    OrderItem_create
      (OrderItem.mk (Order_pk order)
         (match variant with
          | Some v => Some (ProductVariant.product_id v)
          | None => None
          end)
         (CartItem.variant_id item)
         (CartItem.product_title item)
         (CartItem.variant_sku item)
         (CartItem.variant_attributes item)
         (CartItem.quantity item)
         (CartItem.price_snapshot item)
         (CartItem_get_total item)));
  run Cart_clear cart;
  ret order.

(** ** api/serializers/order.py *)

(** [serializer.validated_data] of [CreateOrderSerializer].  The field
    declarations (types, lengths, choices) are the record's types;
    [shipping_cost] stays optional because the view tests it for [None]. *)
Module CreateOrderData.
Record t := mk {
  billing_address_id : option Z;
  shipping_address_id : option Z;
  guest_email : option string;
  guest_phone : option string;
  guest_billing_address : option GuestAddress.t;
  guest_shipping_address : option GuestAddress.t;
  discount : Decimal;
  shipping_cost : option Decimal;
  notes : string;
  payment_method : PaymentMethod
}.
End CreateOrderData.

(** [request.user] is [Some] for an authenticated caller; [session_key] is
    [request.session.session_key]. *)
Module Request.
Record t := mk {
  user : option Z;
  session_key : option string
}.
End Request.

(** [CreateOrderSerializer.validate]: [true] when no [ValidationError] is
    raised. *)
Definition CreateOrderSerializer_validate (request : Request.t)
    (data : CreateOrderData.t) : bool :=
  match Request.user request with
  | Some _ =>
      if negb (truthy_int (CreateOrderData.billing_address_id data))
         && negb (bool_decide (is_Some (CreateOrderData.guest_billing_address data)))
      then false
      else if negb (truthy_int (CreateOrderData.shipping_address_id data))
              && negb (bool_decide (is_Some (CreateOrderData.guest_shipping_address data)))
      then false
      else true
  | None =>
      if negb (bool_decide (is_Some (CreateOrderData.guest_billing_address data)))
      then false
      else if negb (bool_decide (is_Some (CreateOrderData.guest_shipping_address data)))
      then false
      else true
  end.

(** ** api/views/order.py *)

(** The helpers of [api/utils.py] that build a response, and an exception
    that leaves the view uncaught.  [error_response_exn prefix e code] is
    [error_response(message=prefix + str(e), status_code=code)]. *)
Inductive Response :=
| success_response (data : Order.t) (message : string)
| created_response (data : Order.t) (message : string)
| bad_request_response (message : string)
| not_found_response (message : string)
| error_response_exn (prefix : string) (e : exn) (status_code : Z)
| unhandled (e : exn).

Definition OrderStatus_str (s : OrderStatus) : string :=
  match s with
  | pending => "pending"
  | processing => "processing"
  | shipped => "shipped"
  | delivered => "delivered"
  | cancelled => "cancelled"
  end.

(** [address_type.capitalize()] *)
Definition AddressType_capitalize (ty : AddressType) : string :=
  match ty with
  | billing => "Billing"
  | shipping => "Shipping"
  end.

Definition CreateOrderView_get_cart (db : Db) (request : Request.t) : option Cart.t :=
  match Request.user request with
  | Some uid => head (filter (fun c => Cart.user c = Some uid) (carts db))
  | None =>
      if negb (truthy_str (Request.session_key request)) then None
      else head (filter (fun c => Cart.session_key c = Request.session_key request
                                  ∧ Cart.user c = None) (carts db))
  end.

(** [_get_or_create_address]; the view calls it for an authenticated
    caller only, whose key is [uid]. *)
Definition CreateOrderView_get_or_create_address (uid : Z)
    (address_id : option Z) (guest_address_data : option GuestAddress.t)
    (ty : AddressType) : M Address.t :=
  if truthy_int address_id then
    do found <- gets (fun db =>
      filter (fun a => Address.id a = address_id ∧ Address.user a = uid)
             (addresses db));
    match found with
    | [a] => ret a
    | [] => raise (ValueError (AddressType_capitalize ty +:+ " address not found"))
    | _ => raise (MultipleObjectsReturned "Address")
    end
  else
    match guest_address_data with
    | Some g =>
        Address_save
          (Address.mk None uid (GuestAddress.label g) ty
             (GuestAddress.street g) (GuestAddress.city g)
             (GuestAddress.state g) (GuestAddress.postal_code g)
             (GuestAddress.country g) (GuestAddress.phone g) false false)
    | None => raise (ValueError (AddressType_capitalize ty +:+ " address is required"))
    end.

Definition CreateOrderView_calculate_shipping_cost_from_address
    (shipping_address : Address.t) : Decimal :=
  let city := lower (strip (Address.city shipping_address)) in
  if String.eqb city "dhaka" then Decimal_of_int 60 else Decimal_of_int 120.

Definition CreateOrderView_calculate_shipping_cost_from_data
    (shipping_data : GuestAddress.t) : Decimal :=
  let city := lower (strip (GuestAddress.city shipping_data)) in
  if String.eqb city "dhaka" then Decimal_of_int 60 else Decimal_of_int 120.

(** The stock validation loop of [post]: the outcome of the first item
    whose quantity exceeds its stock, [None] when the loop runs to its
    end.  [CartItem] defines [get_display_title] but no
    [get_display_name], so building the message raises before
    [bad_request_response] is reached. *)
Fixpoint CreateOrderView_validate_stock (db : Db) (items : list CartItem.t)
  : option Response :=
  match items with
  | [] => None
  | item :: rest =>
      let available_stock := CartItem_get_stock db item in
      if available_stock <? CartItem.quantity item
      then Some (unhandled (AttributeError "CartItem" "get_display_name"))
      else CreateOrderView_validate_stock db rest
  end.

(** The stock update of one cart line inside [post]. *)
Definition CreateOrderView_reduce_stock (cart_item : CartItem.t) : M unit :=
  modify (fun db =>
    match CartItem.variant_id cart_item, CartItem_variant db cart_item with
    | Some k, Some v =>
        set_variants
          (<[k := ProductVariant.set_stock
                    (ProductVariant.stock v - CartItem.quantity cart_item) v]>
             (variants db)) db
    | _, _ =>
        match CartItem.product_id cart_item, CartItem_product db cart_item with
        | Some k, Some p =>
            set_products
              (<[k := Product.set_stock
                        (Product.stock p - CartItem.quantity cart_item) p]>
                 (products db)) db
        | _, _ => db
        end
    end).

(** The shipping cost selection of [post]: the caller's value when it is
    positive, else the tier of the shipping city. *)
Definition CreateOrderView_shipping_cost (provided_shipping_cost : option Decimal)
    (shipping_address : option Address.t)
    (guest_shipping_data : option GuestAddress.t) : Decimal :=
  let calculated :=
    match shipping_address, guest_shipping_data with
    | Some a, _ => CreateOrderView_calculate_shipping_cost_from_address a
    | None, Some d => CreateOrderView_calculate_shipping_cost_from_data d
    | None, None => Decimal_of_int 120
    end in
  match provided_shipping_cost with
  | Some c => if 0 <? c then c else calculated
  | None => calculated
  end.

(** One turn of the loop over the cart lines in [post]: the order line,
    then the stock update. *)
Definition CreateOrderView_create_order_item (order : Order.t)
    (cart_item : CartItem.t) : M unit :=
  do product <- gets (fun db =>
    match CartItem_product db cart_item, CartItem_variant db cart_item with
    | Some _, _ => CartItem.product_id cart_item
    | None, Some v => Some (ProductVariant.product_id v)
    | None, None => None
    end);
  run OrderItem_create
    (OrderItem.mk (Order_pk order) product
       (CartItem.variant_id cart_item)
       (CartItem.product_title cart_item)
       (CartItem.variant_sku cart_item)
       (CartItem.variant_attributes cart_item)
       (CartItem.quantity cart_item)
       (CartItem.price_snapshot cart_item)
       (CartItem_get_total cart_item));
  CreateOrderView_reduce_stock cart_item.

(** The body of the [transaction.atomic()] block of [post]. *)
Definition CreateOrderView_transaction (request : Request.t)
    (data : CreateOrderData.t) (cart : Cart.t) : M Order.t :=
  do resolved <-
    match Request.user request with
    | Some uid =>
        do billing_address <- CreateOrderView_get_or_create_address uid
          (CreateOrderData.billing_address_id data)
          (CreateOrderData.guest_billing_address data) billing;
        do shipping_address <- CreateOrderView_get_or_create_address uid
          (CreateOrderData.shipping_address_id data)
          (CreateOrderData.guest_shipping_address data) shipping;
        ret (Some billing_address, Some shipping_address, None, None)
    | None =>
        ret (None, None, CreateOrderData.guest_billing_address data,
             CreateOrderData.guest_shipping_address data)
    end;
  let '(billing_address, shipping_address, guest_billing_data, guest_shipping_data) :=
    resolved in
  let provided_shipping_cost := CreateOrderData.shipping_cost data in
  let shipping_cost :=
    CreateOrderView_shipping_cost provided_shipping_cost shipping_address
      guest_shipping_data in
  do subtotal <- gets (fun db => Cart_get_subtotal db cart);
  let discount := CreateOrderData.discount data in
  let total_price := subtotal - discount + shipping_cost in
  do order <- Order_save
    (Order.mk None
       (Request.user request)
       (match Request.user request with
        | Some _ => None
        | None => Cart.session_key cart
        end)
       "" pending unpaid
       (billing_address ≫= Address.id)
       (shipping_address ≫= Address.id)
       (CreateOrderData.guest_email data)
       (CreateOrderData.guest_phone data)
       guest_billing_data
       guest_shipping_data
       subtotal discount shipping_cost total_price
       (CreateOrderData.notes data));
  do items <- gets (fun db => Cart_items db cart);
  run for_each items (CreateOrderView_create_order_item order);
  run Payment_create
    (Payment.mk (Order_pk order) (CreateOrderData.payment_method data)
       total_price false);
  run Cart_clear cart;
  ret order.

(** [CreateOrderView.post].  [data] is what the serializer's fields parsed;
    [is_valid()] then runs [validate]. *)
Definition CreateOrderView_post (request : Request.t) (data : CreateOrderData.t)
    (db : Db) : Response * Db :=
  if negb (CreateOrderSerializer_validate request data)
  then (bad_request_response "Invalid data", db)
  else
    match CreateOrderView_get_cart db request with
    | None => (bad_request_response "Cart not found", db)
    | Some cart =>
        if (length (Cart_items db cart) =? 0)%nat
        then (bad_request_response "Cart is empty", db)
        else
          match CreateOrderView_validate_stock db (Cart_items db cart) with
          | Some response => (response, db)
          | None =>
              match atomic (CreateOrderView_transaction request data cart) db with
              | (Ok order, db') =>
                  (created_response order "Order created successfully", db')
              | (Raise e, db') =>
                  (error_response_exn "Failed to create order: " e 500, db')
              end
          end
    end.

(** [Order.objects.get(...)] on the rows selected by [P]. *)
Definition Order_get (P : Order.t -> Prop) `{forall o, Decision (P o)}
    (db : Db) : result Order.t :=
  match filter P (orders db) with
  | [o] => Ok o
  | [] => Raise (DoesNotExist "Order")
  | _ => Raise (MultipleObjectsReturned "Order")
  end.

(** The stock update of one order line inside [patch]. *)
Definition CancelOrderView_restore_stock (item : OrderItem.t) : M unit :=
  modify (fun db =>
    match OrderItem.variant_id item ≫= fun k => pair k <$> variants db !! k with
    | Some (k, v) =>
        set_variants
          (<[k := ProductVariant.set_stock
                    (ProductVariant.stock v + OrderItem.quantity item) v]>
             (variants db)) db
    | None =>
        match OrderItem.product_id item ≫= fun k => pair k <$> products db !! k with
        | Some (k, p) =>
            set_products
              (<[k := Product.set_stock
                        (Product.stock p + OrderItem.quantity item) p]>
                 (products db)) db
        | None => db
        end
    end).

(** The order lookup of [patch], scoped to the caller. *)
Definition CancelOrderView_get_order (request : Request.t) (order_number : string)
    (db : Db) : result Order.t :=
  match Request.user request with
  | Some uid =>
      Order_get (fun o => Order.order_number o = order_number
                          ∧ Order.user o = Some uid) db
  | None =>
      if negb (truthy_str (Request.session_key request))
      then Raise (DoesNotExist "Order")
      else
        Order_get (fun o => Order.order_number o = order_number
                            ∧ Order.session_key o = Request.session_key request
                            ∧ Order.user o = None) db
  end.

Definition CancelOrderView_patch (request : Request.t) (order_number : string)
    (db : Db) : Response * Db :=
  match CancelOrderView_get_order request order_number db with
  | Raise (DoesNotExist _) => (not_found_response "Order not found", db)
  | Raise e => (unhandled e, db)
  | Ok order =>
      if bool_decide (Order.status order ∈ [shipped; delivered; cancelled])
      then (bad_request_response
              ("Cannot cancel order with status: "
               +:+ OrderStatus_str (Order.status order)), db)
      else if bool_decide (Order.payment_status order = paid)
      then (bad_request_response
              "Cannot cancel paid order. Please contact support for refund.", db)
      else
        match atomic (
          run for_each (Order_items db order) CancelOrderView_restore_stock;
          Order_save (Order.set_status cancelled failed order)) db
        with
        | (Ok order', db') =>
            (success_response order' "Order cancelled successfully", db')
        | (Raise e, db') => (unhandled e, db')
        end
  end.

(** [OrderDetailView.get]; the lookup is the one of [CancelOrderView.patch],
    and [Order.DoesNotExist] is the only exception the view catches. *)
Definition OrderDetailView_get (request : Request.t) (order_number : string)
    (db : Db) : Response :=
  let found :=
    match Request.user request with
    | Some uid =>
        Order_get (fun o => Order.order_number o = order_number
                            ∧ Order.user o = Some uid) db
    | None =>
        if negb (truthy_str (Request.session_key request))
        then Raise (DoesNotExist "Order")
        else
          Order_get (fun o => Order.order_number o = order_number
                              ∧ Order.session_key o = Request.session_key request
                              ∧ Order.user o = None) db
    end in
  match found with
  | Ok order => success_response order "Order details retrieved successfully"
  | Raise (DoesNotExist _) => not_found_response "Order not found"
  | Raise e => unhandled e
  end.

(** ** api/views/cart.py *)

(** [CartView._merge_carts].  [guest_cart.items.all()] is read once, when
    the loop starts; the user cart is queried again for every guest item.
    The ORM compiles [filter(variant=None)] to [variant IS NULL]. *)
Definition CartView_merge_carts (guest_cart user_cart : Cart.t) : M unit :=
  atomic (
    do guest_items <- gets (fun db => Cart_items db guest_cart);
    run for_each guest_items (fun guest_item =>
      do user_item <- gets (fun db =>
        head (filter (fun it => CartItem.variant_id it = CartItem.variant_id guest_item)
                     (Cart_items db user_cart)));
      match user_item with
      | Some user_item =>
          CartItem_save
            (CartItem.set_quantity
               (CartItem.quantity user_item + CartItem.quantity guest_item)
               user_item)
      | None => CartItem_save (CartItem.set_cart_id (Cart.id user_cart) guest_item)
      end);
    Cart_delete guest_cart).

(** ** cart/models.py: the remaining methods of a cart line *)

(** The instance as [CartItem.save] leaves it before the row is written:
    the snapshot and the backup columns refreshed from the target. *)
Definition CartItem_presave (db : Db) (self : CartItem.t) : CartItem.t :=
  match CartItem_variant db self, CartItem_product db self with
  | Some v, _ =>
      CartItem.mk (CartItem.id self) (CartItem.cart_id self)
        (CartItem.variant_id self) (CartItem.product_id self)
        (ProductVariant.sku v)
        (match ProductVariant_product db v with
         | Some p => Product.title p
         | None => CartItem.product_title self
         end)
        (ProductVariant_get_attributes_display v)
        (CartItem.quantity self)
        (if CartItem.price_snapshot self =? 0
         then ProductVariant_get_effective_price v
         else CartItem.price_snapshot self)
  | None, Some p =>
      CartItem.mk (CartItem.id self) (CartItem.cart_id self)
        (CartItem.variant_id self) (CartItem.product_id self)
        ("PROD-" +:+ pretty (default 0 (CartItem.product_id self)))
        (Product.title p)
        ""
        (CartItem.quantity self)
        (if CartItem.price_snapshot self =? 0
         then Product_sale_price_or_price p
         else CartItem.price_snapshot self)
  | None, None => self
  end.




(** [item.cart] *)
Definition CartItem_cart (db : Db) (self : CartItem.t) : option Cart.t :=
  head (filter (fun c => Cart.id c = CartItem.cart_id self) (carts db)).

(** ** api/serializers/cart.py: the request serializers *)

(** What [AddToCartSerializer]'s fields parse from a request. *)
Module AddToCartData.
Record t := mk {
  variant_id : option Z;
  product_id : option Z;
  quantity : Z
}.
End AddToCartData.

(** [product.variants.filter(is_active=True).exists()] for the product
    with key [k]. *)
Definition Product_has_active_variants (db : Db) (k : Z) : bool :=
  existsb (fun kv => (ProductVariant.product_id kv.2 =? k)
                     && ProductVariant.is_active kv.2)
          (map_to_list (variants db)).

(** [AddToCartSerializer.validate]: the message of the [ValidationError]
    it raises, [None] when it returns. *)
Definition AddToCartSerializer_validate (db : Db) (data : AddToCartData.t)
  : option string :=
  let variant_id := AddToCartData.variant_id data in
  let product_id := AddToCartData.product_id data in
  if negb (truthy_int variant_id) && negb (truthy_int product_id)
  then Some "Either variant_id or product_id must be provided"
  else if truthy_int variant_id && truthy_int product_id
  then Some "Cannot provide both variant_id and product_id"
  else
    let variant_error :=
      if truthy_int variant_id then
        match variant_id ≫= fun k => variants db !! k with
        | Some variant =>
            if negb (ProductVariant.is_active variant)
            then Some "This product variant is not available"
            else if ProductVariant.stock variant <? AddToCartData.quantity data
            then Some ("Only " +:+ pretty (ProductVariant.stock variant)
                       +:+ " items available in stock")
            else None
        | None => Some "Variant not found"
        end
      else None in
    match variant_error with
    | Some e => Some e
    | None =>
        if truthy_int product_id then
          match product_id ≫= fun k => pair k <$> products db !! k with
          | Some (k, product) =>
              if negb (Product.is_active product)
              then Some "This product is not available"
              else if Product_has_active_variants db k
              then Some "This product has variants. Please use variant_id instead"
              else if Product.stock product <? AddToCartData.quantity data
              then Some ("Only " +:+ pretty (Product.stock product)
                         +:+ " items available in stock")
              else None
          | None => Some "Product not found"
          end
        else None
    end.

(** [serializer.is_valid()]: the field [quantity] has [min_value=1], then
    [validate] runs. *)
Definition AddToCartSerializer_is_valid (db : Db) (data : AddToCartData.t) : bool :=
  (1 <=? AddToCartData.quantity data)
  && bool_decide (AddToCartSerializer_validate db data = None).

(** [UpdateCartItemSerializer.is_valid()] on the parsed [quantity]. *)
Definition UpdateCartItemSerializer_is_valid (quantity : Z) : bool :=
  1 <=? quantity.

(** ** api/views/cart.py: the views that change a cart *)

(** What the surroundings hand to a request that inserts rows: the key the
    database assigns to a new cart and to a new cart line, and the key of
    the session [request.session.create()] opens. *)
Module Fresh.
Record t := mk {
  cart_id : Z;
  cart_item_id : Z;
  session_key : string
}.
End Fresh.

(** The responses of the cart views.  [item_created_response] carries the
    serialized line and the [debug] entries [cart_id] and [session_key]. *)
Inductive CartResponse :=
| item_created_response (cart_item : CartItem.t) (cart_id : Z)
    (session_key : option string) (message : string)
| item_success_response (cart_item : CartItem.t) (message : string)
| cart_success_response (message : string)
| cart_bad_request_response (message : string)
| cart_not_found_response (message : string)
| cart_unhandled (e : exn).

(** [Cart.objects.get_or_create(...)] on the rows selected by [P]; [new] is
    the row [create] inserts.  A new cart is the most recently updated
    one, the first in the order of [Cart.Meta.ordering]. *)
Definition Cart_get_or_create (P : Cart.t -> Prop) `{forall c, Decision (P c)}
    (new : Cart.t) : M Cart.t :=
  fun db =>
    match filter P (carts db) with
    | [cart] => (Ok cart, db)
    | [] => (Ok new, set_carts (new :: carts db) db)
    | _ => (Raise (MultipleObjectsReturned "Cart"), db)
    end.

(** [AddToCartView._get_or_create_cart]: the cart, and the request with the
    session the method may have opened. *)
Definition AddToCartView_get_or_create_cart (fresh : Fresh.t) (request : Request.t)
  : M (Cart.t * Request.t) :=
  match Request.user request with
  | Some uid =>
      do cart <- Cart_get_or_create (fun c => Cart.user c = Some uid)
                   (Cart.mk (Fresh.cart_id fresh) (Some uid) None);
      ret (cart, request)
  | None =>
      let request :=
        if negb (truthy_str (Request.session_key request))
        then Request.mk None (Some (Fresh.session_key fresh))
        else request in
      let session_key := Request.session_key request in
      do cart <- Cart_get_or_create
                   (fun c => Cart.session_key c = session_key ∧ Cart.user c = None)
                   (Cart.mk (Fresh.cart_id fresh) None session_key);
      ret (cart, request)
  end.

(** [CartItem.objects.get_or_create(..., defaults=...)] on the rows
    selected by [P]; [new] is the instance [create] saves, inside a
    savepoint.  After an [IntegrityError] the lookup is tried once more. *)
Definition CartItem_get_or_create (P : CartItem.t -> Prop)
    `{forall i, Decision (P i)} (new : CartItem.t) : M (CartItem.t * bool) :=
  fun db =>
    match filter P (cart_items db) with
    | [cart_item] => (Ok (cart_item, false), db)
    | [] =>
        match atomic (CartItem_save new) db with
        | (Ok _, db') => (Ok (CartItem_presave db new, true), db')
        | (Raise (IntegrityError c), db') =>
            match filter P (cart_items db') with
            | [cart_item] => (Ok (cart_item, false), db')
            | [] => (Raise (IntegrityError c), db')
            | _ => (Raise (MultipleObjectsReturned "CartItem"), db')
            end
        | (Raise e, db') => (Raise e, db')
        end
    | _ => (Raise (MultipleObjectsReturned "CartItem"), db)
    end.

(** [AddToCartView.post].  [x if x else y] on a nullable decimal takes [y]
    for [None] and for zero.  A missing [effective_price] is written as 0:
    [CartItem.save] treats both alike, and a line without a target is
    refused by the check constraint whatever its price. *)
Definition AddToCartView_post (fresh : Fresh.t) (request : Request.t)
    (data : AddToCartData.t) (db : Db) : CartResponse * Db :=
  if negb (AddToCartSerializer_is_valid db data)
  then (cart_bad_request_response "Invalid data", db)
  else
    let variant_id := AddToCartData.variant_id data in
    let product_id := AddToCartData.product_id data in
    let quantity := AddToCartData.quantity data in
    let resolved :=
      if truthy_int variant_id then
        match variant_id ≫= fun k => pair k <$> variants db !! k with
        | Some (k, variant) =>
            Ok (Some (k, variant), None,
                Some (match ProductVariant.sale_price variant with
                      | Some sp => if sp =? 0 then ProductVariant.price variant else sp
                      | None => ProductVariant.price variant
                      end),
                ProductVariant.stock variant)
        | None => Raise (DoesNotExist "Variant")
        end
      else if truthy_int product_id then
        match product_id ≫= fun k => pair k <$> products db !! k with
        | Some (k, product) =>
            Ok (None, Some (k, product),
                Some (match Product.sale_price product with
                      | Some sp => if sp =? 0 then Product.price product else sp
                      | None => Product.price product
                      end),
                Product.stock product)
        | None => Raise (DoesNotExist "Product")
        end
      else Ok (None, None, None, 0) in
    match resolved with
    | Raise (DoesNotExist model) =>
        (cart_not_found_response (model +:+ " not found"), db)
    | Raise e => (cart_unhandled e, db)
    | Ok (variant, product, effective_price, stock) =>
        if stock <? quantity
        then (cart_bad_request_response
                ("Only " +:+ pretty stock +:+ " items available in stock"), db)
        else
          match AddToCartView_get_or_create_cart fresh request db with
          | (Raise e, db) => (cart_unhandled e, db)
          | (Ok (cart, request), db) =>
              let new :=
                CartItem.mk (Fresh.cart_item_id fresh) (Cart.id cart)
                  (fst <$> variant) (fst <$> product) "" "" "" quantity
                  (default 0 effective_price) in
              let found :=
                match variant with
                | Some (k, _) =>
                    CartItem_get_or_create
                      (fun it => CartItem.cart_id it = Cart.id cart
                                 ∧ CartItem.variant_id it = Some k) new db
                | None =>
                    CartItem_get_or_create
                      (fun it => CartItem.cart_id it = Cart.id cart
                                 ∧ CartItem.product_id it = fst <$> product) new db
                end in
              match found with
              | (Raise e, db) => (cart_unhandled e, db)
              | (Ok (cart_item, true), db) =>
                  (item_created_response cart_item (Cart.id cart)
                     (Request.session_key request)
                     "Item added to cart successfully", db)
              | (Ok (cart_item, false), db) =>
                  let new_quantity := CartItem.quantity cart_item + quantity in
                  if stock <? new_quantity
                  then (cart_bad_request_response
                          ("Only " +:+ pretty stock +:+ " items available in stock"),
                        db)
                  else
                    let cart_item := CartItem.set_quantity new_quantity cart_item in
                    match CartItem_save cart_item db with
                    | (Ok _, db') =>
                        (item_created_response (CartItem_presave db cart_item)
                           (Cart.id cart) (Request.session_key request)
                           "Item added to cart successfully", db')
                    | (Raise e, db') => (cart_unhandled e, db')
                    end
              end
          end
    end.

(** [UpdateCartItemView._get_cart_item]: the line with key [pk] whose cart
    satisfies the caller's condition ([cart__user=request.user], or
    [cart__session_key=session_key, cart__user__isnull=True]). *)
Definition UpdateCartItemView_get_cart_item (request : Request.t) (pk : Z)
    (db : Db) : result CartItem.t :=
  let get (owner : Cart.t -> bool) :=
    match filter (fun it => CartItem.id it = pk
                            ∧ from_option owner false (CartItem_cart db it) = true)
                 (cart_items db) with
    | [cart_item] => Ok cart_item
    | [] => Raise (DoesNotExist "CartItem")
    | _ => Raise (MultipleObjectsReturned "CartItem")
    end in
  match Request.user request with
  | Some uid => get (fun c => bool_decide (Cart.user c = Some uid))
  | None =>
      if negb (truthy_str (Request.session_key request))
      then Raise (DoesNotExist "CartItem")
      else get (fun c => bool_decide (Cart.session_key c = Request.session_key request
                                      ∧ Cart.user c = None))
  end.

(** [UpdateCartItemView.patch]; [quantity] is what the serializer's field
    parsed. *)
Definition UpdateCartItemView_patch (request : Request.t) (pk : Z) (quantity : Z)
    (db : Db) : CartResponse * Db :=
  if negb (UpdateCartItemSerializer_is_valid quantity)
  then (cart_bad_request_response "Invalid data", db)
  else
    match UpdateCartItemView_get_cart_item request pk db with
    | Raise (DoesNotExist _) => (cart_not_found_response "Cart item not found", db)
    | Raise e => (cart_unhandled e, db)
    | Ok cart_item =>
        let stock := CartItem_get_stock db cart_item in
        if stock <? quantity
        then (cart_bad_request_response
                ("Only " +:+ pretty stock +:+ " items available in stock"), db)
        else
          let cart_item := CartItem.set_quantity quantity cart_item in
          match CartItem_save cart_item db with
          | (Ok _, db') =>
              (item_success_response (CartItem_presave db cart_item)
                 "Cart item updated successfully", db')
          | (Raise e, db') => (cart_unhandled e, db')
          end
    end.

(** [UpdateCartItemView.delete] *)
Definition UpdateCartItemView_delete (request : Request.t) (pk : Z) (db : Db)
  : CartResponse * Db :=
  match UpdateCartItemView_get_cart_item request pk db with
  | Raise (DoesNotExist _) => (cart_not_found_response "Cart item not found", db)
  | Raise e => (cart_unhandled e, db)
  | Ok cart_item =>
      (cart_success_response "Cart item removed successfully",
       set_cart_items
         (filter (fun it => CartItem.id it ≠ CartItem.id cart_item) (cart_items db))
         db)
  end.

(** [ClearCartView._get_cart] *)
Definition ClearCartView_get_cart (db : Db) (request : Request.t) : option Cart.t :=
  match Request.user request with
  | Some uid => head (filter (fun c => Cart.user c = Some uid) (carts db))
  | None =>
      if negb (truthy_str (Request.session_key request)) then None
      else head (filter (fun c => Cart.session_key c = Request.session_key request
                                  ∧ Cart.user c = None) (carts db))
  end.

(** [ClearCartView.delete] *)
Definition ClearCartView_delete (request : Request.t) (db : Db) : CartResponse * Db :=
  match ClearCartView_get_cart db request with
  | Some cart =>
      match Cart_clear cart db with
      | (Ok _, db') => (cart_success_response "Cart cleared successfully", db')
      | (Raise e, db') => (cart_unhandled e, db')
      end
  | None => (cart_success_response "Cart is already empty", db)
  end.

(** ** catalog/models.py: the stock of a product's variants *)

(** [self.variants.filter(is_active=True)] for the product with key [k]. *)
Definition Product_active_variants (db : Db) (k : Z) : list ProductVariant.t :=
  filter (fun v => ProductVariant.product_id v = k
                   ∧ ProductVariant.is_active v = true)
         (snd <$> map_to_list (variants db)).

(** [Product.get_total_stock]; [Sum] over no rows is [None]. *)
Definition Product_get_total_stock (db : Db) (k : Z) : Z :=
  let total :=
    match Product_active_variants db k with
    | [] => None
    | rows => Some (sum (map ProductVariant.stock rows))
    end in
  if truthy_int total then default 0 total else 0.

Definition Product_is_in_stock (db : Db) (k : Z) : bool :=
  bool_decide (filter (fun v => 0 < ProductVariant.stock v)
                      (Product_active_variants db k) ≠ []).

(** [Product.is_low_stock]; [low_stock_threshold] is the product's column
    of that name. *)
Definition Product_is_low_stock (db : Db) (k : Z) (low_stock_threshold : Z) : bool :=
  let total := Product_get_total_stock db k in
  (0 <? total) && (total <=? low_stock_threshold).

(** ** accounts/models.py: users and password reset tokens *)

Module User.
(** [password] stands for the salted hash that [set_password] stores: it is
    the raw password the hash was derived from, the one [check_password]
    accepts. *)
Record t := mk {
  id : Z;
  email : string;
  name : string;
  password : string
}.
Definition set_password (raw_password : string) (u : t) : t :=
  mk (id u) (email u) (name u) raw_password.
End User.

Module PasswordResetToken.
(** A time is a number of microseconds.  [created_at] only orders the
    table, which is kept in that order. *)
Record t := mk {
  id : Z;
  user : Z;
  token : string;
  expires_at : Z;
  used : bool
}.
Definition set_used (b : bool) (r : t) : t :=
  mk (id r) (user r) (token r) (expires_at r) b.
End PasswordResetToken.

(** The tables of the accounts app that a password reset reads and writes.
    [reset_tokens] is in the order of [Meta.ordering], newest first;
    [reset_token_seq] is the next key of that table. *)
Record Accounts := mkAccounts {
  users : list User.t;
  reset_tokens : list PasswordResetToken.t;
  reset_token_seq : Z
}.

(** [timedelta(hours=1)] *)
Definition hour : Z := 3600 * 1000000.

(** [cls.objects.filter(user=user, used=False).update(used=True)] *)
Definition PasswordResetToken_invalidate (user : Z)
    (rows : list PasswordResetToken.t) : list PasswordResetToken.t :=
  map (fun r => if (PasswordResetToken.user r =? user)
                   && negb (PasswordResetToken.used r)
                then PasswordResetToken.set_used true r else r) rows.

(** [PasswordResetToken.generate_token].  [now] is what [timezone.now()]
    returns and [token] what [secrets.token_urlsafe(32)] returns; [token]
    is a unique column.  Nothing here runs in a transaction: when the
    insert fails, the update before it stays. *)
Definition PasswordResetToken_generate_token (now : Z) (token : string) (user : Z)
    (db : Accounts) : result PasswordResetToken.t * Accounts :=
  let rows := PasswordResetToken_invalidate user (reset_tokens db) in
  let expires_at := now + hour in
  if existsb (fun r => String.eqb (PasswordResetToken.token r) token) rows
  then (Raise (IntegrityError "password_reset_tokens.token"),
        mkAccounts (users db) rows (reset_token_seq db))
  else
    let new := PasswordResetToken.mk (reset_token_seq db) user token expires_at
                 false in
    (Ok new, mkAccounts (users db) (new :: rows) (reset_token_seq db + 1)).

Definition PasswordResetToken_is_valid (now : Z) (self : PasswordResetToken.t)
  : bool :=
  negb (PasswordResetToken.used self)
  && (now <? PasswordResetToken.expires_at self).

(** ** api/serializers/auth.py: the password reset *)

(** The outcome of a serializer's validation: the validated value, the
    [ValidationError] raised for a field, or another exception. *)
Inductive Validated (A : Type) :=
| Valid (a : A)
| Invalid (field message : string)
| Crashed (e : exn).
Arguments Valid {A} a.
Arguments Invalid {A} field message.
Arguments Crashed {A} e.

(** [PasswordResetToken.objects.get(token=value)] *)
Definition PasswordResetToken_get (value : string) (db : Accounts)
  : result PasswordResetToken.t :=
  match filter (fun r => PasswordResetToken.token r = value) (reset_tokens db) with
  | [reset_token] => Ok reset_token
  | [] => Raise (DoesNotExist "PasswordResetToken")
  | _ => Raise (MultipleObjectsReturned "PasswordResetToken")
  end.

(** [ForgotPasswordSerializer.validate_email]: the user the serializer
    remembers, [None] when no account has the address. *)
Definition ForgotPasswordSerializer_validate_email (value : string) (db : Accounts)
  : result (option User.t) :=
  match filter (fun u => User.email u = lower value) (users db) with
  | [user] => Ok (Some user)
  | [] => Ok None
  | _ => Raise (MultipleObjectsReturned "User")
  end.

(** [VerifyResetTokenSerializer.validate_token]: the token row it
    remembers. *)
Definition VerifyResetTokenSerializer_validate_token (now : Z) (value : string)
    (db : Accounts) : Validated PasswordResetToken.t :=
  match PasswordResetToken_get value db with
  | Ok reset_token =>
      if negb (PasswordResetToken_is_valid now reset_token)
      then Invalid "token" "Token has expired or already been used"
      else Valid reset_token
  | Raise (DoesNotExist _) => Invalid "token" "Invalid token"
  | Raise e => Crashed e
  end.

(** What [ResetPasswordSerializer]'s fields parse from a request. *)
Module ResetPasswordData.
Record t := mk {
  token : string;
  new_password : string;
  confirm_password : string
}.
End ResetPasswordData.

(** [ResetPasswordSerializer.validate]: the token row it remembers. *)
Definition ResetPasswordSerializer_validate (now : Z) (data : ResetPasswordData.t)
    (db : Accounts) : Validated PasswordResetToken.t :=
  if negb (String.eqb (ResetPasswordData.new_password data)
                      (ResetPasswordData.confirm_password data))
  then Invalid "confirm_password" "Passwords do not match"
  else
    match PasswordResetToken_get (ResetPasswordData.token data) db with
    | Ok reset_token =>
        if negb (PasswordResetToken_is_valid now reset_token)
        then Invalid "token" "Token has expired or already been used"
        else Valid reset_token
    | Raise (DoesNotExist _) => Invalid "token" "Invalid token"
    | Raise e => Crashed e
    end.

(** [ResetPasswordSerializer.save]: the user whose password was reset.
    Saving an instance writes the row with its key. *)
Definition ResetPasswordSerializer_save (reset_token : PasswordResetToken.t)
    (data : ResetPasswordData.t) (db : Accounts) : result User.t * Accounts :=
  match filter (fun u => User.id u = PasswordResetToken.user reset_token)
               (users db) with
  | [] => (Raise (DoesNotExist "User"), db)
  | user :: _ =>
      let user := User.set_password (ResetPasswordData.new_password data) user in
      let users' :=
        map (fun u => if User.id u =? User.id user then user else u) (users db) in
      let reset_token := PasswordResetToken.set_used true reset_token in
      let rows :=
        map (fun r => if PasswordResetToken.id r =? PasswordResetToken.id reset_token
                      then reset_token else r) (reset_tokens db) in
      let rows := PasswordResetToken_invalidate (User.id user) rows in
      (Ok user, mkAccounts users' rows (reset_token_seq db))
  end.

(** ** api/views/auth.py: the password reset views *)

(** The responses of the password reset views, with the address they
    carry in [data]. *)
Inductive AuthResponse :=
| auth_success_response (message : string) (email : option string)
| auth_error_response (message : string) (status_code : Z)
| auth_bad_request_response (message : string)
| auth_unhandled (e : exn).

(** [ForgotPasswordView.post] on an address that [EmailField] accepted.
    [mail_sent] tells whether [send_mail] returned; the view answers every
    exception of [send_reset_email] with status 500. *)
Definition ForgotPasswordView_post (now : Z) (token : string) (mail_sent : bool)
    (email : string) (db : Accounts) : AuthResponse * Accounts :=
  let sent :=
    auth_success_response
      "If an account exists with this email, you will receive a password reset link shortly."
      None in
  let failed :=
    auth_error_response "Failed to send reset email. Please try again." 500 in
  match ForgotPasswordSerializer_validate_email email db with
  | Raise e => (auth_unhandled e, db)
  | Ok None => (sent, db)
  | Ok (Some user) =>
      match PasswordResetToken_generate_token now token (User.id user) db with
      | (Ok _, db') => if mail_sent then (sent, db') else (failed, db')
      | (Raise _, db') => (failed, db')
      end
  end.

(** [ResetPasswordView.post] on data whose fields passed their own
    validators. *)
Definition ResetPasswordView_post (now : Z) (data : ResetPasswordData.t)
    (db : Accounts) : AuthResponse * Accounts :=
  match ResetPasswordSerializer_validate now data db with
  | Valid reset_token =>
      match ResetPasswordSerializer_save reset_token data db with
      | (Ok user, db') =>
          (auth_success_response
             "Password reset successfully. You can now login with your new password."
             (Some (User.email user)), db')
      | (Raise e, db') => (auth_unhandled e, db')
      end
  | Invalid _ _ => (auth_bad_request_response "Password reset failed", db)
  | Crashed e => (auth_unhandled e, db)
  end.

(** ** Vocabulary of the properties *)

(** The list price and the effective price of a cart line's target: the
    variant when the line has one, else the base product.  For a base
    product a sale price of zero counts as not set
    ([sale_price or price]). *)
Definition CartItem_list_price (db : Db) (self : CartItem.t) : Decimal :=
  match CartItem_variant db self, CartItem_product db self with
  | Some v, _ => ProductVariant.price v
  | None, Some p => Product.price p
  | None, None => 0
  end.

Definition CartItem_effective_price (db : Db) (self : CartItem.t) : Decimal :=
  match CartItem_variant db self, CartItem_product db self with
  | Some v, _ => ProductVariant_get_effective_price v
  | None, Some p => Product_sale_price_or_price p
  | None, None => 0
  end.

(** The savings formula with the clamp at zero:
    max(0, list_price - effective_price) * quantity. *)
Definition clamped_savings (db : Db) (self : CartItem.t) : Decimal :=
  Z.max 0 (CartItem_list_price db self - CartItem_effective_price db self)
  * CartItem.quantity self.

(** The same formula without the clamp. *)
Definition unclamped_savings (db : Db) (self : CartItem.t) : Decimal :=
  (CartItem_list_price db self - CartItem_effective_price db self)
  * CartItem.quantity self.

(** The check constraint [cart_item_variant_or_product] allows one target
    per line; this is the half of it the savings depend on. *)
Definition CartItem_single_target (self : CartItem.t) : Prop :=
  CartItem.variant_id self = None ∨ CartItem.product_id self = None.

(** The response of a checkout that created its order. *)
Definition is_created (r : Response) : Prop :=
  match r with
  | created_response _ _ => True
  | _ => False
  end.

(** The shipping tier of a city: 60 for the city that, stripped and
    lower-cased, is "dhaka", 120 for any other. *)
Definition shipping_tier (city : string) : Decimal :=
  if String.eqb (lower (strip city)) "dhaka"
  then Decimal_of_int 60 else Decimal_of_int 120.

(** The shipping cost a checkout should record for a shipping city. *)
Definition expected_shipping_cost (provided : option Decimal) (city : string)
  : Decimal :=
  match provided with
  | Some c => if 0 <? c then c else shipping_tier city
  | None => shipping_tier city
  end.

(** [order] ships to [city]: the city of its shipping address row, or of
    the inline address of a guest order. *)
Definition ships_to (db : Db) (order : Order.t) (city : string) : Prop :=
  (exists a, a ∈ addresses db ∧ is_Some (Address.id a)
             ∧ Order.shipping_address order = Address.id a
             ∧ Address.city a = city)
  ∨ (Order.shipping_address order = None
     ∧ exists g, Order.guest_shipping_address_data order = Some g
                 ∧ GuestAddress.city g = city).

(** The variant an order line points to. *)
Definition OrderItem_variant (db : Db) (self : OrderItem.t) : option ProductVariant.t :=
  OrderItem.variant_id self ≫= fun k => variants db !! k.

(** The quantity the lines [items] hand back to variant [k]: those that
    reference it. *)
Definition restored_to_variant (items : list OrderItem.t) (k : Z) : Z :=
  sum (map OrderItem.quantity
         (filter (fun i => OrderItem.variant_id i = Some k) items)).

(** The quantity the lines [items] hand back to product [k]: those that
    have no variant and reference it. *)
Definition restored_to_product (db : Db) (items : list OrderItem.t) (k : Z) : Z :=
  sum (map OrderItem.quantity
         (filter (fun i => OrderItem_variant db i = None
                           ∧ OrderItem.product_id i = Some k) items)).

(** What the database guarantees of the orders table: every row has its
    key, and [order_number] is unique. *)
Definition orders_indexed (db : Db) : Prop :=
  (forall o, o ∈ orders db -> is_Some (Order.id o))
  ∧ (forall o1 o2, o1 ∈ orders db -> o2 ∈ orders db ->
       Order.order_number o1 = Order.order_number o2 -> Order.id o1 = Order.id o2).

(** [o] is stored under key [k] with the generated number [n]. *)
Definition Order_generated (o : Order.t) (k n : Z) : Prop :=
  Order.id o = Some k ∧ Order.order_number o = "ORD-" +:+ pretty n.

(** The orders table of a single writer that never presets a number: keys
    come from the sequence, every number is generated and at most the
    row's key, and numbers grow with keys. *)
Definition orders_numbered (db : Db) : Prop :=
  1 <= order_seq db
  ∧ (forall o, o ∈ orders db ->
       exists k n, Order_generated o k n ∧ 1 <= n <= k ∧ k < order_seq db)
  ∧ (forall o1 o2 k1 k2 n1 n2, o1 ∈ orders db -> o2 ∈ orders db ->
       Order_generated o1 k1 n1 -> Order_generated o2 k2 n2 ->
       k1 < k2 -> n1 < n2)
  ∧ (forall o1 o2, o1 ∈ orders db -> o2 ∈ orders db ->
       Order.id o1 = Order.id o2 -> o1 = o2).

(** The number [Order.save] generates in [db]. *)
Definition Order_next_number (db : Db) : string :=
  "ORD-" +:+ pretty (match Order_last_id (orders db) with
                     | None => 1
                     | Some last_id => last_id + 1
                     end).

(** An instance that was never saved and has no preset number. *)
Definition Order_unsaved (o : Order.t) : Order.t :=
  Order.set_id None (Order.set_order_number "" o).

(** What a single writer does to the orders table. *)
Inductive order_op :=
| place_order (o : Order.t)
| delete_order (pk : Z).

Definition run_order_op (db : Db) (op : order_op) : Db :=
  match op with
  | place_order o => snd (Order_save (Order_unsaved o) db)
  | delete_order pk => snd (Order_delete pk db)
  end.

Definition run_order_ops (ops : list order_op) (db : Db) : Db :=
  foldl run_order_op db ops.

(** The order line [create_from_cart] writes for a cart line. *)
Definition OrderItem_of_cart_item (db : Db) (order : Order.t) (item : CartItem.t)
  : OrderItem.t :=
  OrderItem.mk (Order_pk order)
    (ProductVariant.product_id <$> CartItem_variant db item)
    (CartItem.variant_id item)
    (CartItem.product_title item)
    (CartItem.variant_sku item)
    (CartItem.variant_attributes item)
    (CartItem.quantity item)
    (CartItem.price_snapshot item)
    (CartItem.price_snapshot item * CartItem.quantity item).

(** The instance's key, when set, is one the sequence handed out. *)
Definition Address_saveable (db : Db) (a : Address.t) : Prop :=
  match Address.id a with
  | Some k => k < address_seq db
  | None => True
  end.

(** The ways an address reaches the table: [Address.save] on an instance,
    and the serializer's [create] and [update], which end in it. *)
Inductive address_op :=
| save_address (a : Address.t)
| create_address (user : Z) (validated_data : Address.t)
| update_address (instance : Address.t) (validated_data : AddressData.t).

Definition run_address_op (db : Db) (op : address_op) : Db :=
  match op with
  | save_address a => snd (Address_save a db)
  | create_address user validated_data =>
      snd (AddressSerializer_create user validated_data db)
  | update_address instance validated_data =>
      snd (AddressSerializer_update instance validated_data db)
  end.

Definition run_address_ops (ops : list address_op) (db : Db) : Db :=
  foldl run_address_op db ops.

(** Every instance saved along [ops] is new or carries a key the sequence
    handed out. *)
Fixpoint address_ops_keyed (db : Db) (ops : list address_op) : Prop :=
  match ops with
  | [] => True
  | op :: rest =>
      match op with
      | save_address a => Address_saveable db a
      | create_address _ _ => True
      | update_address instance _ => Address_saveable db instance
      end
      ∧ address_ops_keyed (run_address_op db op) rest
  end.

(** The default-billing (default-shipping) addresses of a user, and those
    of one address type. *)
Definition default_billing_addresses (db : Db) (u : Z) : list Address.t :=
  filter (fun a => Address.user a = u ∧ Address.is_default_billing a = true)
         (addresses db).

Definition default_shipping_addresses (db : Db) (u : Z) : list Address.t :=
  filter (fun a => Address.user a = u ∧ Address.is_default_shipping a = true)
         (addresses db).

Definition of_type (ty : AddressType) (l : list Address.t) : list Address.t :=
  filter (fun a => Address.address_type a = ty) l.

(** The addresses table as the database keeps it: keys from the sequence,
    no key twice, and the two conditional unique constraints. *)
Definition addresses_consistent (db : Db) : Prop :=
  (forall a, a ∈ addresses db ->
     exists k, Address.id a = Some k ∧ k < address_seq db)
  ∧ NoDup (Address.id <$> addresses db)
  ∧ (forall a b, a ∈ addresses db -> b ∈ addresses db ->
       Address.user a = Address.user b ->
       Address.address_type a = Address.address_type b ->
       (Address.is_default_billing a = true ->
        Address.is_default_billing b = true -> Address.id a = Address.id b)
       ∧ (Address.is_default_shipping a = true ->
          Address.is_default_shipping b = true -> Address.id a = Address.id b)).

(** The store [Address.save] hands to [super().save()]. *)
Definition Address_presave (self : Address.t) (db : Db) : Db :=
  let db1 := if Address.is_default_billing self
             then set_addresses
                    (Address_unset_other_default_billing self (addresses db))
                    (address_seq db) db
             else db in
  if Address.is_default_shipping self
  then set_addresses
         (Address_unset_other_default_shipping self (addresses db1))
         (address_seq db1) db1
  else db1.

(** The quantity the cart lines [items] take from variant [k]: those that
    reference it. *)
Definition reduced_from_variant (items : list CartItem.t) (k : Z) : Z :=
  sum (map CartItem.quantity
         (filter (fun i => CartItem.variant_id i = Some k) items)).

(** The quantity the cart lines [items] take from product [k]: those that
    have no variant and reference it. *)
Definition reduced_from_product (db : Db) (items : list CartItem.t) (k : Z) : Z :=
  sum (map CartItem.quantity
         (filter (fun i => CartItem_variant db i = None
                           ∧ CartItem.product_id i = Some k) items)).

(** The order line [post] writes for a cart line. *)
Definition OrderItem_of_checkout (db : Db) (order : Order.t) (item : CartItem.t)
  : OrderItem.t :=
  OrderItem.mk (Order_pk order)
    (match CartItem_product db item, CartItem_variant db item with
     | Some _, _ => CartItem.product_id item
     | None, Some v => Some (ProductVariant.product_id v)
     | None, None => None
     end)
    (CartItem.variant_id item)
    (CartItem.product_title item)
    (CartItem.variant_sku item)
    (CartItem.variant_attributes item)
    (CartItem.quantity item)
    (CartItem.price_snapshot item)
    (CartItem.price_snapshot item * CartItem.quantity item).

(** The key the sequence hands out next is not in use: no order carries
    it and no order line refers to it. *)
Definition order_seq_fresh (db : Db) : Prop :=
  (forall o, o ∈ orders db -> Order.id o ≠ Some (order_seq db))
  ∧ (forall i, i ∈ order_items db -> OrderItem.order_id i ≠ order_seq db).

(** [request] is the owner the order views look for in [o]. *)
Definition Order_owned_by (request : Request.t) (o : Order.t) : Prop :=
  match Request.user request with
  | Some uid => Order.user o = Some uid
  | None =>
      truthy_str (Request.session_key request) = true
      ∧ Order.session_key o = Request.session_key request
      ∧ Order.user o = None
  end.

(** The caller's condition on a cart: the user's cart for a signed-in
    caller, else the guest cart of the session. *)
Definition Cart_of_caller (user : option Z) (session_key : option string)
    (c : Cart.t) : Prop :=
  match user with
  | Some uid => Cart.user c = Some uid
  | None => Cart.session_key c = session_key ∧ Cart.user c = None
  end.

(** The line [it] is for the target an add request names. *)
Definition CartItem_targets (data : AddToCartData.t) (it : CartItem.t) : Prop :=
  if truthy_int (AddToCartData.variant_id data)
  then CartItem.variant_id it = AddToCartData.variant_id data
  else CartItem.product_id it = AddToCartData.product_id data.

Global Instance CartItem_targets_dec data it : Decision (CartItem_targets data it).
Proof. unfold CartItem_targets. destruct (truthy_int _); apply _. Defined.

(** The stock and the price of the target an add request names: the
    variant's when the request names a variant, else the product's.  The
    price is the sale price when it is set and not zero, else the list
    price. *)
Definition AddToCart_stock (db : Db) (data : AddToCartData.t) : Z :=
  if truthy_int (AddToCartData.variant_id data)
  then from_option ProductVariant.stock 0
         (AddToCartData.variant_id data ≫= fun k => variants db !! k)
  else from_option Product.stock 0
         (AddToCartData.product_id data ≫= fun k => products db !! k).

Definition AddToCart_price (db : Db) (data : AddToCartData.t) : Decimal :=
  if truthy_int (AddToCartData.variant_id data)
  then from_option
         (fun v => match ProductVariant.sale_price v with
                   | Some sp => if sp =? 0 then ProductVariant.price v else sp
                   | None => ProductVariant.price v
                   end) 0
         (AddToCartData.variant_id data ≫= fun k => variants db !! k)
  else from_option Product_sale_price_or_price 0
         (AddToCartData.product_id data ≫= fun k => products db !! k).

(** The line [post] builds when the cart has none for the target. *)
Definition CartItem_new (fresh : Fresh.t) (cart : Cart.t) (db : Db)
    (data : AddToCartData.t) : CartItem.t :=
  CartItem.mk (Fresh.cart_item_id fresh) (Cart.id cart)
    (if truthy_int (AddToCartData.variant_id data)
     then AddToCartData.variant_id data else None)
    (if truthy_int (AddToCartData.variant_id data)
     then None else AddToCartData.product_id data)
    "" "" "" (AddToCartData.quantity data) (AddToCart_price db data).

Definition is_item_created (r : CartResponse) : Prop :=
  match r with
  | item_created_response _ _ _ _ => True
  | _ => False
  end.

(** The line [it] sits in a cart that satisfies the caller's condition; a
    guest is a caller only with a session. *)
Definition CartItem_owned_by (db : Db) (request : Request.t) (it : CartItem.t)
  : Prop :=
  (Request.user request = None ->
   truthy_str (Request.session_key request) = true)
  ∧ exists c, CartItem_cart db it = Some c
              ∧ Cart_of_caller (Request.user request)
                  (Request.session_key request) c.

(** The keys and the session [fresh] hands out are new to the store, and
    the session key is not empty. *)
Definition Fresh_unused (fresh : Fresh.t) (db : Db) : Prop :=
  (forall c, c ∈ carts db -> Cart.id c ≠ Fresh.cart_id fresh)
  ∧ (forall it, it ∈ cart_items db ->
       CartItem.id it ≠ Fresh.cart_item_id fresh
       ∧ CartItem.cart_id it ≠ Fresh.cart_id fresh)
  ∧ Fresh.session_key fresh ≠ "".

Definition empty_db : Db :=
  mkDb ∅ ∅ [] 1 [] [] [] 1 [] [].

(** A catalogue with one product that has a variant and two products sold
    without variants. *)
Definition sample_products : gmap Z Product.t :=
  {[ 1 := Product.mk "Helmet" 10000 None 0 true;
     2 := Product.mk "Gloves" 5000 (Some 4000) 4 true;
     3 := Product.mk "Bell" 2000 None 9 true ]}.

Definition sample_variants : gmap Z ProductVariant.t :=
  {[ 1 := ProductVariant.mk 1 "HEL-RED-M" 10000 (Some 8000) 5 true ["Red"; "Medium"] ]}.

(** A variant whose sale price (120.00) is above its list price (100.00). *)
Definition overpriced_variants : gmap Z ProductVariant.t :=
  {[ 1 := ProductVariant.mk 1 "HEL-RED-M" 10000 (Some 12000) 5 true ["Red"; "Medium"] ]}.

Definition user_cart : Cart.t := Cart.mk 1 (Some 7) None.
Definition guest_cart : Cart.t := Cart.mk 2 None (Some "s3ss10n").

(** The cart of the specification's example: three units of a variant
    listed at 100.00, on sale at 80.00, five in stock. *)
Definition savings_db : Db :=
  mkDb sample_products sample_variants [] 1 [user_cart]
    [CartItem.mk 1 1 (Some 1) None "HEL-RED-M" "Helmet" "Red / Medium" 3 8000]
    [] 1 [] [].

Definition overpriced_db : Db :=
  mkDb sample_products overpriced_variants [] 1 [user_cart]
    [CartItem.mk 1 1 (Some 1) None "HEL-RED-M" "Helmet" "Red / Medium" 1 12000]
    [] 1 [] [].

(** A guest checkout: both addresses inline, no shipping cost supplied. *)
Definition dhaka_address : GuestAddress.t :=
  GuestAddress.mk "Guest Address" "01700000000" "12 Lake Road" " Dhaka "
    "Dhaka" "1207" "Bangladesh".

Definition sylhet_address : GuestAddress.t :=
  GuestAddress.mk "Guest Address" "01700000000" "3 Tea Garden" "Sylhet"
    "Sylhet" "3100" "Bangladesh".

Definition guest_request : Request.t := Request.mk None (Some "s3ss10n").
Definition user_request : Request.t := Request.mk (Some 7) (Some "s3ss10n").

Definition guest_checkout : CreateOrderData.t :=
  CreateOrderData.mk None None (Some "rider@example.com") (Some "01700000000")
    (Some dhaka_address) (Some dhaka_address) 500 (Some 0) "" cod.

(** The guest cart holds three units of the variant (five in stock) and two
    pairs of gloves (four in stock). *)
Definition checkout_db : Db :=
  mkDb sample_products sample_variants [] 1 [user_cart; guest_cart]
    [CartItem.mk 1 2 (Some 1) None "HEL-RED-M" "Helmet" "Red / Medium" 3 8000;
     CartItem.mk 2 2 None (Some 2) "PROD-2" "Gloves" "" 2 4000]
    [] 1 [] [].

(** The same cart asking for nine units of the variant. *)
Definition shortage_db : Db :=
  mkDb sample_products sample_variants [] 1 [user_cart; guest_cart]
    [CartItem.mk 1 2 (Some 1) None "HEL-RED-M" "Helmet" "Red / Medium" 9 8000;
     CartItem.mk 2 2 None (Some 2) "PROD-2" "Gloves" "" 2 4000]
    [] 1 [] [].

(** The order the guest checkout creates from [checkout_db]. *)
Definition checkout_order : Order.t :=
  Order.mk (Some 1) None (Some "s3ss10n") "ORD-1" pending unpaid None None
    (Some "rider@example.com") (Some "01700000000")
    (Some dhaka_address) (Some dhaka_address) 32000 500 6000 37500 "".

(** The store after the guest checkout, and the same with the order
    marked as shipped. *)
Definition placed_db : Db :=
  snd (CreateOrderView_post guest_request guest_checkout checkout_db).

Definition shipped_db : Db :=
  set_orders [Order.set_status shipped unpaid checkout_order] 2 placed_db.

(** An order as a caller hands it to [Order.objects.create], and a history
    of the orders table. *)
Definition blank_order : Order.t :=
  Order.mk None (Some 7) None "" pending unpaid None None None None None None
    0 0 0 0 "".

Definition order_history : list order_op :=
  [place_order blank_order; place_order blank_order; delete_order 1;
   place_order blank_order].

(** A new address of user 7. *)
Definition home_address (ty : AddressType) (billing_default : bool) : Address.t :=
  Address.mk None 7 "Home" ty "12 Lake Road" "Dhaka" "Dhaka" "1207"
    "Bangladesh" "01700000000" billing_default false.


(** The signed-in user's cart holds three bells; the guest cart of the
    same browser holds two pairs of gloves.  Both are sold without
    variants. *)
Definition merge_db : Db :=
  mkDb sample_products sample_variants [] 1 [user_cart; guest_cart]
    [CartItem.mk 1 1 None (Some 3) "PROD-3" "Bell" "" 3 2000;
     CartItem.mk 2 2 None (Some 2) "PROD-2" "Gloves" "" 2 4000]
    [] 1 [] [].

(** The specification's example: both carts hold the same variant, three
    units in the user cart and two in the guest cart. *)
Definition merge_same_variant_db : Db :=
  mkDb sample_products sample_variants [] 1 [user_cart; guest_cart]
    [CartItem.mk 1 1 (Some 1) None "HEL-RED-M" "Helmet" "Red / Medium" 3 8000;
     CartItem.mk 2 2 (Some 1) None "HEL-RED-M" "Helmet" "Red / Medium" 2 8000]
    [] 1 [] [].

(** A guest cart with two products sold without variants, and an empty
    user cart. *)
Definition merge_two_products_db : Db :=
  mkDb sample_products sample_variants [] 1 [user_cart; guest_cart]
    [CartItem.mk 1 2 None (Some 3) "PROD-3" "Bell" "" 1 2000;
     CartItem.mk 2 2 None (Some 2) "PROD-2" "Gloves" "" 2 4000]
    [] 1 [] [].

(** A signed-in checkout: the user's cart holds four bells, the billing
    address is given inline and so is the shipping address, in Sylhet. *)
Definition user_checkout : CreateOrderData.t :=
  CreateOrderData.mk None None None None
    (Some dhaka_address) (Some sylhet_address) 0 (Some 0) "" card.

Definition user_checkout_db : Db :=
  mkDb sample_products sample_variants [] 1 [user_cart; guest_cart]
    [CartItem.mk 1 1 None (Some 3) "PROD-3" "Bell" "" 4 2000]
    [] 1 [] [].

(** A signed-in checkout that names a shipping address the user does not
    have, with the billing address given inline. *)
Definition missing_address_checkout : CreateOrderData.t :=
  CreateOrderData.mk None (Some 99) None None
    (Some dhaka_address) None 0 None "" cod.

(** Another signed-in user, on another browser. *)
Definition other_request : Request.t := Request.mk (Some 8) (Some "0th3r").

(** The keys the surroundings hand out next in the sample stores. *)
Definition sample_fresh : Fresh.t := Fresh.mk 3 3 "n3ws3ss10n".

(** Two more units of the variant, for a cart that holds three of the five
    in stock; three more; and two bells for a cart that has none. *)
Definition add_two_helmets : AddToCartData.t := AddToCartData.mk (Some 1) None 2.

Definition add_three_helmets : AddToCartData.t := AddToCartData.mk (Some 1) None 3.

Definition add_two_bells : AddToCartData.t := AddToCartData.mk None (Some 3) 2.


(** Sample accounts: two users; the first has an older token that is still
    unused and one that was used. *)
Definition sample_accounts : Accounts :=
  mkAccounts
    [User.mk 7 "rider@example.com" "Rider" "old-secret";
     User.mk 8 "other@example.com" "Other" "other-secret"]
    [PasswordResetToken.mk 2 7 "t0k3n-2" 5000000000 false;
     PasswordResetToken.mk 1 7 "t0k3n-1" 4000000000 true]
    3.

Definition reset_with (token : string) : ResetPasswordData.t :=
  ResetPasswordData.mk token "new-secret" "new-secret".

Definition add_three_bells : AddToCartData.t := AddToCartData.mk None (Some 3) 3.

(** * Properties *)

(** ** Sums *)

Lemma foldl_add_shift (l : list Z) (a : Z) :
  foldl Z.add a l = a + foldl Z.add 0 l.
Proof.
  revert a. induction l as [|x l IH]; intros a; simpl.
  - lia.
  - rewrite (IH (a + x)), (IH (0 + x)). lia.
Qed.

Lemma sum_nil : sum [] = 0.
Proof. reflexivity. Qed.

Lemma sum_cons (x : Z) (l : list Z) : sum (x :: l) = x + sum l.
Proof. unfold sum. simpl. rewrite foldl_add_shift. lia. Qed.

Lemma sum_app (l1 l2 : list Z) : sum (l1 ++ l2) = sum l1 + sum l2.
Proof.
  induction l1 as [|x l1 IH]; simpl.
  - rewrite sum_nil. lia.
  - rewrite !sum_cons, IH. lia.
Qed.

Lemma sum_map_ext {A} (f g : A -> Z) (l : list A) :
  Forall (fun x => f x = g x) l -> sum (map f l) = sum (map g l).
Proof.
  induction 1 as [|x l Hx _ IH]; simpl; [done|].
  by rewrite !sum_cons, Hx, IH.
Qed.

(** ** Cart savings *)

Lemma CartItem_get_savings_unclamped (db : Db) (it : CartItem.t) :
  CartItem_single_target it ->
  CartItem_get_savings db it = unclamped_savings db it.
Proof.
  intros Hone.
  unfold CartItem_get_savings, unclamped_savings, CartItem_list_price,
    CartItem_effective_price, CartItem_variant, CartItem_product,
    ProductVariant_get_effective_price, Product_sale_price_or_price.
  destruct Hone as [-> | ->]; simpl.
  - destruct (CartItem.product_id it ≫= _) as [[t p [sp|] st a]|]; simpl;
      try lia.
    destruct (Z.eqb_spec sp 0); lia.
  - destruct (CartItem.variant_id it ≫= _) as [[pid sku p [sp|] st a attrs]|];
      simpl; lia.
Qed.

Lemma unclamped_eq_clamped (db : Db) (it : CartItem.t) :
  CartItem_effective_price db it <= CartItem_list_price db it ->
  unclamped_savings db it = clamped_savings db it.
Proof. unfold unclamped_savings, clamped_savings. intros H. f_equal. lia. Qed.

(** What the model computes: the total savings of a cart are the sum over
    its lines of (list price - effective price) * quantity, with no clamp
    at zero; they coincide with the clamped sum when no line's effective
    price is above its list price. *)
Theorem cart_total_savings_unclamped (db : Db) (cart : Cart.t) :
  Forall CartItem_single_target (Cart_items db cart) ->
  Cart_get_total_savings db cart
    = sum (map (unclamped_savings db) (Cart_items db cart))
  ∧ (Forall (fun it => CartItem_effective_price db it <= CartItem_list_price db it)
            (Cart_items db cart) ->
     Cart_get_total_savings db cart
       = sum (map (clamped_savings db) (Cart_items db cart))).
Proof.
  intros Hone.
  assert (Cart_get_total_savings db cart
          = sum (map (unclamped_savings db) (Cart_items db cart))) as Heq.
  { unfold Cart_get_total_savings. apply sum_map_ext.
    eapply Forall_impl; [exact Hone|].
    intros it Hit. by apply CartItem_get_savings_unclamped. }
  split; [exact Heq|].
  intros Hle. rewrite Heq. apply sum_map_ext.
  eapply Forall_impl; [exact Hle|].
  intros it Hit. by apply unclamped_eq_clamped.
Qed.

(** The specification's example: 3 units, list 100.00, sale 80.00 give a
    total of 240.00 and savings of 60.00, clamped or not. *)
Lemma cart_total_savings_unclamped_witness :
  Forall CartItem_single_target (Cart_items savings_db user_cart)
  ∧ Cart_get_subtotal savings_db user_cart = 24000
  ∧ Cart_get_total_savings savings_db user_cart = 6000
  ∧ Cart_get_total_savings savings_db user_cart
      = sum (map (clamped_savings savings_db) (Cart_items savings_db user_cart)).
Proof.
  assert (Forall CartItem_single_target (Cart_items savings_db user_cart)) as H.
  { vm_compute (Cart_items _ _). constructor; [by right | constructor]. }
  split; [exact H|].
  split; [reflexivity|].
  split; [reflexivity|].
  apply (proj2 (cart_total_savings_unclamped savings_db user_cart H)).
  vm_compute (Cart_items _ _). constructor; [|constructor].
  vm_compute. discriminate.
Defined.

(** C5 (the code at a failing input).  One unit of a variant listed at
    100.00 with a sale price of 120.00: [CartItem.get_savings] returns
    -20.00, so the line's savings are negative and the cart total is
    -20.00 where the clamped sum is 0.  The item serializer of the same
    cart does clamp the line at 0; the cart serializer passes the negative
    total on. *)
Theorem cart_savings_negative_on_overpriced_sale :
  Forall CartItem_single_target (Cart_items overpriced_db user_cart)
  ∧ map (CartItem_get_savings overpriced_db) (Cart_items overpriced_db user_cart)
    = [-2000]
  ∧ map (clamped_savings overpriced_db) (Cart_items overpriced_db user_cart) = [0]
  ∧ map (CartItemSerializer_get_savings overpriced_db)
        (Cart_items overpriced_db user_cart) = [0]
  ∧ Cart_get_total_savings overpriced_db user_cart = -2000
  ∧ CartSerializer_get_total_savings overpriced_db user_cart = -2000
  ∧ sum (map (clamped_savings overpriced_db) (Cart_items overpriced_db user_cart))
    = 0.
Proof.
  vm_compute (Cart_items _ _).
  split; [constructor; [by right | constructor]|].
  repeat split; reflexivity.
Qed.

(** ** Running computations over the store *)

Lemma bind_Ok_inv {A B} (m : M A) (k : A -> M B) (db db' : Db) (b : B) :
  bind m k db = (Ok b, db') ->
  exists a db1, m db = (Ok a, db1) ∧ k a db1 = (Ok b, db').
Proof.
  unfold bind. destruct (m db) as [[a|e] db1]; [eauto|discriminate].
Qed.

Lemma bind_gets {A B} (f : Db -> A) (k : A -> M B) (db : Db) :
  bind (gets f) k db = k (f db) db.
Proof. reflexivity. Qed.

Lemma bind_modify {B} (f : Db -> Db) (k : unit -> M B) (db : Db) :
  bind (modify f) k db = k tt (f db).
Proof. reflexivity. Qed.

Lemma bind_ret {A B} (a : A) (k : A -> M B) (db : Db) :
  bind (ret a) k db = k a db.
Proof. reflexivity. Qed.

(** A property of the store that every turn of a loop keeps is kept by the
    loop, whatever its outcome. *)
Lemma for_each_preserves {A} (P : Db -> Prop) (body : A -> M unit) (xs : list A) :
  (forall x db r db', body x db = (r, db') -> P db -> P db') ->
  forall db r db', for_each xs body db = (r, db') -> P db -> P db'.
Proof.
  intros Hbody. induction xs as [|x xs IH]; intros db r db' Hrun HP; simpl in Hrun.
  - by inversion Hrun; subst.
  - unfold bind in Hrun. destruct (body x db) as [[[]|e] db1] eqn:Hx.
    + eapply IH; [exact Hrun|]. eapply Hbody; eauto.
    + inversion Hrun; subst. eapply Hbody; eauto.
Qed.

(** ** Stock validation *)

Lemma validate_stock_shortage (db : Db) (items : list CartItem.t) :
  Exists (fun item => CartItem_get_stock db item < CartItem.quantity item) items ->
  CreateOrderView_validate_stock db items
    = Some (unhandled (AttributeError "CartItem" "get_display_name")).
Proof.
  induction items as [|item rest IH]; intros Hex; simpl.
  - by apply Exists_nil in Hex.
  - destruct (Z.ltb_spec (CartItem_get_stock db item) (CartItem.quantity item));
      [done|].
    apply Exists_cons in Hex as [Hhd|Htl]; [lia|by apply IH].
Qed.

Lemma validate_stock_Some (db : Db) (items : list CartItem.t) (r : Response) :
  CreateOrderView_validate_stock db items = Some r ->
  r = unhandled (AttributeError "CartItem" "get_display_name").
Proof.
  induction items as [|item rest IH]; simpl; [discriminate|].
  destruct (_ <? _); [by intros [= <-]|exact IH].
Qed.

Lemma validate_stock_pass (db : Db) (items : list CartItem.t) :
  CreateOrderView_validate_stock db items = None ->
  Forall (fun item => CartItem.quantity item <= CartItem_get_stock db item) items.
Proof.
  induction items as [|item rest IH]; simpl; intros H; [constructor|].
  destruct (Z.ltb_spec (CartItem_get_stock db item) (CartItem.quantity item));
    [discriminate|].
  constructor; [lia|auto].
Qed.

(** Whatever way [post] ends short of creating the order, the store is the
    one it started from. *)
Lemma post_not_created_unchanged request data db :
  ¬ is_created (fst (CreateOrderView_post request data db)) ->
  snd (CreateOrderView_post request data db) = db.
Proof.
  unfold CreateOrderView_post.
  destruct (negb _); [done|].
  destruct (CreateOrderView_get_cart db request) as [cart|]; [|done].
  destruct (_ =? _)%nat; [done|].
  destruct (CreateOrderView_validate_stock _ _); [done|].
  unfold atomic.
  destruct (CreateOrderView_transaction request data cart db) as [[o|e] db'];
    simpl; [tauto|done].
Qed.

(** C1.  When some line of the caller's cart asks for more than the stock
    of its target, [post] ends without creating the order and returns the
    store it was given: no Order, OrderItem or Payment row, no stock
    change, and the cart and its lines as they were. *)
Theorem create_order_insufficient_stock_no_change request data db cart :
  CreateOrderView_get_cart db request = Some cart ->
  Exists (fun item => CartItem_get_stock db item < CartItem.quantity item)
         (Cart_items db cart) ->
  exists response,
    CreateOrderView_post request data db = (response, db)
    ∧ ¬ is_created response.
Proof.
  intros Hcart Hshort. unfold CreateOrderView_post. rewrite Hcart.
  destruct (negb _); [eexists; split; [reflexivity|intros []]|].
  destruct (Cart_items db cart) as [|item rest] eqn:Hitems.
  { by apply Exists_nil in Hshort. }
  simpl length. cbn [Nat.eqb].
  rewrite (validate_stock_shortage db _ Hshort).
  eexists; split; [reflexivity|intros []].
Qed.

Lemma create_order_insufficient_stock_no_change_witness :
  exists response,
    CreateOrderView_post guest_request guest_checkout shortage_db
      = (response, shortage_db)
    ∧ ¬ is_created response.
Proof.
  apply (create_order_insufficient_stock_no_change guest_request guest_checkout
           shortage_db guest_cart).
  - reflexivity.
  - vm_compute (Cart_items _ _). apply Exists_cons_hd. vm_compute. reflexivity.
Defined.

(** C8 (the code at a failing input).  A guest checkout of nine units of a
    variant with five in stock does not answer with a message naming the
    line and its stock: evaluating the message calls
    [item.get_display_name()], which [CartItem] does not define, and the
    [AttributeError] leaves the view.  The method the class does define,
    [get_display_title], names the line. *)
Theorem create_order_shortage_raises :
  CreateOrderView_post guest_request guest_checkout shortage_db
  = (unhandled (AttributeError "CartItem" "get_display_name"), shortage_db)
  ∧ (exists item rest,
       Cart_items shortage_db guest_cart = item :: rest
       ∧ CartItem.quantity item = 9
       ∧ CartItem_get_stock shortage_db item = 5
       ∧ CartItem_get_display_title shortage_db item = Ok "Helmet (Red / Medium)").
Proof.
  split; [vm_compute; reflexivity|].
  eexists _, _. split; [vm_compute; reflexivity|].
  repeat split; reflexivity.
Qed.

(** The same on every valid request whose cart has a line above its
    stock. *)
Lemma create_order_shortage_always_raises request data db cart :
  CreateOrderSerializer_validate request data = true ->
  CreateOrderView_get_cart db request = Some cart ->
  Exists (fun item => CartItem_get_stock db item < CartItem.quantity item)
         (Cart_items db cart) ->
  CreateOrderView_post request data db
  = (unhandled (AttributeError "CartItem" "get_display_name"), db).
Proof.
  intros Hvalid Hcart Hshort. unfold CreateOrderView_post.
  rewrite Hvalid, Hcart. simpl negb. cbv iota.
  destruct (Cart_items db cart) as [|item rest] eqn:Hitems.
  { by apply Exists_nil in Hshort. }
  simpl length. cbn [Nat.eqb].
  by rewrite (validate_stock_shortage db _ Hshort).
Qed.

(** ** Order creation through the API *)

Lemma Address_save_plain_Ok (a : Address.t) (db : Db) :
  Address.id a = None ->
  Address.is_default_billing a = false ->
  Address.is_default_shipping a = false ->
  let a' := Address.set_id (Some (address_seq db)) a in
  Address_save a db
  = (Ok a', set_addresses (addresses db ++ [a']) (address_seq db + 1) db).
Proof.
  intros Hid Hb Hs. unfold Address_save. rewrite Hb, Hs.
  rewrite !bind_ret. unfold Address_write, Address_violated_constraint.
  rewrite Hb, Hs, Hid. reflexivity.
Qed.

Lemma get_or_create_address_Ok uid aid g ty db a db1 :
  CreateOrderView_get_or_create_address uid aid g ty db = (Ok a, db1) ->
  a ∈ addresses db1 ∧ is_Some (Address.id a)
  ∧ db1 = set_addresses (addresses db1) (address_seq db1) db.
Proof.
  unfold CreateOrderView_get_or_create_address.
  destruct (truthy_int aid) eqn:Haid.
  - rewrite bind_gets.
    destruct (filter _ (addresses db)) as [|x [|y l]] eqn:Hf;
      [discriminate| |discriminate].
    intros [= -> <-].
    assert (a ∈ filter (λ a, Address.id a = aid ∧ Address.user a = uid)
                       (addresses db)) as Hx by (rewrite Hf; left).
    apply list_elem_of_filter in Hx as [[Hid _] Hin].
    split; [done|]. split; [|by destruct db].
    destruct aid; [rewrite Hid; eauto|discriminate].
  - destruct g as [g|]; [|discriminate].
    rewrite Address_save_plain_Ok by done.
    intros [= <- <-]. simpl.
    split; [apply elem_of_app; right; left|].
    split; [eauto|done].
Qed.

Lemma Order_save_new_Ok (o : Order.t) (db : Db) (o' : Order.t) (db' : Db) :
  Order.id o = None ->
  Order.order_number o = "" ->
  Order_save o db = (Ok o', db') ->
  o' = Order.set_id (Some (order_seq db))
         (Order.set_order_number
            ("ORD-" +:+ pretty (match Order_last_id (orders db) with
                                | None => 1
                                | Some last_id => last_id + 1
                                end)) o)
  ∧ db' = set_orders (o' :: orders db) (order_seq db + 1) db.
Proof.
  intros Hid Hnum. unfold Order_save. rewrite Hnum.
  change (String.eqb "" "") with true. cbv iota.
  cbv [bind gets ret]. unfold Order_write.
  destruct (existsb _ _); [discriminate|].
  destruct o; simpl in *; subst. intros [= <- <-]. done.
Qed.

Lemma create_order_item_frame order item db r db' :
  CreateOrderView_create_order_item order item db = (r, db') ->
  payments db' = payments db ∧ orders db' = orders db
  ∧ addresses db' = addresses db ∧ cart_items db' = cart_items db.
Proof.
  unfold CreateOrderView_create_order_item, OrderItem_create,
    CreateOrderView_reduce_stock.
  rewrite bind_gets, bind_modify. unfold modify. intros [= _ <-].
  repeat case_match; done.
Qed.

Lemma Payment_create_Ok p db db' :
  Payment_create p db = (Ok tt, db') ->
  db' = set_payments (payments db ++ [p]) db.
Proof.
  unfold Payment_create. destruct (existsb _ _); [discriminate|].
  by intros [= <-].
Qed.

(** What a committed checkout transaction has done. *)
Lemma transaction_Ok request data cart db order db' :
  CreateOrderView_transaction request data cart db = (Ok order, db') ->
  exists (shipping_address : option Address.t)
         (guest_shipping_data : option GuestAddress.t),
    match shipping_address with
    | Some a => a ∈ addresses db' ∧ is_Some (Address.id a)
                ∧ is_Some (Request.user request)
    | None => Request.user request = None
              ∧ guest_shipping_data = CreateOrderData.guest_shipping_address data
    end
    ∧ Order.shipping_address order = shipping_address ≫= Address.id
    ∧ Order.guest_shipping_address_data order = guest_shipping_data
    ∧ Order.subtotal order = Cart_get_subtotal db cart
    ∧ Order.discount order = CreateOrderData.discount data
    ∧ Order.shipping_cost order
        = CreateOrderView_shipping_cost (CreateOrderData.shipping_cost data)
            shipping_address guest_shipping_data
    ∧ Order.total_price order
        = Order.subtotal order - Order.discount order + Order.shipping_cost order
    ∧ Order.id order = Some (order_seq db)
    ∧ orders db' = order :: orders db
    ∧ payments db'
        = (payments db
           ++ [Payment.mk (Order_pk order) (CreateOrderData.payment_method data)
                 (Order.total_price order) false])%list.
Proof.
  intros H. unfold CreateOrderView_transaction in H.
  apply bind_Ok_inv in H as ([[[b s] gb] gs] & db1 & Hres & H).
  rewrite bind_gets in H.
  apply bind_Ok_inv in H as (o & db2 & Hsave & H).
  rewrite bind_gets in H.
  apply bind_Ok_inv in H as ([] & db3 & Hloop & H).
  apply bind_Ok_inv in H as ([] & db4 & Hpay & H).
  unfold Cart_clear in H. rewrite bind_modify in H. injection H as <- Hdb'.
  apply Order_save_new_Ok in Hsave as [Ho Hdb2]; [|done..].
  apply Payment_create_Ok in Hpay.
  pose proof (for_each_preserves
    (fun d => payments d = payments db2 ∧ orders d = orders db2
              ∧ addresses d = addresses db2 ∧ cart_items d = cart_items db2)
    _ _ (fun x d r d' Hx HP =>
           let '(conj H1 (conj H2 (conj H3 H4))) := create_order_item_frame _ _ _ _ _ Hx in
           let '(conj P1 (conj P2 (conj P3 P4))) := HP in
           conj (eq_trans H1 P1) (conj (eq_trans H2 P2)
                  (conj (eq_trans H3 P3) (eq_trans H4 P4))))
    _ _ _ Hloop (conj eq_refl (conj eq_refl (conj eq_refl eq_refl))))
    as (Hp3 & Ho3 & Ha3 & Hc3).
  assert ((match s with
           | Some a => a ∈ addresses db1 ∧ is_Some (Address.id a)
                       ∧ is_Some (Request.user request)
           | None => Request.user request = None
                     ∧ gs = CreateOrderData.guest_shipping_address data
           end) ∧ cart_items db1 = cart_items db ∧ payments db1 = payments db
                ∧ orders db1 = orders db ∧ order_seq db1 = order_seq db)
    as (Hs & Hc1 & Hp1 & Ho1 & Hq1).
  { destruct (Request.user request) as [uid|].
    - apply bind_Ok_inv in Hres as (ba & dba & Hb & Hres).
      apply bind_Ok_inv in Hres as (sa & dbs & Hsa & Hres).
      injection Hres as <- <- <- <- <-.
      apply get_or_create_address_Ok in Hb as (_ & _ & Hdba).
      apply get_or_create_address_Ok in Hsa as (Hin & Hid & Hdbs).
      split; [eauto|].
      rewrite Hdbs, Hdba. done.
    - injection Hres as <- <- <- <- <-. done. }
  exists s, gs.
  assert (Cart_get_subtotal db1 cart = Cart_get_subtotal db cart) as Hsub.
  { unfold Cart_get_subtotal, Cart_items. by rewrite Hc1. }
  assert (addresses db' = addresses db1 ∧ orders db' = (o :: orders db)%list
          ∧ payments db'
            = (payments db
               ++ [Payment.mk (Order_pk o) (CreateOrderData.payment_method data)
                     (Cart_get_subtotal db1 cart - CreateOrderData.discount data
                      + CreateOrderView_shipping_cost
                          (CreateOrderData.shipping_cost data) s gs) false])%list)
    as (Ha' & Ho' & Hp').
  { rewrite <- Hdb', Hpay. simpl. rewrite Ha3, Ho3, Hp3, Hdb2. simpl.
    by rewrite Ho1, Hp1. }
  rewrite Ho', Hp', Ha'. rewrite Hq1, Hsub in Ho. clear Hdb2 Hpay Hloop Hdb'.
  split; [by destruct s|].
  subst o. simpl. rewrite ?Hsub. by repeat split.
Qed.

Lemma post_created request data db order message db' :
  CreateOrderView_post request data db = (created_response order message, db') ->
  CreateOrderSerializer_validate request data = true
  ∧ exists cart,
      CreateOrderView_get_cart db request = Some cart
      ∧ CreateOrderView_transaction request data cart db = (Ok order, db').
Proof.
  unfold CreateOrderView_post.
  destruct (CreateOrderSerializer_validate request data); [|discriminate].
  simpl negb. cbv iota.
  destruct (CreateOrderView_get_cart db request) as [cart|]; [|discriminate].
  destruct (_ =? _)%nat; [discriminate|].
  destruct (CreateOrderView_validate_stock _ _) as [r|] eqn:Hstock.
  { apply validate_stock_Some in Hstock as ->. discriminate. }
  unfold atomic.
  destruct (CreateOrderView_transaction request data cart db) as [[o|e] d]
    eqn:Htx; [|discriminate].
  intros [= <- _ <-]. split; [done|]. by exists cart.
Qed.

(** C3.  An order created by [post] has
    total_price = subtotal - discount + shipping_cost, its subtotal is the
    sum of price_snapshot * quantity over the lines of the source cart, and
    exactly one Payment row is added, for this order, with
    amount = total_price and success = false. *)
Theorem create_order_totals request data db order message db' :
  CreateOrderView_post request data db = (created_response order message, db') ->
  exists cart payment,
    CreateOrderView_get_cart db request = Some cart
    ∧ Order.subtotal order
        = sum (map (fun it => CartItem.price_snapshot it * CartItem.quantity it)
                   (Cart_items db cart))
    ∧ Order.total_price order
        = Order.subtotal order - Order.discount order + Order.shipping_cost order
    ∧ order ∈ orders db'
    ∧ payments db' = (payments db ++ [payment])%list
    ∧ Order.id order = Some (Payment.order_id payment)
    ∧ Payment.amount payment = Order.total_price order
    ∧ Payment.success payment = false.
Proof.
  intros H. apply post_created in H as (_ & cart & Hcart & H).
  apply transaction_Ok in H
    as (s & gs & _ & _ & _ & Hsub & _ & _ & Htot & Hid & Hord & Hpay).
  exists cart, (Payment.mk (Order_pk order) (CreateOrderData.payment_method data)
                  (Order.total_price order) false).
  split; [done|]. split; [by rewrite Hsub|]. split; [done|].
  split; [rewrite Hord; left|]. split; [done|].
  unfold Order_pk. rewrite Hid. done.
Qed.

Lemma create_order_totals_witness :
  exists cart payment,
    CreateOrderView_get_cart checkout_db guest_request = Some cart
    ∧ Order.subtotal checkout_order
        = sum (map (fun it => CartItem.price_snapshot it * CartItem.quantity it)
                   (Cart_items checkout_db cart))
    ∧ Order.total_price checkout_order
        = Order.subtotal checkout_order - Order.discount checkout_order
          + Order.shipping_cost checkout_order
    ∧ checkout_order
        ∈ orders (snd (CreateOrderView_post guest_request guest_checkout checkout_db))
    ∧ payments (snd (CreateOrderView_post guest_request guest_checkout checkout_db))
        = (payments checkout_db ++ [payment])%list
    ∧ Order.id checkout_order = Some (Payment.order_id payment)
    ∧ Payment.amount payment = Order.total_price checkout_order
    ∧ Payment.success payment = false.
Proof.
  apply (create_order_totals guest_request guest_checkout checkout_db
           checkout_order "Order created successfully").
  vm_compute. reflexivity.
Defined.

(** C4.  An order created by [post] records the caller's shipping cost when
    that is positive; otherwise 60 when the city of its shipping address,
    stripped and lower-cased, is "dhaka", and 120 for any other city. *)
Theorem create_order_shipping_cost request data db order message db' :
  CreateOrderView_post request data db = (created_response order message, db') ->
  exists city,
    ships_to db' order city
    ∧ Order.shipping_cost order
        = expected_shipping_cost (CreateOrderData.shipping_cost data) city.
Proof.
  intros H. apply post_created in H as (Hvalid & cart & Hcart & H).
  apply transaction_Ok in H
    as (s & gs & Hs & Hsa & Hgs & _ & _ & Hcost & _).
  destruct s as [a|].
  - destruct Hs as (Hin & Hid & _).
    exists (Address.city a). split.
    + left. exists a. by rewrite Hsa.
    + rewrite Hcost. unfold CreateOrderView_shipping_cost, expected_shipping_cost.
      reflexivity.
  - destruct Hs as (Hguest & ->).
    unfold CreateOrderSerializer_validate in Hvalid. rewrite Hguest in Hvalid.
    destruct (CreateOrderData.guest_billing_address data); [|discriminate].
    destruct (CreateOrderData.guest_shipping_address data) as [g|] eqn:Hg;
      [|discriminate].
    exists (GuestAddress.city g). split.
    + right. split; [by rewrite Hsa|]. exists g. by rewrite Hgs.
    + rewrite Hcost. reflexivity.
Qed.

Lemma create_order_shipping_cost_witness :
  exists city,
    ships_to (snd (CreateOrderView_post guest_request guest_checkout checkout_db))
      checkout_order city
    ∧ Order.shipping_cost checkout_order
        = expected_shipping_cost (CreateOrderData.shipping_cost guest_checkout) city.
Proof.
  apply (create_order_shipping_cost guest_request guest_checkout checkout_db
           checkout_order "Order created successfully").
  vm_compute. reflexivity.
Defined.

(** The tiers on the specification's examples. *)
Lemma shipping_tier_examples :
  shipping_tier "Dhaka" = Decimal_of_int 60
  ∧ shipping_tier "  DHAKA " = Decimal_of_int 60
  ∧ shipping_tier "Sylhet" = Decimal_of_int 120
  ∧ shipping_tier "Dhaka North" = Decimal_of_int 120
  ∧ expected_shipping_cost (Some 0) " Dhaka " = 6000
  ∧ expected_shipping_cost (Some 2500) " Dhaka " = 2500.
Proof. repeat split; reflexivity. Qed.

(** ** Order cancellation *)

Lemma set_variants_products_absorb V P V1 P1 db :
  set_variants V (set_products P (set_variants V1 (set_products P1 db)))
  = set_variants V (set_products P db).
Proof. by destruct db. Qed.

Lemma set_variants_products_id db :
  set_variants (variants db) (set_products (products db) db) = db.
Proof. by destruct db. Qed.

Lemma set_stock_variant_twice a b v :
  ProductVariant.set_stock a (ProductVariant.set_stock b v)
  = ProductVariant.set_stock a v.
Proof. by destruct v. Qed.

Lemma set_stock_product_twice a b p :
  Product.set_stock a (Product.set_stock b p) = Product.set_stock a p.
Proof. by destruct p. Qed.

Lemma set_stock_variant_id v :
  ProductVariant.set_stock (ProductVariant.stock v) v = v.
Proof. by destruct v. Qed.

Lemma set_stock_product_id p :
  Product.set_stock (Product.stock p) p = p.
Proof. by destruct p. Qed.

Lemma resolve_Some {A} (key : option Z) (m : gmap Z A) (k : Z) (x : A) :
  (key ≫= fun k => pair k <$> m !! k) = Some (k, x) ->
  key = Some k ∧ m !! k = Some x.
Proof.
  destruct key as [k0|]; simpl; [|done].
  destruct (m !! k0) eqn:H; simpl; [|done]. by intros [= <- <-].
Qed.

Lemma resolve_None {A} (key : option Z) (m : gmap Z A) :
  (key ≫= fun k => pair k <$> m !! k) = None ->
  (key ≫= fun k => m !! k) = None.
Proof.
  destruct key as [k0|]; simpl; [|done]. by destruct (m !! k0).
Qed.

Lemma restore_stock_step (i : OrderItem.t) (db : Db) :
  exists V P,
    CancelOrderView_restore_stock i db
      = (Ok tt, set_variants V (set_products P db))
    ∧ (forall k, V !! k
         = (fun v => ProductVariant.set_stock
                       (ProductVariant.stock v
                        + if decide (OrderItem.variant_id i = Some k)
                          then OrderItem.quantity i else 0) v)
           <$> variants db !! k)
    ∧ (forall k, P !! k
         = (fun p => Product.set_stock
                       (Product.stock p
                        + if decide (OrderItem_variant db i = None
                                     ∧ OrderItem.product_id i = Some k)
                          then OrderItem.quantity i else 0) p)
           <$> products db !! k).
Proof.
  assert (forall k, variants db !! k
            = (fun v => ProductVariant.set_stock (ProductVariant.stock v + 0) v)
              <$> variants db !! k) as Hsame_v.
  { intros k. destruct (variants db !! k); simpl; [|done].
    by rewrite Z.add_0_r, set_stock_variant_id. }
  assert (forall k, products db !! k
            = (fun p => Product.set_stock (Product.stock p + 0) p)
              <$> products db !! k) as Hsame_p.
  { intros k. destruct (products db !! k); simpl; [|done].
    by rewrite Z.add_0_r, set_stock_product_id. }
  unfold CancelOrderView_restore_stock, modify.
  destruct (OrderItem.variant_id i ≫= _) as [[kv v]|] eqn:Hv.
  - apply resolve_Some in Hv as [Hkv Hv].
    exists (<[kv := ProductVariant.set_stock
                      (ProductVariant.stock v + OrderItem.quantity i) v]>
              (variants db)), (products db).
    split; [by destruct db|]. split; intros k.
    + destruct (decide (kv = k)) as [->|Hne].
      * rewrite lookup_insert_eq, Hv. simpl. by rewrite decide_True.
      * rewrite lookup_insert_ne by done.
        rewrite decide_False by congruence. apply Hsame_v.
    + rewrite decide_False; [apply Hsame_p|].
      unfold OrderItem_variant. rewrite Hkv. simpl. rewrite Hv. by intros [? _].
  - apply resolve_None in Hv.
    destruct (OrderItem.product_id i ≫= _) as [[kp p]|] eqn:Hp.
    + apply resolve_Some in Hp as [Hkp Hp].
      exists (variants db),
        (<[kp := Product.set_stock (Product.stock p + OrderItem.quantity i) p]>
           (products db)).
      split; [by destruct db|]. split; intros k.
      * destruct (decide (OrderItem.variant_id i = Some k)) as [Hk|];
          [|apply Hsame_v].
        rewrite Hk in Hv. simpl in Hv. by rewrite Hv.
      * destruct (decide (kp = k)) as [->|Hne].
        -- rewrite lookup_insert_eq, Hp. simpl. by rewrite decide_True.
        -- rewrite lookup_insert_ne by done.
           rewrite decide_False by (intros [_ ?]; congruence). apply Hsame_p.
    + apply resolve_None in Hp.
      exists (variants db), (products db).
      split; [by destruct db|]. split; intros k.
      * destruct (decide (OrderItem.variant_id i = Some k)) as [Hk|];
          [|apply Hsame_v].
        rewrite Hk in Hv. simpl in Hv. by rewrite Hv.
      * destruct (decide (_ ∧ OrderItem.product_id i = Some k)) as [[_ Hk]|];
          [|apply Hsame_p].
        rewrite Hk in Hp. simpl in Hp. by rewrite Hp.
Qed.

Lemma restored_to_variant_cons i rest k :
  restored_to_variant (i :: rest) k
  = (if decide (OrderItem.variant_id i = Some k) then OrderItem.quantity i else 0)
    + restored_to_variant rest k.
Proof.
  unfold restored_to_variant. rewrite filter_cons.
  destruct (decide _); simpl; [by rewrite sum_cons|lia].
Qed.

Lemma restored_to_product_cons db i rest k :
  restored_to_product db (i :: rest) k
  = (if decide (OrderItem_variant db i = None ∧ OrderItem.product_id i = Some k)
     then OrderItem.quantity i else 0)
    + restored_to_product db rest k.
Proof.
  unfold restored_to_product. rewrite filter_cons.
  destruct (decide _); simpl; [by rewrite sum_cons|lia].
Qed.

Lemma restore_stock_loop (items : list OrderItem.t) :
  forall db, exists V P,
    for_each items CancelOrderView_restore_stock db
      = (Ok tt, set_variants V (set_products P db))
    ∧ (forall k, V !! k
         = (fun v => ProductVariant.set_stock
                       (ProductVariant.stock v + restored_to_variant items k) v)
           <$> variants db !! k)
    ∧ (forall k, P !! k
         = (fun p => Product.set_stock
                       (Product.stock p + restored_to_product db items k) p)
           <$> products db !! k).
Proof.
  induction items as [|i rest IH]; intros db.
  - exists (variants db), (products db). simpl.
    rewrite set_variants_products_id. split; [done|].
    unfold restored_to_variant, restored_to_product. simpl. rewrite sum_nil.
    split; intros k.
    + destruct (variants db !! k) as [v|]; simpl; [|done].
      by rewrite Z.add_0_r, set_stock_variant_id.
    + destruct (products db !! k) as [p|]; simpl; [|done].
      by rewrite Z.add_0_r, set_stock_product_id.
  - destruct (restore_stock_step i db) as (V1 & P1 & Hstep & HV1 & HP1).
    destruct (IH (set_variants V1 (set_products P1 db)))
      as (V & P & Hrest & HV & HP).
    exists V, P. split.
    { simpl for_each. unfold bind. rewrite Hstep, Hrest.
      by rewrite set_variants_products_absorb. }
    assert (forall k, restored_to_product (set_variants V1 (set_products P1 db)) rest k
                      = restored_to_product db rest k) as Hsame.
    { intros k. unfold restored_to_product. f_equal. f_equal.
      apply list_filter_iff. intros j. unfold OrderItem_variant.
      destruct (OrderItem.variant_id j) as [kj|]; simpl; [|done].
      replace (variants (set_variants V1 (set_products P1 db))) with V1
        by (by destruct db).
      rewrite HV1. rewrite fmap_None. done. }
    split; intros k.
    + rewrite HV. replace (variants (set_variants V1 (set_products P1 db))) with V1
        by (by destruct db).
      rewrite HV1, restored_to_variant_cons.
      destruct (variants db !! k) as [v|]; simpl; [|done].
      rewrite set_stock_variant_twice. f_equal. f_equal.
      destruct v; simpl. lia.
    + rewrite HP, Hsame.
      replace (products (set_variants V1 (set_products P1 db))) with P1
        by (by destruct db).
      rewrite HP1, restored_to_product_cons.
      destruct (products db !! k) as [p|]; simpl; [|done].
      rewrite set_stock_product_twice. f_equal. f_equal.
      destruct p; simpl. lia.
Qed.

Lemma existsb_false_iff {A} (f : A -> bool) (l : list A) :
  existsb f l = false <-> forall x, x ∈ l -> f x = false.
Proof.
  induction l as [|y l IH]; simpl.
  - split; [intros _ x Hx; by apply elem_of_nil in Hx|done].
  - rewrite orb_false_iff, IH. split.
    + intros [Hy Hl] x Hx. apply elem_of_cons in Hx as [->|Hx]; auto.
    + intros H. split; [apply H; left|intros x Hx; apply H; by right].
Qed.

Lemma existsb_true_intro {A} (f : A -> bool) (l : list A) (x : A) :
  x ∈ l -> f x = true -> existsb f l = true.
Proof.
  intros Hx Hf. apply existsb_exists. exists x. split; [|done].
  by apply list_elem_of_In.
Qed.

Lemma Order_save_existing_Ok (o : Order.t) (s : OrderStatus) (p : PaymentStatus)
    (db : Db) :
  orders_indexed db -> o ∈ orders db -> Order.order_number o ≠ "" ->
  let o' := Order.set_status s p o in
  Order_save o' db
  = (Ok o',
     set_orders (map (fun r => if bool_decide (Order.id r = Order.id o)
                               then o' else r) (orders db))
                (order_seq db) db).
Proof.
  intros [Hids Huniq] Hin Hnum o'.
  unfold Order_save.
  replace (Order.order_number o') with (Order.order_number o) by (by destruct o).
  destruct (String.eqb_spec (Order.order_number o) ""); [done|].
  rewrite bind_ret. unfold Order_write.
  replace (Order.order_number o') with (Order.order_number o) by (by destruct o).
  replace (Order.id o') with (Order.id o) by (by destruct o).
  destruct (Hids o Hin) as [k Hk].
  rewrite (proj2 (existsb_false_iff _ _)).
  2:{ intros r Hr. apply andb_false_iff.
      destruct (String.eqb_spec (Order.order_number r) (Order.order_number o)) as [He|];
        [|by right].
      left. rewrite (Huniq r o Hr Hin He). by rewrite bool_decide_eq_true_2. }
  rewrite Hk.
  rewrite (existsb_true_intro _ _ o Hin) by (by rewrite bool_decide_eq_true_2).
  done.
Qed.

(** C2.  For a cancel request that finds its order: when the order is
    shipped, delivered or cancelled, or is paid, [patch] answers with a
    rejection and the store is unchanged; otherwise every line's quantity
    is added to the stock of its variant (of its product when the line has
    no variant), the order's status becomes cancelled and its payment
    status failed, and nothing else changes. *)
Theorem cancel_order (request : Request.t) (order_number : string) (db : Db)
    (order : Order.t) :
  CancelOrderView_get_order request order_number db = Ok order ->
  (Order.status order ∈ [shipped; delivered; cancelled]
   ∨ Order.payment_status order = paid ->
   exists message,
     CancelOrderView_patch request order_number db
     = (bad_request_response message, db))
  ∧ (Order.status order ∉ [shipped; delivered; cancelled] ->
     Order.payment_status order ≠ paid ->
     orders_indexed db -> order_number ≠ "" ->
     exists V P,
       let order' := Order.set_status cancelled failed order in
       CancelOrderView_patch request order_number db
       = (success_response order' "Order cancelled successfully",
          set_orders (map (fun r => if bool_decide (Order.id r = Order.id order)
                                    then order' else r) (orders db))
            (order_seq db) (set_variants V (set_products P db)))
       ∧ (forall k, V !! k
            = (fun v => ProductVariant.set_stock
                          (ProductVariant.stock v
                           + restored_to_variant (Order_items db order) k) v)
              <$> variants db !! k)
       ∧ (forall k, P !! k
            = (fun p => Product.set_stock
                          (Product.stock p
                           + restored_to_product db (Order_items db order) k) p)
              <$> products db !! k)).
Proof.
  intros Hget. unfold CancelOrderView_patch. rewrite Hget. split.
  - intros [Hst|Hpay].
    + rewrite bool_decide_eq_true_2 by done. by eexists.
    + destruct (bool_decide _); [by eexists|].
      rewrite bool_decide_eq_true_2 by done. by eexists.
  - intros Hst Hpay Hidx Hnum.
    rewrite bool_decide_eq_false_2 by done.
    rewrite bool_decide_eq_false_2 by done.
    destruct (restore_stock_loop (Order_items db order) db)
      as (V & P & Hloop & HV & HP).
    exists V, P. split; [|done].
    assert (order ∈ orders db ∧ Order.order_number order = order_number)
      as [Hin Hon].
    { unfold CancelOrderView_get_order, Order_get in Hget.
      destruct (Request.user request).
      - destruct (filter _ (orders db)) as [|x [|y l]] eqn:Hf; simplify_eq/=.
        assert (order ∈ filter (λ o, Order.order_number o = order_number
                                     ∧ Order.user o = Some z) (orders db)) as Hx
          by (rewrite Hf; left).
        apply list_elem_of_filter in Hx as [[? _] ?]. done.
      - destruct (negb _); [done|].
        destruct (filter _ (orders db)) as [|x [|y l]] eqn:Hf; simplify_eq/=.
        assert (order ∈ filter (λ o, Order.order_number o = order_number
                  ∧ Order.session_key o = Request.session_key request
                  ∧ Order.user o = None) (orders db)) as Hx
          by (rewrite Hf; left).
        apply list_elem_of_filter in Hx as [[? _] ?]. done. }
    unfold atomic, bind. rewrite Hloop.
    rewrite Order_save_existing_Ok; [by destruct db| |by destruct db|congruence].
    by destruct db.
Qed.

Lemma cancel_order_witness :
  (exists message,
     CancelOrderView_patch guest_request "ORD-1" shipped_db
     = (bad_request_response message, shipped_db))
  ∧ (exists V P,
       let order' := Order.set_status cancelled failed checkout_order in
       CancelOrderView_patch guest_request "ORD-1" placed_db
       = (success_response order' "Order cancelled successfully",
          set_orders (map (fun r => if bool_decide (Order.id r = Order.id checkout_order)
                                    then order' else r) (orders placed_db))
            (order_seq placed_db) (set_variants V (set_products P placed_db)))
       ∧ (forall k, V !! k
            = (fun v => ProductVariant.set_stock
                          (ProductVariant.stock v
                           + restored_to_variant (Order_items placed_db checkout_order) k) v)
              <$> variants placed_db !! k)
       ∧ (forall k, P !! k
            = (fun p => Product.set_stock
                          (Product.stock p
                           + restored_to_product placed_db
                               (Order_items placed_db checkout_order) k) p)
              <$> products placed_db !! k)).
Proof.
  split.
  - apply (proj1 (cancel_order guest_request "ORD-1" shipped_db
                    (Order.set_status shipped unpaid checkout_order) eq_refl)).
    left. vm_compute. left.
  - apply (proj2 (cancel_order guest_request "ORD-1" placed_db checkout_order
                    eq_refl)).
    + vm_compute. intros H. repeat (apply elem_of_cons in H as [H|H]; [discriminate|]).
      by apply elem_of_nil in H.
    + discriminate.
    + split.
      * intros o Ho. vm_compute in Ho. apply list_elem_of_singleton in Ho as ->.
        by eexists.
      * intros o1 o2 H1 H2 _. vm_compute in H1, H2.
        apply list_elem_of_singleton in H1 as ->.
        by apply list_elem_of_singleton in H2 as ->.
    + discriminate.
Defined.

(** The stocks of the guest checkout come back when it is cancelled. *)
Lemma cancel_example :
  let db' := snd (CancelOrderView_patch guest_request "ORD-1" placed_db) in
  ProductVariant.stock <$> variants placed_db !! 1 = Some 2
  ∧ ProductVariant.stock <$> variants db' !! 1 = Some 5
  ∧ Product.stock <$> products placed_db !! 2 = Some 2
  ∧ Product.stock <$> products db' !! 2 = Some 4
  ∧ map (fun o => (Order.status o, Order.payment_status o)) (orders db')
    = [(cancelled, failed)].
Proof. vm_compute. repeat split; reflexivity. Qed.

(** ** Order numbers *)

Lemma Order_last_id_spec (rows : list Order.t) :
  match Order_last_id rows with
  | Some m => (exists o, o ∈ rows ∧ Order.id o = Some m)
              ∧ forall o k, o ∈ rows -> Order.id o = Some k -> k <= m
  | None => forall o, o ∈ rows -> Order.id o = None
  end.
Proof.
  induction rows as [|r rows IH]; simpl.
  - intros o Ho. by apply elem_of_nil in Ho.
  - destruct (Order.id r) as [k|] eqn:Hk;
      destruct (Order_last_id rows) as [m|].
    + destruct IH as [(o & Ho & Hom) Hmax]. split.
      * destruct (Z.max_spec k m) as [[_ ->]|[_ ->]].
        -- exists o. split; [by right|done].
        -- exists r. split; [left|done].
      * intros o' k' Ho' Hk'. apply elem_of_cons in Ho' as [->|Ho'].
        -- rewrite Hk in Hk'. injection Hk' as <-. lia.
        -- specialize (Hmax o' k' Ho' Hk'). lia.
    + split.
      * exists r. split; [left|done].
      * intros o' k' Ho' Hk'. apply elem_of_cons in Ho' as [->|Ho'].
        -- rewrite Hk in Hk'. injection Hk' as <-. lia.
        -- rewrite (IH o' Ho') in Hk'. discriminate.
    + destruct IH as [(o & Ho & Hom) Hmax]. split.
      * exists o. split; [by right|done].
      * intros o' k' Ho' Hk'. apply elem_of_cons in Ho' as [->|Ho'].
        -- rewrite Hk in Hk'. discriminate.
        -- eauto.
    + intros o' Ho'. apply elem_of_cons in Ho' as [->|Ho']; auto.
Qed.

Lemma ORD_inj (n m : Z) : "ORD-" +:+ pretty n = "ORD-" +:+ pretty m -> n = m.
Proof. intros H. simpl in H. injection H as H. by apply (inj pretty). Qed.

(** In such a table the next generated number is above every stored one. *)
Lemma orders_numbered_next (db : Db) :
  orders_numbered db ->
  exists n, Order_next_number db = "ORD-" +:+ pretty n
            ∧ 1 <= n <= order_seq db
            ∧ forall o k m, o ∈ orders db -> Order_generated o k m -> m < n.
Proof.
  intros (Hseq & Hgen & _ & _). unfold Order_next_number.
  pose proof (Order_last_id_spec (orders db)) as Hlast.
  destruct (Order_last_id (orders db)) as [m|].
  - destruct Hlast as [(o & Ho & Hom) Hmax].
    exists (m + 1). split; [done|].
    destruct (Hgen o Ho) as (k & n & [Hk Hn] & Hle & Hlt).
    rewrite Hom in Hk. injection Hk as <-. split; [lia|].
    intros o' k' m' Ho' [Hk' Hn'].
    destruct (Hgen o' Ho') as (k'' & n'' & [Hk'' Hn''] & Hle' & Hlt').
    rewrite Hk' in Hk''. injection Hk'' as <-.
    rewrite Hn' in Hn''. apply ORD_inj in Hn'' as <-.
    specialize (Hmax o' k' Ho' Hk'). lia.
  - exists 1. split; [done|]. split; [lia|].
    intros o k m Ho [Hk _]. rewrite (Hlast o Ho) in Hk. discriminate.
Qed.

Lemma Order_save_unsaved_Ok (db : Db) (o : Order.t) :
  orders_numbered db ->
  let o' := Order.set_id (Some (order_seq db))
              (Order.set_order_number (Order_next_number db) o) in
  Order_save (Order_unsaved o) db
  = (Ok o', set_orders (o' :: orders db) (order_seq db + 1) db).
Proof.
  intros Hinv o'.
  destruct (orders_numbered_next db Hinv) as (n & Hn & Hrange & Hfresh).
  destruct Hinv as (Hseq & Hgen & _ & _).
  unfold Order_save, Order_unsaved.
  replace (Order.order_number (Order.set_id None (Order.set_order_number "" o)))
    with "" by (by destruct o).
  change (String.eqb "" "") with true. cbv iota.
  cbv [bind gets ret]. unfold Order_write.
  rewrite (proj2 (existsb_false_iff _ _)).
  - destruct o; reflexivity.
  - intros r Hr. apply andb_false_iff. right.
    apply String.eqb_neq. intros Heq.
    destruct (Hgen r Hr) as (k & m & [Hk Hm] & _ & _).
    specialize (Hfresh r k m Hr (conj Hk Hm)).
    unfold Order_next_number in Hn. apply ORD_inj in Hn.
    assert (m = n); [|lia].
    apply ORD_inj. rewrite <- Hm, Heq, <- Hn. by destruct o.
Qed.

Lemma place_order_numbered (db : Db) (o : Order.t) :
  orders_numbered db -> orders_numbered (run_order_op db (place_order o)).
Proof.
  intros Hinv. simpl. rewrite (Order_save_unsaved_Ok db o Hinv). simpl.
  destruct (orders_numbered_next db Hinv) as (n & Hn & Hrange & Hfresh).
  destruct Hinv as (Hseq & Hgen & Hmono & Hpk).
  set (o' := Order.set_id _ _).
  assert (Order_generated o' (order_seq db) n) as Ho'.
  { split; [by destruct o|]. rewrite <- Hn. by destruct o. }
  assert (forall k m, Order_generated o' k m -> k = order_seq db ∧ m = n) as Ho'inv.
  { intros k m [Hk Hm]. destruct Ho' as [Hk' Hm'].
    rewrite Hk' in Hk. injection Hk as <-.
    rewrite Hm' in Hm. by apply ORD_inj in Hm as <-. }
  unfold orders_numbered. cbn [snd orders order_seq set_orders].
  split; [lia|]. split; [|split].
  - intros r Hr. apply elem_of_cons in Hr as [->|Hr].
    + exists (order_seq db), n. split; [done|lia].
    + destruct (Hgen r Hr) as (k & m & ? & ? & ?). exists k, m.
      split; [done|]. lia.
  - intros o1 o2 k1 k2 n1 n2 H1 H2 G1 G2 Hlt.
    apply elem_of_cons in H1 as [->|H1]; apply elem_of_cons in H2 as [->|H2].
    + apply Ho'inv in G1 as [-> ->]. apply Ho'inv in G2 as [-> ->]. lia.
    + apply Ho'inv in G1 as [-> ->].
      destruct (Hgen o2 H2) as (k & m & [Hk Hm] & _ & Hklt).
      destruct G2 as [Hk2 _]. rewrite Hk in Hk2. injection Hk2 as <-. lia.
    + apply Ho'inv in G2 as [-> ->]. eauto.
    + eauto.
  - intros o1 o2 H1 H2 Heq.
    apply elem_of_cons in H1 as [->|H1]; apply elem_of_cons in H2 as [->|H2].
    + done.
    + destruct (Hgen o2 H2) as (k & m & [Hk Hm] & _ & Hklt).
      destruct Ho' as [Hk' _]. rewrite Hk', Hk in Heq. injection Heq as Heq. lia.
    + destruct (Hgen o1 H1) as (k & m & [Hk Hm] & _ & Hklt).
      destruct Ho' as [Hk' _]. rewrite Hk', Hk in Heq. injection Heq as Heq. lia.
    + eauto.
Qed.

Lemma delete_order_numbered (db : Db) (pk : Z) :
  orders_numbered db -> orders_numbered (run_order_op db (delete_order pk)).
Proof.
  intros (Hseq & Hgen & Hmono & Hpk). simpl.
  assert (forall o, o ∈ filter (λ o, Order.id o ≠ Some pk) (orders db) ->
                    o ∈ orders db) as Hsub.
  { intros o Ho. by apply list_elem_of_filter in Ho as [_ ?]. }
  split; [done|]. split; [|split]; eauto 10.
Qed.

Lemma run_order_ops_numbered (ops : list order_op) (db : Db) :
  orders_numbered db -> orders_numbered (run_order_ops ops db).
Proof.
  revert db. induction ops as [|op ops IH]; intros db Hinv; [done|].
  simpl. apply IH. destruct op; [by apply place_order_numbered|
                                 by apply delete_order_numbered].
Qed.

(** C9 (as the code has it).  In a table that starts empty and sees only
    creations without a preset number and deletions, a creation succeeds
    and its number is "ORD-" followed by one more than the highest key in
    the table (1 when the table is empty); the numbers of the orders in
    the table are pairwise different and grow with the key. *)
Theorem order_numbers_unique_increasing (db : Db) (ops : list order_op)
    (o : Order.t) :
  orders db = [] -> 1 <= order_seq db ->
  let db1 := run_order_ops ops db in
  (exists o',
     Order_save (Order_unsaved o) db1
     = (Ok o', set_orders (o' :: orders db1) (order_seq db1 + 1) db1)
     ∧ Order.order_number o'
       = "ORD-" +:+ pretty (match Order_last_id (orders db1) with
                            | None => 1
                            | Some last_id => last_id + 1
                            end))
  ∧ (forall o1 o2, o1 ∈ orders db1 -> o2 ∈ orders db1 ->
       Order.order_number o1 = Order.order_number o2 -> o1 = o2)
  ∧ (forall o1 o2 k1 k2, o1 ∈ orders db1 -> o2 ∈ orders db1 ->
       Order.id o1 = Some k1 -> Order.id o2 = Some k2 -> k1 < k2 ->
       exists n1 n2,
         Order.order_number o1 = "ORD-" +:+ pretty n1
         ∧ Order.order_number o2 = "ORD-" +:+ pretty n2
         ∧ n1 < n2).
Proof.
  intros Hempty Hseq db1.
  assert (orders_numbered db1) as Hinv.
  { apply run_order_ops_numbered. unfold orders_numbered. rewrite Hempty.
    split; [done|]. repeat split; intros; exfalso; eapply not_elem_of_nil; eauto. }
  split; [|split].
  - eexists. split; [by apply Order_save_unsaved_Ok|]. by destruct o.
  - destruct Hinv as (_ & Hgen & Hmono & Hpk).
    intros o1 o2 H1 H2 Heq. apply Hpk; [done..|].
    destruct (Hgen o1 H1) as (k1 & n1 & [Hk1 Hn1] & _).
    destruct (Hgen o2 H2) as (k2 & n2 & [Hk2 Hn2] & _).
    rewrite Hn1, Hn2 in Heq. apply ORD_inj in Heq as <-.
    rewrite Hk1, Hk2. f_equal.
    destruct (Z.lt_trichotomy k1 k2) as [Hlt|[?|Hgt]]; [|done|].
    + specialize (Hmono o1 o2 k1 k2 n1 n1 H1 H2 (conj Hk1 Hn1) (conj Hk2 Hn2) Hlt).
      lia.
    + specialize (Hmono o2 o1 k2 k1 n1 n1 H2 H1 (conj Hk2 Hn2) (conj Hk1 Hn1)).
      lia.
  - destruct Hinv as (_ & Hgen & Hmono & _).
    intros o1 o2 k1 k2 H1 H2 Hk1 Hk2 Hlt.
    destruct (Hgen o1 H1) as (k1' & n1 & [Hk1' Hn1] & _).
    destruct (Hgen o2 H2) as (k2' & n2 & [Hk2' Hn2] & _).
    exists n1, n2. split; [done|]. split; [done|].
    rewrite Hk1 in Hk1'. injection Hk1' as <-.
    rewrite Hk2 in Hk2'. injection Hk2' as <-.
    eapply (Hmono o1 o2 k1 k2); done.
Qed.

Lemma order_numbers_unique_increasing_witness :
  let db1 := run_order_ops order_history empty_db in
  map (fun r => (Order.id r, Order.order_number r)) (orders db1)
    = [(Some 3, "ORD-3"); (Some 2, "ORD-2")]
  ∧ (exists o',
       Order_save (Order_unsaved blank_order) db1
       = (Ok o', set_orders (o' :: orders db1) (order_seq db1 + 1) db1)
       ∧ Order.order_number o' = "ORD-4")
  ∧ (forall o1 o2, o1 ∈ orders db1 -> o2 ∈ orders db1 ->
       Order.order_number o1 = Order.order_number o2 -> o1 = o2).
Proof.
  intros db1. split; [reflexivity|].
  destruct (order_numbers_unique_increasing empty_db order_history blank_order
              eq_refl ltac:(simpl; lia)) as ((o' & Hsave & Hnum) & Huniq & _).
  split; [|exact Huniq].
  exists o'. split; [exact Hsave|]. rewrite Hnum. reflexivity.
Defined.

(** C9 (as stated) fails on reuse: once the order with the highest key is
    deleted, the next order, stored under key 2, is given "ORD-1" again. *)
Lemma order_number_reused_counterexample :
  let db1 := run_order_ops [place_order blank_order] empty_db in
  let db2 := run_order_ops [delete_order 1] db1 in
  let db3 := run_order_ops [place_order blank_order] db2 in
  map (fun r => (Order.id r, Order.order_number r)) (orders db1)
    = [(Some 1, "ORD-1")]
  ∧ orders db2 = []
  ∧ map (fun r => (Order.id r, Order.order_number r)) (orders db3)
    = [(Some 2, "ORD-1")].
Proof. vm_compute. repeat split; reflexivity. Qed.

(** ** The model-level [create_from_cart] *)

Lemma create_from_cart_loop (order : Order.t) (items : list CartItem.t) :
  forall db,
    for_each items (fun item =>
      do variant <- gets (fun db => CartItem_variant db item);
      OrderItem_create
        (OrderItem.mk (Order_pk order)
           (match variant with
            | Some v => Some (ProductVariant.product_id v)
            | None => None
            end)
           (CartItem.variant_id item)
           (CartItem.product_title item)
           (CartItem.variant_sku item)
           (CartItem.variant_attributes item)
           (CartItem.quantity item)
           (CartItem.price_snapshot item)
           (CartItem_get_total item))) db
    = (Ok tt,
       set_order_items
         (order_items db ++ map (OrderItem_of_cart_item db order) items)%list db).
Proof.
  induction items as [|i rest IH]; intros db.
  - simpl. rewrite app_nil_r. by destruct db.
  - simpl for_each. unfold bind at 1. rewrite bind_gets.
    unfold OrderItem_create at 1, modify. rewrite IH. f_equal.
    destruct db; simpl. unfold set_order_items; simpl. f_equal.
    rewrite <- app_assoc. simpl. f_equal.
Qed.

Lemma Cart_items_cleared (db db0 : Db) (cart : Cart.t) :
  Cart_items
    (set_cart_items
       (filter (fun it => CartItem.cart_id it ≠ Cart.id cart) (cart_items db)) db0)
    cart = [].
Proof.
  unfold Cart_items. replace (cart_items (set_cart_items _ db0))
    with (filter (fun it => CartItem.cart_id it ≠ Cart.id cart) (cart_items db))
    by (by destruct db0).
  induction (cart_items db) as [|it l IH]; [reflexivity|].
  rewrite filter_cons. destruct (decide (_ ≠ _)) as [Hne|Heq]; [|done].
  rewrite filter_cons. by rewrite decide_False.
Qed.

(** C10.  [Order.create_from_cart] succeeds on any cart without looking at
    stock: it stores the order and one line per cart line (title, sku,
    attributes, quantity, unit price and line subtotal), empties the cart,
    and leaves every product, every variant and the payments table as
    they were. *)
Theorem create_from_cart_effects (db : Db) (cart : Cart.t)
    (billing_address shipping_address : option Z)
    (discount shipping_cost : Decimal) :
  orders_numbered db ->
  exists order db',
    Order_create_from_cart cart billing_address shipping_address discount
      shipping_cost db = (Ok order, db')
    ∧ Order.id order = Some (order_seq db)
    ∧ Order.subtotal order = Cart_get_subtotal db cart
    ∧ Order.total_price order = Order.subtotal order - discount + shipping_cost
    ∧ orders db' = order :: orders db
    ∧ order_items db'
      = (order_items db
         ++ map (OrderItem_of_cart_item db order) (Cart_items db cart))%list
    ∧ Cart_items db' cart = []
    ∧ (forall it, CartItem.cart_id it ≠ Cart.id cart ->
         it ∈ cart_items db' <-> it ∈ cart_items db)
    ∧ products db' = products db
    ∧ variants db' = variants db
    ∧ payments db' = payments db.
Proof.
  intros Hinv. unfold Order_create_from_cart.
  rewrite bind_gets. unfold bind at 1.
  match goal with
  | |- context [Order_save ?o db] =>
      change (Order_save o db) with (Order_save (Order_unsaved o) db);
      rewrite (Order_save_unsaved_Ok db o Hinv)
  end.
  set (order := Order.set_id _ _).
  rewrite bind_gets. unfold bind at 1. rewrite create_from_cart_loop.
  unfold Cart_clear. rewrite bind_modify. unfold ret.
  exists order. eexists. split; [reflexivity|].
  split; [reflexivity|]. split; [reflexivity|]. split; [reflexivity|].
  split; [reflexivity|]. split; [reflexivity|].
  split; [|split; [|done]].
  - apply Cart_items_cleared.
  - intros it Hne. cbn [cart_items set_cart_items].
    rewrite list_elem_of_filter. tauto.
Qed.

Lemma create_from_cart_effects_witness :
  exists order db',
    Order_create_from_cart guest_cart None None 0 0 shortage_db = (Ok order, db')
    ∧ Exists (fun item => CartItem_get_stock shortage_db item < CartItem.quantity item)
             (Cart_items shortage_db guest_cart)
    ∧ Order.order_number order = "ORD-1"
    ∧ Order.total_price order = 80000
    ∧ length (order_items db') = 2%nat
    ∧ Cart_items db' guest_cart = []
    ∧ products db' = products shortage_db
    ∧ variants db' = variants shortage_db
    ∧ payments db' = [].
Proof.
  assert (orders_numbered shortage_db) as Hinv.
  { split; [simpl; lia|].
    repeat split; simpl; intros; exfalso; eapply not_elem_of_nil; eauto. }
  destruct (create_from_cart_effects shortage_db guest_cart None None 0 0 Hinv)
    as (order & db' & Hrun & Hid & Hsub & Htot & Hord & Hitems & Hcart & _
        & Hp & Hv & Hpay).
  exists order, db'. split; [exact Hrun|].
  split; [vm_compute (Cart_items _ _); apply Exists_cons_hd; vm_compute; reflexivity|].
  vm_compute in Hrun. injection Hrun as <- <-.
  repeat split; reflexivity.
Defined.

(** ** Default addresses *)

Lemma fmap_id_map (f : Address.t -> Address.t) (l : list Address.t) :
  (forall a, Address.id (f a) = Address.id a) ->
  Address.id <$> map f l = Address.id <$> l.
Proof.
  intros Hf. induction l as [|a l IH]; simpl; [done|].
  f_equal; [apply Hf|exact IH].
Qed.

(** Rewriting rows without touching key, owner or type, and without
    raising a default flag, keeps the table consistent. *)
Lemma addresses_consistent_map (f : Address.t -> Address.t) (db : Db) :
  (forall a, Address.id (f a) = Address.id a
             ∧ Address.user (f a) = Address.user a
             ∧ Address.address_type (f a) = Address.address_type a
             ∧ (Address.is_default_billing (f a) = true ->
                Address.is_default_billing a = true)
             ∧ (Address.is_default_shipping (f a) = true ->
                Address.is_default_shipping a = true)) ->
  addresses_consistent db ->
  addresses_consistent (set_addresses (map f (addresses db)) (address_seq db) db).
Proof.
  intros Hf (Hkey & Hnd & Huniq).
  assert (forall a', a' ∈ map f (addresses db) ->
            exists a, a ∈ addresses db ∧ a' = f a) as Hin.
  { intros a' Ha'. apply list_elem_of_In, in_map_iff in Ha' as (a & <- & Ha).
    exists a. split; [by apply list_elem_of_In|done]. }
  assert (Address.id <$> map f (addresses db) = Address.id <$> addresses db) as Hids.
  { apply fmap_id_map. intros a. apply Hf. }
  unfold addresses_consistent.
  replace (addresses (set_addresses _ _ db)) with (map f (addresses db))
    by (by destruct db).
  replace (address_seq (set_addresses _ _ db)) with (address_seq db)
    by (by destruct db).
  split; [|split].
  - intros a' Ha'. destruct (Hin a' Ha') as (a & Ha & ->).
    destruct (Hf a) as (-> & _). by apply Hkey.
  - by rewrite Hids.
  - intros a' b' Ha' Hb' Hu Ht.
    destruct (Hin a' Ha') as (a & Ha & ->).
    destruct (Hin b' Hb') as (b & Hb & ->).
    destruct (Hf a) as (Hia & Hua & Hta & Hba & Hsa).
    destruct (Hf b) as (Hib & Hub & Htb & Hbb & Hsb).
    rewrite Hua, Hub in Hu. rewrite Hta, Htb in Ht. rewrite Hia, Hib.
    destruct (Huniq a b Ha Hb Hu Ht) as [HB HS]. split; auto.
Qed.

Lemma unset_other_default_billing_consistent (self : Address.t) (db : Db) :
  addresses_consistent db ->
  addresses_consistent
    (set_addresses (Address_unset_other_default_billing self (addresses db))
                   (address_seq db) db).
Proof.
  apply addresses_consistent_map. intros a.
  destruct (_ && _); [|done]. by destruct a.
Qed.

Lemma unset_other_default_shipping_consistent (self : Address.t) (db : Db) :
  addresses_consistent db ->
  addresses_consistent
    (set_addresses (Address_unset_other_default_shipping self (addresses db))
                   (address_seq db) db).
Proof.
  apply addresses_consistent_map. intros a.
  destruct (_ && _); [|done]. by destruct a.
Qed.

Lemma fmap_id_map_if (self : Address.t) (k : Z) (l : list Address.t) :
  Address.id self = Some k ->
  Address.id <$> map (fun r => if bool_decide (Address.id r = Some k)
                               then self else r) l
  = Address.id <$> l.
Proof.
  intros Hid. induction l as [|a l IH]; simpl; [done|].
  f_equal; [|exact IH].
  destruct (bool_decide (Address.id a = Some k)) eqn:Hd; [|done].
  apply bool_decide_eq_true in Hd. congruence.
Qed.

Lemma violated_constraint_None (rows : list Address.t) (self : Address.t) :
  Address_violated_constraint rows self = None ->
  forall r, r ∈ rows -> Address.id r ≠ Address.id self ->
    Address.user r = Address.user self ->
    Address.address_type r = Address.address_type self ->
    (Address.is_default_billing self = true -> Address.is_default_billing r = false)
    ∧ (Address.is_default_shipping self = true ->
       Address.is_default_shipping r = false).
Proof.
  unfold Address_violated_constraint. intros Hnone r Hr Hid Hu Ht.
  assert (forall flag : Address.t -> bool,
            negb (bool_decide (Address.id r = Address.id self))
            && (Address.user r =? Address.user self)
            && bool_decide (Address.address_type r = Address.address_type self)
            && flag r = flag r) as Hclash.
  { intros flag. rewrite bool_decide_eq_false_2 by done.
    rewrite (proj2 (Z.eqb_eq _ _) Hu), bool_decide_eq_true_2 by done. done. }
  split; intros Hflag; rewrite Hflag in Hnone; simpl in Hnone.
  - destruct (existsb _ rows) eqn:Hex in Hnone; [discriminate|].
    rewrite <- Hclash. by apply (proj1 (existsb_false_iff _ _) Hex).
  - destruct (_ && existsb _ rows) in Hnone; [discriminate|].
    destruct (existsb _ rows) eqn:Hex in Hnone; [discriminate|].
    rewrite <- Hclash. by apply (proj1 (existsb_false_iff _ _) Hex).
Qed.

(** A table made of the written row and of old rows under other keys is
    consistent when the constraints accepted the write. *)
Lemma addresses_consistent_written (db : Db) (self w : Address.t)
    (rows' : list Address.t) (seq' kw : Z) :
  addresses_consistent db ->
  Address_violated_constraint (addresses db) self = None ->
  Address.id w = Some kw -> kw < seq' -> address_seq db <= seq' ->
  Address.user w = Address.user self ->
  Address.address_type w = Address.address_type self ->
  Address.is_default_billing w = Address.is_default_billing self ->
  Address.is_default_shipping w = Address.is_default_shipping self ->
  (forall a, a ∈ rows' ->
     a = w ∨ (a ∈ addresses db ∧ Address.id a ≠ Address.id self
              ∧ Address.id a ≠ Some kw)) ->
  NoDup (Address.id <$> rows') ->
  addresses_consistent (set_addresses rows' seq' db).
Proof.
  intros (Hkey & Hnd & Huniq) Hok Hidw Hkw Hseq Hu Ht Hb Hs Hrows Hnd'.
  unfold addresses_consistent.
  replace (addresses (set_addresses rows' seq' db)) with rows' by (by destruct db).
  replace (address_seq (set_addresses rows' seq' db)) with seq' by (by destruct db).
  split; [|split; [done|]].
  - intros a Ha. destruct (Hrows a Ha) as [->|(Hin & _)].
    + eauto.
    + destruct (Hkey a Hin) as (k & ? & ?). exists k. split; [done|lia].
  - intros a b Ha Hb' Hab_u Hab_t.
    destruct (Hrows a Ha) as [->|(Hina & Hnea & Hnwa)];
      destruct (Hrows b Hb') as [->|(Hinb & Hneb & Hnwb)].
    + done.
    + rewrite Hu in Hab_u. rewrite Ht in Hab_t. rewrite Hb, Hs.
      destruct (violated_constraint_None _ _ Hok b Hinb Hneb
                  (eq_sym Hab_u) (eq_sym Hab_t)) as [HB HS].
      split; intros H1 H2; [rewrite (HB H1) in H2|rewrite (HS H1) in H2];
        discriminate.
    + rewrite Hu in Hab_u. rewrite Ht in Hab_t. rewrite Hb, Hs.
      destruct (violated_constraint_None _ _ Hok a Hina Hnea Hab_u Hab_t)
        as [HB HS].
      split; intros H1 H2; [rewrite (HB H2) in H1|rewrite (HS H2) in H1];
        discriminate.
    + by apply Huniq.
Qed.

Lemma Address_write_consistent (self : Address.t) (db : Db) :
  addresses_consistent db -> Address_saveable db self ->
  addresses_consistent (snd (Address_write self db)).
Proof.
  intros Hinv Hsave. unfold Address_write.
  destruct (Address_violated_constraint (addresses db) self) eqn:Hok; [done|].
  pose proof Hinv as (Hkey & Hnd & _).
  unfold Address_saveable in Hsave.
  destruct (Address.id self) as [k|] eqn:Hid.
  - destruct (existsb _ (addresses db)) eqn:Hex; cbn [snd].
    + eapply (addresses_consistent_written db self self _ (address_seq db) k
                Hinv Hok Hid Hsave ltac:(lia) eq_refl eq_refl eq_refl eq_refl).
      * intros a Ha. apply list_elem_of_In, in_map_iff in Ha as (r & Hr & Hin).
        apply list_elem_of_In in Hin.
        destruct (bool_decide (Address.id r = Some k)) eqn:Hd.
        -- by left.
        -- right. subst a. apply bool_decide_eq_false in Hd.
           rewrite Hid. done.
      * by rewrite (fmap_id_map_if self k).
    + eapply (addresses_consistent_written db self self _ (address_seq db) k
                Hinv Hok Hid Hsave ltac:(lia) eq_refl eq_refl eq_refl eq_refl).
      * intros a Ha. apply elem_of_app in Ha as [Ha|Ha].
        -- right. split; [done|].
           pose proof (proj1 (existsb_false_iff _ _) Hex a Ha) as Hne.
           apply bool_decide_eq_false in Hne. by rewrite Hid.
        -- apply list_elem_of_singleton in Ha. by left.
      * rewrite fmap_app. apply NoDup_app. split; [done|]. split.
        -- intros x Hx Hx'. apply list_elem_of_singleton in Hx'. subst x.
           apply list_elem_of_fmap in Hx as (r & Hr & Hin).
           pose proof (proj1 (existsb_false_iff _ _) Hex r Hin) as Hne.
           apply bool_decide_eq_false in Hne. rewrite <- Hr, Hid in Hne. done.
        -- apply NoDup_singleton.
  - cbn [snd].
    eapply (addresses_consistent_written db self
              (Address.set_id (Some (address_seq db)) self) _
              (address_seq db + 1) (address_seq db)
              Hinv Hok eq_refl ltac:(lia) ltac:(lia) eq_refl eq_refl eq_refl eq_refl).
    + intros a Ha. apply elem_of_app in Ha as [Ha|Ha].
      * right. split; [done|].
        destruct (Hkey a Ha) as (k & Hk & Hlt). rewrite Hk, Hid. split; [done|].
        intros [= ->]. lia.
      * apply list_elem_of_singleton in Ha. by left.
    + rewrite fmap_app. apply NoDup_app. split; [done|]. split.
      * intros x Hx Hx'. apply list_elem_of_singleton in Hx'. subst x.
        apply list_elem_of_fmap in Hx as (r & Hr & Hin).
        destruct (Hkey r Hin) as (k & Hk & Hlt).
        replace (Address.id (Address.set_id (Some (address_seq db)) self))
          with (Some (address_seq db)) in Hr by (by destruct self).
        rewrite Hk in Hr. injection Hr as Hr. lia.
      * apply NoDup_singleton.
Qed.

Lemma Address_save_run (self : Address.t) (db : Db) :
  Address_save self db = Address_write self (Address_presave self db).
Proof.
  unfold Address_save, Address_presave.
  destruct (Address.is_default_billing self), (Address.is_default_shipping self);
    reflexivity.
Qed.

Lemma Address_save_consistent (self : Address.t) (db : Db) :
  addresses_consistent db -> Address_saveable db self ->
  addresses_consistent (snd (Address_save self db)).
Proof.
  intros Hinv Hsave. rewrite Address_save_run.
  apply Address_write_consistent.
  - unfold Address_presave.
    destruct (Address.is_default_billing self), (Address.is_default_shipping self);
      cbv zeta;
      auto using unset_other_default_billing_consistent,
                 unset_other_default_shipping_consistent.
  - unfold Address_saveable, Address_presave in *.
    destruct (Address.id self); [|done].
    by destruct (Address.is_default_billing self),
                (Address.is_default_shipping self), db.
Qed.

Lemma unset_default_billing_consistent (user : Z) (db : Db) :
  addresses_consistent db ->
  addresses_consistent
    (set_addresses (Address_unset_default_billing user (addresses db))
                   (address_seq db) db).
Proof.
  apply addresses_consistent_map. intros a.
  destruct (_ && _); [|done]. by destruct a.
Qed.

Lemma unset_default_shipping_consistent (user : Z) (db : Db) :
  addresses_consistent db ->
  addresses_consistent
    (set_addresses (Address_unset_default_shipping user (addresses db))
                   (address_seq db) db).
Proof.
  apply addresses_consistent_map. intros a.
  destruct (_ && _); [|done]. by destruct a.
Qed.

Lemma AddressSerializer_create_consistent (user : Z) (data : Address.t) (db : Db) :
  addresses_consistent db ->
  addresses_consistent (snd (AddressSerializer_create user data db)).
Proof.
  intros Hinv. unfold AddressSerializer_create.
  destruct (Address.is_default_billing data), (Address.is_default_shipping data);
    rewrite ?bind_modify, ?bind_ret;
    (apply Address_save_consistent; [|exact I]);
    auto using unset_default_billing_consistent, unset_default_shipping_consistent.
Qed.

Lemma AddressSerializer_update_consistent (instance : Address.t)
    (data : AddressData.t) (db : Db) :
  addresses_consistent db -> Address_saveable db instance ->
  addresses_consistent (snd (AddressSerializer_update instance data db)).
Proof.
  intros Hinv Hsave. unfold AddressSerializer_update.
  assert (forall d, address_seq d = address_seq db ->
            Address_saveable d (Address_setattrs instance data)) as Hsave'.
  { intros d Hd. unfold Address_saveable in *. simpl. by rewrite Hd. }
  destruct (_ && negb (Address.is_default_billing instance)),
           (_ && negb (Address.is_default_shipping instance));
    rewrite ?bind_modify, ?bind_ret;
    (apply Address_save_consistent; [|apply Hsave'; by destruct db]);
    auto using unset_other_default_billing_consistent,
               unset_other_default_shipping_consistent.
Qed.

Lemma run_address_ops_consistent (ops : list address_op) (db : Db) :
  addresses_consistent db -> address_ops_keyed db ops ->
  addresses_consistent (run_address_ops ops db).
Proof.
  revert db. induction ops as [|op rest IH]; intros db Hinv Hk; [done|].
  destruct Hk as [Hop Hrest]. simpl. apply IH; [|done].
  destruct op; simpl.
  - by apply Address_save_consistent.
  - by apply AddressSerializer_create_consistent.
  - by apply AddressSerializer_update_consistent.
Qed.

Lemma length_filter_le_1 (P : Address.t -> Prop) `{forall a, Decision (P a)}
    (l : list Address.t) :
  NoDup (Address.id <$> l) ->
  (forall a b, a ∈ l -> b ∈ l -> P a -> P b -> Address.id a = Address.id b) ->
  (length (filter P l) <= 1)%nat.
Proof.
  intros Hnd Huniq.
  assert (NoDup (Address.id <$> filter P l)) as Hnd'.
  { clear Huniq. induction l as [|a l IH]; [constructor|].
    rewrite fmap_cons in Hnd. apply NoDup_cons in Hnd as [Hnotin Hnd].
    rewrite filter_cons. destruct (decide (P a)); [|auto].
    rewrite fmap_cons. apply NoDup_cons. split; [|auto].
    intros Hin. apply Hnotin. apply list_elem_of_fmap in Hin as (r & Hr & Hin).
    apply list_elem_of_filter in Hin as [_ Hin].
    apply list_elem_of_fmap. eauto. }
  destruct (filter P l) as [|a [|b rest]] eqn:Hf; simpl; [lia|lia|].
  exfalso.
  assert (a ∈ filter P l) as Ha by (rewrite Hf; left).
  assert (b ∈ filter P l) as Hb by (rewrite Hf; right; left).
  apply list_elem_of_filter in Ha as [HPa Ha].
  apply list_elem_of_filter in Hb as [HPb Hb].
  rewrite !fmap_cons in Hnd'. apply NoDup_cons in Hnd' as [Hnotin _].
  apply Hnotin. rewrite (Huniq a b Ha Hb HPa HPb). left.
Qed.

(** What [save] leaves of the default flag it was asked to set: among the
    user's billing-type (shipping-type) addresses only the row with the
    saved instance's key, or the saved row itself, can still carry it. *)
Lemma Address_save_clears (self : Address.t) (db : Db) (r : Address.t) :
  r ∈ addresses (snd (Address_save self db)) ->
  Address.user r = Address.user self ->
  (Address.is_default_billing self = true ->
   Address.address_type r = billing -> Address.is_default_billing r = true ->
   Address.id r = Address.id self ∨ fst (Address_save self db) = Ok r)
  ∧ (Address.is_default_shipping self = true ->
     Address.address_type r = shipping -> Address.is_default_shipping r = true ->
     Address.id r = Address.id self ∨ fst (Address_save self db) = Ok r).
Proof.
  rewrite Address_save_run.
  set (db2 := Address_presave self db).
  assert (forall x, x ∈ addresses db2 ->
            Address.user x = Address.user self ->
            (Address.is_default_billing self = true ->
             Address.address_type x = billing ->
             Address.is_default_billing x = true -> Address.id x = Address.id self)
            ∧ (Address.is_default_shipping self = true ->
               Address.address_type x = shipping ->
               Address.is_default_shipping x = true ->
               Address.id x = Address.id self)) as Hcleared.
  { intros x Hx Hu. subst db2. unfold Address_presave in Hx. cbv zeta in Hx.
    split; intros Hflag Hty Hset.
    - rewrite Hflag in Hx.
      assert (exists y, y ∈ Address_unset_other_default_billing self (addresses db)
                        ∧ Address.id y = Address.id x
                        ∧ Address.user y = Address.user x
                        ∧ Address.address_type y = Address.address_type x
                        ∧ Address.is_default_billing y = Address.is_default_billing x)
        as (y & Hy & Hyid & Hyu & Hyt & Hyb).
      { destruct (Address.is_default_shipping self).
        - replace (addresses _) with
            (Address_unset_other_default_shipping self
               (Address_unset_other_default_billing self (addresses db)))
            in Hx by (by destruct db).
          apply list_elem_of_In, in_map_iff in Hx as (y & <- & Hy).
          exists y. split; [by apply list_elem_of_In|].
          destruct (_ && _); [by destruct y|done].
        - exists x. split; [|done]. by destruct db. }
      apply list_elem_of_In, in_map_iff in Hy as (z & Hz & _).
      rewrite <- Hyid. rewrite <- Hyu in Hu. rewrite <- Hyt in Hty.
      rewrite <- Hyb in Hset. clear Hyid Hyu Hyt Hyb Hx. subst y.
      destruct (_ && _) eqn:Hc; [destruct z; simpl in *; discriminate|].
      rewrite (proj2 (Z.eqb_eq _ _) Hu), Hset in Hc.
      rewrite bool_decide_eq_true_2 in Hc by done. simpl in Hc.
      by apply negb_false_iff, bool_decide_eq_true in Hc.
    - rewrite Hflag in Hx.
      match type of Hx with
      | x ∈ addresses (set_addresses ?l _ _) =>
          replace (addresses (set_addresses l _ _)) with l in Hx
            by (by destruct (Address.is_default_billing self), db)
      end.
      apply list_elem_of_In, in_map_iff in Hx as (z & Hz & _). subst x.
      destruct (_ && _) eqn:Hc; [destruct z; simpl in *; discriminate|].
      rewrite (proj2 (Z.eqb_eq _ _) Hu), Hset in Hc.
      rewrite bool_decide_eq_true_2 in Hc by done. simpl in Hc.
      by apply negb_false_iff, bool_decide_eq_true in Hc. }
  clearbody db2. intros Hr Hu.
  assert (r ∈ addresses db2 ∨ fst (Address_write self db2) = Ok r) as [Hold|Hnew].
  { unfold Address_write in *.
    destruct (Address_violated_constraint _ _); [by left|].
    destruct (Address.id self) as [k|].
    - destruct (existsb _ _); cbn [fst snd] in *.
      + replace (addresses (set_addresses _ _ db2))
          with (map (fun r => if bool_decide (Address.id r = Some k)
                              then self else r) (addresses db2)) in Hr
          by (by destruct db2).
        apply list_elem_of_In, in_map_iff in Hr as (z & Hz & Hin).
        destruct (bool_decide _); subst r; [by right|].
        left. by apply list_elem_of_In.
      + replace (addresses (set_addresses _ _ db2))
          with (addresses db2 ++ [self])%list in Hr by (by destruct db2).
        apply elem_of_app in Hr as [Hr|Hr]; [by left|].
        apply list_elem_of_singleton in Hr as ->. by right.
    - cbn [fst snd] in *.
      replace (addresses (set_addresses _ _ db2))
        with (addresses db2
              ++ [Address.set_id (Some (address_seq db2)) self])%list in Hr
        by (by destruct db2).
      apply elem_of_app in Hr as [Hr|Hr]; [by left|].
      apply list_elem_of_singleton in Hr as ->. by right. }
  - destruct (Hcleared r Hold Hu) as [HB HS]. split; auto.
  - split; intros _ _ _; by right.
Qed.

(** C6 (as the code has it).  Starting from an empty table, after any
    sequence of address saves (through [Address.save] or the serializer's
    [create] and [update]) every user has, for each address type, at most
    one default-billing and at most one default-shipping address; and a
    save that sets a default flag leaves the flag on no other billing-type
    (shipping-type, for the shipping flag) address of the same user. *)
Theorem address_defaults_per_type (db : Db) (ops : list address_op) :
  addresses db = [] -> address_ops_keyed db ops ->
  let db' := run_address_ops ops db in
  (forall u ty,
     (length (of_type ty (default_billing_addresses db' u)) <= 1)%nat
     ∧ (length (of_type ty (default_shipping_addresses db' u)) <= 1)%nat)
  ∧ (forall self r,
       r ∈ addresses (snd (Address_save self db')) ->
       Address.user r = Address.user self ->
       (Address.is_default_billing self = true ->
        Address.address_type r = billing -> Address.is_default_billing r = true ->
        Address.id r = Address.id self ∨ fst (Address_save self db') = Ok r)
       ∧ (Address.is_default_shipping self = true ->
          Address.address_type r = shipping ->
          Address.is_default_shipping r = true ->
          Address.id r = Address.id self ∨ fst (Address_save self db') = Ok r)).
Proof.
  intros Hempty Hkeyed db'. split; [|intros self r; apply Address_save_clears].
  assert (addresses_consistent db') as (Hkey & Hnd & Huniq).
  { apply run_address_ops_consistent; [|done].
    unfold addresses_consistent. rewrite Hempty.
    split; [|split; [constructor|]]; intros; exfalso;
      eapply not_elem_of_nil; eauto. }
  intros u ty. unfold of_type, default_billing_addresses,
    default_shipping_addresses. rewrite !list_filter_filter.
  split; (apply length_filter_le_1; [done|]);
    intros a b Ha Hb (Hta & Hua & Hfa) (Htb & Hub & Hfb);
    destruct (Huniq a b Ha Hb) as [HB HS]; try congruence; auto.
Qed.

Lemma address_defaults_per_type_witness :
  let db' := run_address_ops
               [save_address (home_address billing true);
                create_address 7 (home_address billing true)] empty_db in
  map (fun a => (Address.id a, Address.is_default_billing a)) (addresses db')
    = [(Some 1, false); (Some 2, true)]
  ∧ (length (of_type billing (default_billing_addresses db' 7)) <= 1)%nat.
Proof.
  intros db'. split; [reflexivity|].
  apply (address_defaults_per_type empty_db
           [save_address (home_address billing true);
            create_address 7 (home_address billing true)] eq_refl).
  simpl. done.
Defined.

(** C6 (as stated) fails: a shipping-type address saved as default billing
    is not cleared when a billing-type one is saved as default billing, and
    the user ends with two default-billing addresses. *)
Lemma two_default_billing_counterexample :
  let db' := run_address_ops
               [save_address (home_address shipping true);
                save_address (home_address billing true)] empty_db in
  map (fun a => (Address.id a, Address.address_type a, Address.is_default_billing a))
      (addresses db')
    = [(Some 1, shipping, true); (Some 2, billing, true)]
  ∧ length (default_billing_addresses db' 7) = 2%nat.
Proof. vm_compute. split; reflexivity. Qed.

(** ** Cart merge *)

(** C7 (the code at a failing input).  The guest's two pairs of gloves are
    not moved into the user cart: the lookup [filter(variant=None)] finds
    the user's line for the bells, which then counts five, and the gloves
    disappear with the guest cart. *)
Theorem merge_variantless_lines_collide :
  CartView_merge_carts guest_cart user_cart merge_db
  = (Ok tt,
     set_carts [user_cart]
       (set_cart_items
          [CartItem.mk 1 1 None (Some 3) "PROD-3" "Bell" "" 5 2000] merge_db)).
Proof. vm_compute. reflexivity. Qed.

(** With an empty user cart the first variant-less guest line is moved and
    then absorbs the second one. *)
Lemma merge_two_products_example :
  cart_items (snd (CartView_merge_carts guest_cart user_cart merge_two_products_db))
  = [CartItem.mk 1 1 None (Some 3) "PROD-3" "Bell" "" 3 2000].
Proof. vm_compute. reflexivity. Qed.

(** The specification's example, on a variant: 2 merged into 3 gives one
    line of 5, and the guest cart is gone. *)
Lemma merge_same_variant_example :
  CartView_merge_carts guest_cart user_cart merge_same_variant_db
  = (Ok tt,
     set_carts [user_cart]
       (set_cart_items
          [CartItem.mk 1 1 (Some 1) None "HEL-RED-M" "Helmet" "Red / Medium" 5 8000]
          merge_same_variant_db)).
Proof. vm_compute. reflexivity. Qed.

(** ** The two ways to place an order, side by side *)

(** On the same cart the API view takes the quantities off the stocks and
    records a payment; the model-level [create_from_cart] does neither. *)
Lemma checkout_paths_example :
  let api := snd (CreateOrderView_post guest_request guest_checkout checkout_db) in
  let model := snd (Order_create_from_cart guest_cart None None 500 6000 checkout_db) in
  (ProductVariant.stock <$> variants checkout_db !! 1 = Some 5
   ∧ Product.stock <$> products checkout_db !! 2 = Some 4)
  ∧ (ProductVariant.stock <$> variants api !! 1 = Some 2
     ∧ Product.stock <$> products api !! 2 = Some 2
     ∧ length (payments api) = 1%nat)
  ∧ (ProductVariant.stock <$> variants model !! 1 = Some 5
     ∧ Product.stock <$> products model !! 2 = Some 4
     ∧ length (payments model) = 0%nat)
  ∧ map OrderItem.quantity (order_items api) = map OrderItem.quantity (order_items model).
Proof. vm_compute. repeat split; reflexivity. Qed.

(** A signed-in checkout stores both inline addresses for the user and
    ships to Sylhet at the higher tier. *)
Lemma authenticated_checkout_example :
  let r := CreateOrderView_post user_request user_checkout user_checkout_db in
  (exists order message,
     fst r = created_response order message
     ∧ Order.billing_address order = Some 1
     ∧ Order.shipping_address order = Some 2
     ∧ Order.shipping_cost order = Decimal_of_int 120
     ∧ Order.total_price order = 8000 + 12000)
  ∧ map (fun a => (Address.id a, Address.user a, Address.address_type a, Address.city a))
        (addresses (snd r))
    = [(Some 1, 7, billing, " Dhaka "); (Some 2, 7, shipping, "Sylhet")]
  ∧ Product.stock <$> products (snd r) !! 3 = Some 5.
Proof.
  vm_compute. split; [|split; reflexivity].
  eexists _, _. repeat split; reflexivity.
Qed.

(** ** Checkout: order lines and stock *)

Lemma create_order_item_step (order : Order.t) (item : CartItem.t) (db : Db) :
  exists V P,
    CreateOrderView_create_order_item order item db
      = (Ok tt,
         set_order_items (order_items db ++ [OrderItem_of_checkout db order item])
           (set_variants V (set_products P db)))
    ∧ (forall k, V !! k
         = (fun v => ProductVariant.set_stock
                       (ProductVariant.stock v
                        - if decide (CartItem.variant_id item = Some k)
                          then CartItem.quantity item else 0) v)
           <$> variants db !! k)
    ∧ (forall k, P !! k
         = (fun p => Product.set_stock
                       (Product.stock p
                        - if decide (CartItem_variant db item = None
                                     ∧ CartItem.product_id item = Some k)
                          then CartItem.quantity item else 0) p)
           <$> products db !! k).
Proof.
  assert (forall k, variants db !! k
            = (fun v => ProductVariant.set_stock (ProductVariant.stock v - 0) v)
              <$> variants db !! k) as Hsame_v.
  { intros k. destruct (variants db !! k); simpl; [|done].
    by rewrite Z.sub_0_r, set_stock_variant_id. }
  assert (forall k, products db !! k
            = (fun p => Product.set_stock (Product.stock p - 0) p)
              <$> products db !! k) as Hsame_p.
  { intros k. destruct (products db !! k); simpl; [|done].
    by rewrite Z.sub_0_r, set_stock_product_id. }
  unfold CreateOrderView_create_order_item, OrderItem_create,
    CreateOrderView_reduce_stock.
  rewrite bind_gets, bind_modify. unfold modify.
  unfold OrderItem_of_checkout, CartItem_get_total, CartItem_variant,
    CartItem_product.
  cbn [set_order_items variants products].
  assert (forall (X : Prop) `{Decision X} q k, ¬ X ->
            variants db !! k
            = (fun v => ProductVariant.set_stock
                          (ProductVariant.stock v - if decide X then q else 0) v)
              <$> variants db !! k) as Hskip_v.
  { intros X ? q k HX. rewrite decide_False by done. apply Hsame_v. }
  assert (forall (X : Prop) `{Decision X} q k, ¬ X ->
            products db !! k
            = (fun p => Product.set_stock
                          (Product.stock p - if decide X then q else 0) p)
              <$> products db !! k) as Hskip_p.
  { intros X ? q k HX. rewrite decide_False by done. apply Hsame_p. }
  destruct (CartItem.variant_id item) as [kv|] eqn:Hkv;
    [destruct (variants db !! kv) as [v|] eqn:Hv|];
    [|destruct (CartItem.product_id item) as [kp|] eqn:Hkp;
      [destruct (products db !! kp) as [p|] eqn:Hp|]..];
    cbn [mbind option_bind]; rewrite ?Hv, ?Hp.
  - exists (<[kv := ProductVariant.set_stock
                      (ProductVariant.stock v - CartItem.quantity item) v]>
              (variants db)), (products db).
    split; [by destruct db|]. split; intros k.
    + destruct (decide (kv = k)) as [->|Hne].
      * rewrite lookup_insert_eq, Hv. simpl. by rewrite decide_True.
      * rewrite lookup_insert_ne by done. apply Hskip_v. congruence.
    + apply Hskip_p. by intros [? _].
  - exists (variants db),
      (<[kp := Product.set_stock (Product.stock p - CartItem.quantity item) p]>
         (products db)).
    split; [by destruct db|]. split; intros k.
    + destruct (decide (kv = k)) as [->|Hne].
      * rewrite Hv. done.
      * apply Hskip_v. congruence.
    + destruct (decide (kp = k)) as [->|Hne].
      * rewrite lookup_insert_eq, Hp. simpl. by rewrite decide_True.
      * rewrite lookup_insert_ne by done. apply Hskip_p. intros [_ ?]. congruence.
  - exists (variants db), (products db).
    split; [by destruct db|]. split; intros k.
    + destruct (decide (kv = k)) as [->|Hne].
      * rewrite Hv. done.
      * apply Hskip_v. congruence.
    + destruct (decide (kp = k)) as [->|Hne].
      * rewrite Hp. done.
      * apply Hskip_p. intros [_ ?]. congruence.
  - exists (variants db), (products db).
    split; [by destruct db|]. split; intros k.
    + destruct (decide (kv = k)) as [->|Hne].
      * rewrite Hv. done.
      * apply Hskip_v. congruence.
    + apply Hskip_p. by intros [_ ?].
  - exists (variants db),
      (<[kp := Product.set_stock (Product.stock p - CartItem.quantity item) p]>
         (products db)).
    split; [by destruct db|]. split; intros k.
    + apply Hskip_v. done.
    + destruct (decide (kp = k)) as [->|Hne].
      * rewrite lookup_insert_eq, Hp. simpl. by rewrite decide_True.
      * rewrite lookup_insert_ne by done. apply Hskip_p. intros [_ ?]. congruence.
  - exists (variants db), (products db).
    split; [by destruct db|]. split; intros k.
    + apply Hskip_v. done.
    + destruct (decide (kp = k)) as [->|Hne].
      * rewrite Hp. done.
      * apply Hskip_p. intros [_ ?]. congruence.
  - exists (variants db), (products db).
    split; [by destruct db|]. split; intros k.
    + apply Hskip_v. done.
    + apply Hskip_p. by intros [_ ?].
Qed.

Lemma reduced_from_variant_cons i rest k :
  reduced_from_variant (i :: rest) k
  = (if decide (CartItem.variant_id i = Some k) then CartItem.quantity i else 0)
    + reduced_from_variant rest k.
Proof.
  unfold reduced_from_variant. rewrite filter_cons.
  destruct (decide _); simpl; [by rewrite sum_cons|lia].
Qed.

Lemma reduced_from_product_cons db i rest k :
  reduced_from_product db (i :: rest) k
  = (if decide (CartItem_variant db i = None ∧ CartItem.product_id i = Some k)
     then CartItem.quantity i else 0)
    + reduced_from_product db rest k.
Proof.
  unfold reduced_from_product. rewrite filter_cons.
  destruct (decide _); simpl; [by rewrite sum_cons|lia].
Qed.

(** Two stores with the same catalogue keys resolve the targets of a cart
    line alike. *)
Lemma CartItem_variant_None_stock db db'
    (f : Z -> ProductVariant.t -> ProductVariant.t) i :
  (forall k, variants db' !! k = f k <$> variants db !! k) ->
  CartItem_variant db' i = None <-> CartItem_variant db i = None.
Proof.
  intros HV. unfold CartItem_variant.
  destruct (CartItem.variant_id i) as [k|]; simpl; [|done].
  by rewrite HV, fmap_None.
Qed.

Lemma OrderItem_of_checkout_stock db db' order i
    (f : Z -> ProductVariant.t -> ProductVariant.t) (g : Z -> Product.t -> Product.t) :
  (forall k, variants db' !! k = f k <$> variants db !! k) ->
  (forall k v, ProductVariant.product_id (f k v) = ProductVariant.product_id v) ->
  (forall k, products db' !! k = g k <$> products db !! k) ->
  OrderItem_of_checkout db' order i = OrderItem_of_checkout db order i.
Proof.
  intros HV Hf HP. unfold OrderItem_of_checkout, CartItem_product, CartItem_variant.
  f_equal.
  destruct (CartItem.product_id i) as [kp|]; simpl.
  - rewrite HP. destruct (products db !! kp); simpl; [done|].
    destruct (CartItem.variant_id i) as [kv|]; simpl; [|done].
    rewrite HV. destruct (variants db !! kv); simpl; [|done]. by rewrite Hf.
  - destruct (CartItem.variant_id i) as [kv|]; simpl; [|done].
    rewrite HV. destruct (variants db !! kv); simpl; [|done]. by rewrite Hf.
Qed.

(** The loop over the cart lines in [post]: one order line per cart line,
    and every stock reduced by the quantities of the lines that target
    it. *)
Lemma create_order_items_loop (order : Order.t) (items : list CartItem.t) :
  forall db, exists V P,
    for_each items (CreateOrderView_create_order_item order) db
      = (Ok tt,
         set_order_items
           (order_items db ++ map (OrderItem_of_checkout db order) items)
           (set_variants V (set_products P db)))
    ∧ (forall k, V !! k
         = (fun v => ProductVariant.set_stock
                       (ProductVariant.stock v - reduced_from_variant items k) v)
           <$> variants db !! k)
    ∧ (forall k, P !! k
         = (fun p => Product.set_stock
                       (Product.stock p - reduced_from_product db items k) p)
           <$> products db !! k).
Proof.
  induction items as [|i rest IH]; intros db.
  - exists (variants db), (products db). simpl. rewrite app_nil_r.
    split; [by destruct db|].
    unfold reduced_from_variant, reduced_from_product. simpl. rewrite sum_nil.
    split; intros k.
    + destruct (variants db !! k) as [v|]; simpl; [|done].
      by rewrite Z.sub_0_r, set_stock_variant_id.
    + destruct (products db !! k) as [p|]; simpl; [|done].
      by rewrite Z.sub_0_r, set_stock_product_id.
  - destruct (create_order_item_step order i db) as (V1 & P1 & Hstep & HV1 & HP1).
    set (db1 := set_order_items
                  (order_items db ++ [OrderItem_of_checkout db order i])
                  (set_variants V1 (set_products P1 db))) in *.
    destruct (IH db1) as (V & P & Hrest & HV & HP).
    assert (variants db1 = V1) as HdbV by (by destruct db).
    assert (products db1 = P1) as HdbP by (by destruct db).
    assert (forall j, OrderItem_of_checkout db1 order j = OrderItem_of_checkout db order j)
      as Hoi.
    { intros j.
      apply (OrderItem_of_checkout_stock db db1 order j
               (fun k v => ProductVariant.set_stock
                  (ProductVariant.stock v
                   - if decide (CartItem.variant_id i = Some k)
                     then CartItem.quantity i else 0) v)
               (fun k p => Product.set_stock
                  (Product.stock p
                   - if decide (CartItem_variant db i = None
                                ∧ CartItem.product_id i = Some k)
                     then CartItem.quantity i else 0) p)).
      - intros k. by rewrite HdbV, HV1.
      - by intros k [].
      - intros k. by rewrite HdbP, HP1. }
    exists V, P. split.
    { simpl for_each. unfold bind. rewrite Hstep. fold db1. rewrite Hrest.
      rewrite (map_ext _ _ Hoi). unfold db1. destruct db; simpl.
      by rewrite <- app_assoc. }
    assert (forall k, reduced_from_product db1 rest k = reduced_from_product db rest k)
      as Hsame.
    { intros k. unfold reduced_from_product. f_equal. f_equal.
      apply list_filter_iff. intros j.
      rewrite (CartItem_variant_None_stock db db1
                 (fun k v => ProductVariant.set_stock
                    (ProductVariant.stock v
                     - if decide (CartItem.variant_id i = Some k)
                       then CartItem.quantity i else 0) v) j); [done|].
      intros k'. rewrite HdbV. apply HV1. }
    split; intros k.
    + rewrite HV, HdbV, HV1, reduced_from_variant_cons.
      destruct (variants db !! k) as [v|]; simpl; [|done].
      rewrite set_stock_variant_twice. f_equal. f_equal.
      destruct v; simpl. lia.
    + rewrite HP, Hsame, HdbP, HP1, reduced_from_product_cons.
      destruct (products db !! k) as [p|]; simpl; [|done].
      rewrite set_stock_product_twice. f_equal. f_equal.
      destruct p; simpl. lia.
Qed.

(** What a committed checkout transaction has done to the catalogue, the
    order lines and the cart lines. *)
Lemma transaction_lines request data cart db order db' :
  CreateOrderView_transaction request data cart db = (Ok order, db') ->
  order_items db'
  = (order_items db
     ++ map (OrderItem_of_checkout db order) (Cart_items db cart))%list
  ∧ cart_items db'
    = filter (fun it => CartItem.cart_id it ≠ Cart.id cart) (cart_items db)
  ∧ carts db' = carts db
  ∧ (forall k, variants db' !! k
       = (fun v => ProductVariant.set_stock
                     (ProductVariant.stock v
                      - reduced_from_variant (Cart_items db cart) k) v)
         <$> variants db !! k)
  ∧ (forall k, products db' !! k
       = (fun p => Product.set_stock
                     (Product.stock p
                      - reduced_from_product db (Cart_items db cart) k) p)
         <$> products db !! k).
Proof.
  intros H. unfold CreateOrderView_transaction in H.
  apply bind_Ok_inv in H as ([[[b s] gb] gs] & db1 & Hres & H).
  rewrite bind_gets in H.
  apply bind_Ok_inv in H as (o & db2 & Hsave & H).
  rewrite bind_gets in H.
  apply bind_Ok_inv in H as ([] & db3 & Hloop & H).
  apply bind_Ok_inv in H as ([] & db4 & Hpay & H).
  unfold Cart_clear in H. rewrite bind_modify in H. injection H as <- Hdb'.
  apply Order_save_new_Ok in Hsave as [Ho Hdb2]; [|done..].
  apply Payment_create_Ok in Hpay.
  assert (db1 = set_addresses (addresses db1) (address_seq db1) db) as Hdb1.
  { destruct (Request.user request) as [uid|].
    - apply bind_Ok_inv in Hres as (ba & dba & Hb & Hres).
      apply bind_Ok_inv in Hres as (sa & dbs & Hsa & Hres).
      injection Hres as <- <- <- <- <-.
      apply get_or_create_address_Ok in Hb as (_ & _ & Hdba).
      apply get_or_create_address_Ok in Hsa as (_ & _ & Hdbs).
      rewrite Hdbs, Hdba. by destruct db.
    - injection Hres as <- <- <- <- <-. by destruct db. }
  destruct (create_order_items_loop o (Cart_items db2 cart) db2)
    as (V & P & Hloop' & HV & HP).
  rewrite Hloop' in Hloop. injection Hloop as Hdb3.
  assert (cart_items db2 = cart_items db ∧ variants db2 = variants db
          ∧ products db2 = products db ∧ order_items db2 = order_items db
          ∧ carts db2 = carts db) as (Hc2 & Hv2 & Hp2 & Hi2 & Hk2).
  { rewrite Hdb2, Hdb1. by destruct db. }
  assert (Cart_items db2 cart = Cart_items db cart) as Hitems.
  { unfold Cart_items. by rewrite Hc2. }
  assert (forall j, OrderItem_of_checkout db2 o j = OrderItem_of_checkout db o j)
    as Hoi.
  { intros j. unfold OrderItem_of_checkout, CartItem_product, CartItem_variant.
    by rewrite Hv2, Hp2. }
  assert (forall k, reduced_from_product db2 (Cart_items db cart) k
                    = reduced_from_product db (Cart_items db cart) k) as Hred.
  { intros k. unfold reduced_from_product, CartItem_variant. by rewrite Hv2. }
  rewrite Hitems in *. rewrite (map_ext _ _ Hoi), Hi2 in Hdb3.
  rewrite <- Hdb', Hpay, <- Hdb3. simpl.
  rewrite Hc2, Hk2. split_and!; try done.
  - intros k. rewrite HV. by rewrite Hv2.
  - intros k. rewrite HP, Hred. by rewrite Hp2.
Qed.

Lemma filter_nil_intro {A} (P : A -> Prop) `{forall x, Decision (P x)} (l : list A) :
  (forall x, x ∈ l -> ¬ P x) -> filter P l = [].
Proof.
  induction l as [|a l IH]; intros Hl; [done|].
  rewrite filter_cons_False by (apply Hl; left).
  apply IH. intros x Hx. apply Hl. by right.
Qed.

(** Among lines whose keys [f] are pairwise distinct, the lines selected
    by a predicate that fixes the key are none or one. *)
Lemma sum_filter_keyed {A} (f : A -> option Z) (q : A -> Z) (P : A -> Prop)
    `{forall x, Decision (P x)} (k : Z) (l : list A) :
  NoDup (omap f l) ->
  (forall x, P x -> f x = Some k) ->
  sum (map q (filter P l)) = 0
  ∨ exists x, x ∈ l ∧ P x ∧ sum (map q (filter P l)) = q x.
Proof.
  intros Hnd HP. induction l as [|a l IH]; [by left|].
  rewrite filter_cons. simpl in Hnd.
  destruct (decide (P a)) as [Ha|Ha].
  - right. exists a. split; [left|]. split; [done|].
    rewrite (HP a Ha) in Hnd. apply NoDup_cons in Hnd as [Hk _].
    assert (filter P l = []) as ->.
    { apply filter_nil_intro. intros x Hx Hpx. apply Hk.
      apply list_elem_of_omap. exists x. split; [done|]. by apply HP. }
    simpl. rewrite sum_cons, sum_nil. lia.
  - assert (NoDup (omap f l)) as Hl.
    { destruct (f a); [by apply NoDup_cons in Hnd as [_ ?]|done]. }
    destruct (IH Hl) as [H0|(x & Hx & Hpx & Hs)]; [by left|].
    right. exists x. split; [by right|]. done.
Qed.

Lemma post_created_stock request data db order message db' :
  CreateOrderView_post request data db = (created_response order message, db') ->
  exists cart,
    CreateOrderView_get_cart db request = Some cart
    ∧ Forall (fun item => CartItem.quantity item <= CartItem_get_stock db item)
             (Cart_items db cart)
    ∧ CreateOrderView_transaction request data cart db = (Ok order, db').
Proof.
  unfold CreateOrderView_post.
  destruct (CreateOrderSerializer_validate request data); [|discriminate].
  simpl negb. cbv iota.
  destruct (CreateOrderView_get_cart db request) as [cart|]; [|discriminate].
  destruct (_ =? _)%nat; [discriminate|].
  destruct (CreateOrderView_validate_stock _ _) as [r|] eqn:Hstock.
  { apply validate_stock_Some in Hstock as ->. discriminate. }
  unfold atomic.
  destruct (CreateOrderView_transaction request data cart db) as [[o|e] d]
    eqn:Htx; [|discriminate].
  intros [= <- _ <-]. exists cart. split; [done|].
  split; [by apply validate_stock_pass|done].
Qed.

(** X1.  A checkout that creates its order takes from the stock of every
    variant the quantities of the cart lines that reference it, and from
    the stock of every product the quantities of the lines that have no
    variant and reference it; no catalogue row appears or disappears. *)
Theorem create_order_reduces_stock request data db order message db' :
  CreateOrderView_post request data db = (created_response order message, db') ->
  exists cart,
    CreateOrderView_get_cart db request = Some cart
    ∧ (forall k, variants db' !! k
         = (fun v => ProductVariant.set_stock
                       (ProductVariant.stock v
                        - reduced_from_variant (Cart_items db cart) k) v)
           <$> variants db !! k)
    ∧ (forall k, products db' !! k
         = (fun p => Product.set_stock
                       (Product.stock p
                        - reduced_from_product db (Cart_items db cart) k) p)
           <$> products db !! k).
Proof.
  intros H. apply post_created_stock in H as (cart & Hcart & _ & Htx).
  exists cart. split; [done|].
  by apply transaction_lines in Htx as (_ & _ & _ & HV & HP).
Qed.

Lemma create_order_reduces_stock_witness :
  exists cart,
    CreateOrderView_get_cart checkout_db guest_request = Some cart
    ∧ (forall k, variants placed_db !! k
         = (fun v => ProductVariant.set_stock
                       (ProductVariant.stock v
                        - reduced_from_variant (Cart_items checkout_db cart) k) v)
           <$> variants checkout_db !! k)
    ∧ (forall k, products placed_db !! k
         = (fun p => Product.set_stock
                       (Product.stock p
                        - reduced_from_product checkout_db
                            (Cart_items checkout_db cart) k) p)
           <$> products checkout_db !! k).
Proof.
  apply (create_order_reduces_stock guest_request guest_checkout checkout_db
           checkout_order "Order created successfully").
  vm_compute. reflexivity.
Defined.

(** X2.  When no variant and no product occurs twice among the lines of
    the cart (the two unique constraints of [CartItem]), a checkout that
    creates its order leaves no stock below zero that was not below zero
    before. *)
Theorem create_order_stock_nonnegative request data db order message db' cart :
  CreateOrderView_post request data db = (created_response order message, db') ->
  CreateOrderView_get_cart db request = Some cart ->
  NoDup (omap CartItem.variant_id (Cart_items db cart)) ->
  NoDup (omap CartItem.product_id (Cart_items db cart)) ->
  (forall k v', variants db' !! k = Some v' ->
     exists v, variants db !! k = Some v
               ∧ (0 <= ProductVariant.stock v -> 0 <= ProductVariant.stock v'))
  ∧ (forall k p', products db' !! k = Some p' ->
       exists p, products db !! k = Some p
                 ∧ (0 <= Product.stock p -> 0 <= Product.stock p')).
Proof.
  intros H Hcart Hndv Hndp.
  apply post_created_stock in H as (cart' & Hcart' & Hstock & Htx).
  assert (cart' = cart) as -> by congruence.
  apply transaction_lines in Htx as (_ & _ & _ & HV & HP).
  rewrite Forall_forall in Hstock.
  split.
  - intros k v' Hv'. rewrite HV in Hv'.
    destruct (variants db !! k) as [v|] eqn:Hv; [|done].
    injection Hv' as <-. exists v. split; [done|]. intros H0.
    destruct v as [pid sku pr sp st act attrs]. simpl in *.
    destruct (sum_filter_keyed CartItem.variant_id CartItem.quantity
                (fun i => CartItem.variant_id i = Some k) k (Cart_items db cart)
                Hndv (fun _ Hx => Hx)) as [Hz|(i & Hi & Hik & Hs)].
    + unfold reduced_from_variant. lia.
    + unfold reduced_from_variant. rewrite Hs.
      specialize (Hstock i Hi). unfold CartItem_get_stock, CartItem_variant in Hstock.
      rewrite Hik in Hstock. simpl in Hstock. rewrite Hv in Hstock.
      simpl in Hstock. lia.
  - intros k p' Hp'. rewrite HP in Hp'.
    destruct (products db !! k) as [p|] eqn:Hp; [|done].
    injection Hp' as <-. exists p. split; [done|]. intros H0.
    destruct p as [ti pr sp st act]. simpl in *.
    destruct (sum_filter_keyed CartItem.product_id CartItem.quantity
                (fun i => CartItem_variant db i = None
                          ∧ CartItem.product_id i = Some k) k (Cart_items db cart)
                Hndp (fun _ Hx => proj2 Hx)) as [Hz|(i & Hi & [Hiv Hik] & Hs)].
    + unfold reduced_from_product. lia.
    + unfold reduced_from_product. rewrite Hs.
      specialize (Hstock i Hi). unfold CartItem_get_stock, CartItem_product in Hstock.
      rewrite Hiv, Hik in Hstock. simpl in Hstock. rewrite Hp in Hstock.
      simpl in Hstock. lia.
Qed.

Lemma create_order_stock_nonnegative_witness :
  (forall k v', variants placed_db !! k = Some v' ->
     exists v, variants checkout_db !! k = Some v
               ∧ (0 <= ProductVariant.stock v -> 0 <= ProductVariant.stock v'))
  ∧ (forall k p', products placed_db !! k = Some p' ->
       exists p, products checkout_db !! k = Some p
                 ∧ (0 <= Product.stock p -> 0 <= Product.stock p')).
Proof.
  apply (create_order_stock_nonnegative guest_request guest_checkout checkout_db
           checkout_order "Order created successfully" _ guest_cart).
  - vm_compute. reflexivity.
  - vm_compute. reflexivity.
  - vm_compute (Cart_items _ _). simpl. repeat constructor; set_solver.
  - vm_compute (Cart_items _ _). simpl. repeat constructor; set_solver.
Defined.

Lemma Order_items_created db db' order (new : list OrderItem.t) :
  order_items db' = (order_items db ++ new)%list ->
  (forall i, i ∈ order_items db -> OrderItem.order_id i ≠ Order_pk order) ->
  (forall i, i ∈ new -> OrderItem.order_id i = Order_pk order) ->
  Order_items db' order = new.
Proof.
  intros Hoi Hold Hnew. unfold Order_items. rewrite Hoi, filter_app.
  rewrite (filter_nil_intro _ (order_items db)) by (intros i Hi; by apply Hold).
  simpl. clear Hoi. induction new as [|a l IH]; [done|].
  rewrite filter_cons, decide_True by (apply Hnew; apply list_elem_of_here).
  f_equal. apply IH. intros i Hi. apply Hnew. by right.
Qed.

Lemma Cart_items_other db db' cart other :
  cart_items db'
  = filter (fun it => CartItem.cart_id it ≠ Cart.id cart) (cart_items db) ->
  Cart.id other ≠ Cart.id cart ->
  Cart_items db' other = Cart_items db other.
Proof.
  intros Hci Hne. unfold Cart_items. rewrite Hci, list_filter_filter.
  apply list_filter_iff. intros it. split; [by intros [? _]|].
  intros Hit. split; [done|congruence].
Qed.

(** X3.  A checkout that creates its order writes one order line per line
    of the cart, each with the cart line's quantity, its price snapshot as
    unit price and their product as subtotal; the line subtotals add up to
    the order's subtotal and the quantities to the cart's item count.  The
    cart is left empty and the lines of every other cart are untouched.
    The order's key is the next of the sequence, which no stored order
    line carries. *)
Theorem create_order_lines request data db order message db' :
  CreateOrderView_post request data db = (created_response order message, db') ->
  (forall i, i ∈ order_items db -> OrderItem.order_id i ≠ order_seq db) ->
  exists cart,
    CreateOrderView_get_cart db request = Some cart
    ∧ Order_items db' order
      = map (OrderItem_of_checkout db order) (Cart_items db cart)
    ∧ Forall (fun i => OrderItem.subtotal i
                       = OrderItem.unit_price i * OrderItem.quantity i)
             (Order_items db' order)
    ∧ sum (map OrderItem.subtotal (Order_items db' order)) = Order.subtotal order
    ∧ Order_get_total_items db' order = Cart_get_total_items db cart
    ∧ Cart_items db' cart = []
    ∧ (forall other, Cart.id other ≠ Cart.id cart ->
         Cart_items db' other = Cart_items db other).
Proof.
  intros H Hfresh. apply post_created in H as (_ & cart & Hcart & Htx).
  exists cart. split; [done|].
  pose proof Htx as Hl. apply transaction_lines in Hl as (Hoi & Hci & _).
  apply transaction_Ok in Htx
    as (_ & _ & _ & _ & _ & Hsub & _ & _ & _ & Hid & _).
  assert (Order_pk order = order_seq db) as Hpk
    by (unfold Order_pk; by rewrite Hid).
  assert (Order_items db' order
          = map (OrderItem_of_checkout db order) (Cart_items db cart)) as Hitems.
  { apply (Order_items_created db); [done| |].
    - intros i Hi. rewrite Hpk. by apply Hfresh.
    - intros i Hi. apply list_elem_of_fmap in Hi as (c & -> & _). done. }
  unfold Order_get_total_items. rewrite Hitems, Hsub.
  split_and!.
  - done.
  - apply Forall_forall. intros i Hi.
    apply list_elem_of_fmap in Hi as (c & -> & _). done.
  - unfold Cart_get_subtotal. f_equal. rewrite map_map. done.
  - unfold Cart_get_total_items. f_equal. rewrite map_map. done.
  - unfold Cart_items. rewrite Hci, list_filter_filter.
    apply filter_nil_intro. intros it _ [? ?]. done.
  - intros other Hne. by apply (Cart_items_other db db' cart).
Qed.

Lemma create_order_lines_witness :
  exists cart,
    CreateOrderView_get_cart checkout_db guest_request = Some cart
    ∧ Order_items placed_db checkout_order
      = map (OrderItem_of_checkout checkout_db checkout_order)
            (Cart_items checkout_db cart)
    ∧ Forall (fun i => OrderItem.subtotal i
                       = OrderItem.unit_price i * OrderItem.quantity i)
             (Order_items placed_db checkout_order)
    ∧ sum (map OrderItem.subtotal (Order_items placed_db checkout_order))
      = Order.subtotal checkout_order
    ∧ Order_get_total_items placed_db checkout_order
      = Cart_get_total_items checkout_db cart
    ∧ Cart_items placed_db cart = []
    ∧ (forall other, Cart.id other ≠ Cart.id cart ->
         Cart_items placed_db other = Cart_items checkout_db other).
Proof.
  apply (create_order_lines guest_request guest_checkout checkout_db
           checkout_order "Order created successfully").
  - vm_compute. reflexivity.
  - intros i Hi. vm_compute in Hi. by apply elem_of_nil in Hi.
Defined.

(** ** Checkout followed by cancellation *)

Lemma filter_map_comm {A B} (f : A -> B) (P : B -> Prop) `{forall y, Decision (P y)}
    (l : list A) :
  filter P (map f l) = map f (filter (fun x => P (f x)) l).
Proof.
  induction l as [|a l IH]; [done|]. simpl map.
  rewrite !filter_cons. destruct (decide (P (f a))); simpl; by rewrite IH.
Qed.

Lemma restored_of_checkout_variant db order items k :
  restored_to_variant (map (OrderItem_of_checkout db order) items) k
  = reduced_from_variant items k.
Proof.
  unfold restored_to_variant, reduced_from_variant.
  rewrite filter_map_comm, map_map. done.
Qed.

Lemma restored_of_checkout_product db db1 order items k
    (f : Z -> ProductVariant.t -> ProductVariant.t) :
  (forall j, variants db1 !! j = f j <$> variants db !! j) ->
  is_Some (products db !! k) ->
  restored_to_product db1 (map (OrderItem_of_checkout db order) items) k
  = reduced_from_product db items k.
Proof.
  intros HV [p Hp]. unfold restored_to_product, reduced_from_product.
  rewrite filter_map_comm, map_map. simpl. f_equal. f_equal.
  apply list_filter_iff. intros i.
  assert (OrderItem_variant db1 (OrderItem_of_checkout db order i) = None
          <-> CartItem_variant db i = None) as ->.
  { unfold OrderItem_variant, CartItem_variant. simpl.
    destruct (CartItem.variant_id i) as [j|]; simpl; [|done].
    by rewrite HV, fmap_None. }
  split; intros [Hv Hk]; (split; [done|]).
  - rewrite Hv in Hk. destruct (CartItem_product db i); [done|discriminate].
  - unfold CartItem_product. rewrite Hv, Hk. simpl. by rewrite Hp.
Qed.

(** A save that succeeds found no other row with the instance's number. *)
Lemma Order_save_new_unique (o o' : Order.t) (db db' : Db) :
  Order.id o = None ->
  Order_save o db = (Ok o', db') ->
  forall r, r ∈ orders db -> is_Some (Order.id r) ->
            Order.order_number r ≠ Order.order_number o'.
Proof.
  intros Hid H r Hr [k Hk]. unfold Order_save in H.
  apply bind_Ok_inv in H as (o1 & db1 & H1 & H).
  assert (db1 = db ∧ Order.id o1 = None) as [-> Hid1].
  { destruct (String.eqb _ _).
    - rewrite bind_gets in H1. injection H1 as <- <-. by destruct o.
    - by injection H1 as <- <-. }
  unfold Order_write in H.
  destruct (existsb _ _) eqn:Hex; [discriminate|].
  rewrite existsb_false_iff in Hex. specialize (Hex r Hr).
  rewrite Hid1 in H. injection H as <- _.
  rewrite Hid1, Hk in Hex. rewrite bool_decide_eq_false_2 in Hex by done.
  simpl in Hex. intros Heq. rewrite Heq in Hex.
  replace (Order.order_number (Order.set_id (Some (order_seq db)) o1))
    with (Order.order_number o1) in Hex by (by destruct o1).
  by rewrite String.eqb_refl in Hex.
Qed.

(** The order row a committed checkout transaction has written. *)
Lemma transaction_order request data cart db order db' :
  CreateOrderView_transaction request data cart db = (Ok order, db') ->
  Order.user order = Request.user request
  ∧ Order.session_key order
    = match Request.user request with
      | Some _ => None
      | None => Cart.session_key cart
      end
  ∧ Order.status order = pending
  ∧ Order.payment_status order = unpaid
  ∧ Order.order_number order ≠ ""
  ∧ (forall r, r ∈ orders db -> is_Some (Order.id r) ->
               Order.order_number r ≠ Order.order_number order).
Proof.
  intros H. unfold CreateOrderView_transaction in H.
  apply bind_Ok_inv in H as ([[[b s] gb] gs] & db1 & Hres & H).
  rewrite bind_gets in H.
  apply bind_Ok_inv in H as (o & db2 & Hsave & H).
  rewrite bind_gets in H.
  apply bind_Ok_inv in H as ([] & db3 & Hloop & H).
  apply bind_Ok_inv in H as ([] & db4 & Hpay & H).
  unfold Cart_clear in H. rewrite bind_modify in H. injection H as <- _.
  assert (orders db1 = orders db) as Ho1.
  { destruct (Request.user request) as [uid|].
    - apply bind_Ok_inv in Hres as (ba & dba & Hb & Hres).
      apply bind_Ok_inv in Hres as (sa & dbs & Hsa & Hres).
      injection Hres as <- <- <- <- <-.
      apply get_or_create_address_Ok in Hb as (_ & _ & Hdba).
      apply get_or_create_address_Ok in Hsa as (_ & _ & Hdbs).
      rewrite Hdbs, Hdba. by destruct db.
    - by injection Hres as <- <- <- <- <-. }
  pose proof (fun E => Order_save_new_unique _ o db1 db2 E Hsave) as Huniq.
  specialize (Huniq eq_refl). rewrite Ho1 in Huniq.
  apply Order_save_new_Ok in Hsave as [Ho _]; [|done..].
  subst o. simpl in *. split_and!; try done.
Qed.

(** X4.  Cancelling an order right after the checkout that created it
    succeeds for the caller who placed it and puts the stock of every
    variant and every product back to what it was before the checkout. *)
Theorem checkout_then_cancel_restores_stock request data db order message db1 :
  orders_indexed db -> order_seq_fresh db ->
  CreateOrderView_post request data db = (created_response order message, db1) ->
  exists db2,
    CancelOrderView_patch request (Order.order_number order) db1
    = (success_response (Order.set_status cancelled failed order)
         "Order cancelled successfully", db2)
    ∧ variants db2 = variants db
    ∧ products db2 = products db.
Proof.
  intros [Hids Huniq] [Hfo Hfi] H.
  apply post_created in H as (_ & cart & Hcart & Htx).
  pose proof (transaction_lines _ _ _ _ _ _ Htx) as (Hoi & _ & _ & HV1 & HP1).
  pose proof (transaction_order _ _ _ _ _ _ Htx)
    as (Hu & Hs & Hst & Hpay & Hnum & Hnew).
  apply transaction_Ok in Htx
    as (_ & _ & _ & _ & _ & _ & _ & _ & _ & Hid & Hord & _).
  assert (Order_pk order = order_seq db) as Hpk
    by (unfold Order_pk; by rewrite Hid).
  assert (Order_owned_by request order) as Hown.
  { unfold Order_owned_by. destruct (Request.user request) eqn:Hru; [done|].
    unfold CreateOrderView_get_cart in Hcart. rewrite Hru in Hcart.
    destruct (negb (truthy_str _)) eqn:Ht; [done|].
    apply negb_false_iff in Ht.
    apply head_Some_elem_of, list_elem_of_filter in Hcart as [[Hk _] _].
    split; [done|]. by rewrite Hs. }
  assert (CancelOrderView_get_order request (Order.order_number order) db1
          = Ok order) as Hget.
  { unfold CancelOrderView_get_order, Order_get. rewrite Hord.
    unfold Order_owned_by in Hown.
    destruct (Request.user request).
    - rewrite filter_cons, decide_True by done.
      rewrite (filter_nil_intro _ (orders db)); [done|].
      intros r Hr [Hn _]. by apply (Hnew r Hr (Hids r Hr)).
    - destruct Hown as (Ht & Hsk & Hun). rewrite Ht. simpl.
      rewrite filter_cons, decide_True by done.
      rewrite (filter_nil_intro _ (orders db)); [done|].
      intros r Hr [Hn _]. by apply (Hnew r Hr (Hids r Hr)). }
  assert (orders_indexed db1) as Hidx1.
  { split.
    - intros o. rewrite Hord. intros [->|Ho]%elem_of_cons; [by rewrite Hid|auto].
    - intros o1 o2. rewrite Hord.
      intros [->|H1]%elem_of_cons [->|H2]%elem_of_cons Hn; [done| | |by auto].
      + by destruct (Hnew o2 H2 (Hids o2 H2)).
      + by destruct (Hnew o1 H1 (Hids o1 H1)). }
  assert (Order_items db1 order
          = map (OrderItem_of_checkout db order) (Cart_items db cart)) as Hitems.
  { apply (Order_items_created db); [done| |].
    - intros i Hi. rewrite Hpk. by apply Hfi.
    - intros i Hi. apply list_elem_of_fmap in Hi as (c & -> & _). done. }
  unfold CancelOrderView_patch. rewrite Hget, Hst, Hpay.
  rewrite (bool_decide_eq_false_2 (pending ∈ _))
    by (intros Hin; repeat (apply elem_of_cons in Hin as [?|Hin]; [done|]);
        by apply elem_of_nil in Hin).
  rewrite bool_decide_eq_false_2 by done.
  destruct (restore_stock_loop (Order_items db1 order) db1)
    as (V & P & Hloop & HV & HP).
  unfold atomic, bind. rewrite Hloop.
  rewrite Order_save_existing_Ok;
    [|by destruct db1
     |replace (orders _) with (orders db1) by (by destruct db1);
      rewrite Hord; left
     |done].
  eexists. split; [reflexivity|].
  cbn [variants products set_orders set_variants set_products].
  split; apply map_eq; intros k.
  - rewrite HV, HV1, Hitems, restored_of_checkout_variant.
    destruct (variants db !! k) as [v|]; simpl; [|done].
    rewrite set_stock_variant_twice. f_equal.
    destruct v; unfold ProductVariant.set_stock; simpl. f_equal. lia.
  - rewrite HP, HP1, Hitems.
    destruct (products db !! k) as [p|] eqn:Hp; simpl; [|done].
    rewrite (restored_of_checkout_product db db1 order _ k
               (fun j v => ProductVariant.set_stock
                  (ProductVariant.stock v
                   - reduced_from_variant (Cart_items db cart) j) v))
      by (done || by rewrite Hp).
    rewrite set_stock_product_twice. f_equal.
    destruct p; unfold Product.set_stock; simpl. f_equal. lia.
Qed.

Lemma checkout_then_cancel_restores_stock_witness :
  exists db2,
    CancelOrderView_patch guest_request (Order.order_number checkout_order) placed_db
    = (success_response (Order.set_status cancelled failed checkout_order)
         "Order cancelled successfully", db2)
    ∧ variants db2 = variants checkout_db
    ∧ products db2 = products checkout_db.
Proof.
  apply (checkout_then_cancel_restores_stock guest_request guest_checkout
           checkout_db checkout_order "Order created successfully").
  - split; [intros o|intros o ?]; vm_compute (orders checkout_db); intros Ho;
      by apply elem_of_nil in Ho.
  - split; intros o; [vm_compute (orders checkout_db)
                     |vm_compute (order_items checkout_db)];
      intros Ho; by apply elem_of_nil in Ho.
  - vm_compute. reflexivity.
Defined.

(** ** Failed checkouts and foreign orders *)

(** X5.  A checkout that does not answer "created" leaves the store as it
    was: a rejection happens before anything is written, and an exception
    inside the transaction undoes what the transaction wrote, the address
    rows included. *)
Theorem create_order_all_or_nothing request data db response db' :
  CreateOrderView_post request data db = (response, db') ->
  ¬ is_created response ->
  db' = db.
Proof.
  intros H Hr.
  pose proof (post_not_created_unchanged request data db) as Hsame.
  rewrite H in Hsame. by apply Hsame.
Qed.

Lemma create_order_all_or_nothing_witness :
  fst (CreateOrderView_post user_request missing_address_checkout user_checkout_db)
  = error_response_exn "Failed to create order: "
      (ValueError "Shipping address not found") 500
  ∧ length (addresses
              (snd (CreateOrderView_transaction user_request
                      missing_address_checkout user_cart user_checkout_db))) = 1%nat
  ∧ snd (CreateOrderView_post user_request missing_address_checkout user_checkout_db)
    = user_checkout_db.
Proof.
  split; [by vm_compute|]. split; [by vm_compute|].
  apply (create_order_all_or_nothing user_request missing_address_checkout
           user_checkout_db
           (fst (CreateOrderView_post user_request missing_address_checkout
                   user_checkout_db))).
  - by destruct (CreateOrderView_post _ _ _).
  - vm_compute. tauto.
Defined.

Lemma Order_get_none (P : Order.t -> Prop) `{forall o, Decision (P o)} (db : Db) :
  (forall o, o ∈ orders db -> ¬ P o) ->
  Order_get P db = Raise (DoesNotExist "Order").
Proof. intros HP. unfold Order_get. by rewrite filter_nil_intro. Qed.

Lemma Order_get_Ok (P : Order.t -> Prop) `{forall o, Decision (P o)} (db : Db) o :
  Order_get P db = Ok o -> o ∈ orders db ∧ P o.
Proof.
  unfold Order_get. intros Hget.
  destruct (filter P (orders db)) as [|x [|y l]] eqn:Hf; simplify_eq.
  assert (o ∈ filter P (orders db)) as Hx by (rewrite Hf; left).
  by apply list_elem_of_filter in Hx as [? ?].
Qed.

Lemma get_order_Ok request order_number db o :
  CancelOrderView_get_order request order_number db = Ok o ->
  o ∈ orders db ∧ Order.order_number o = order_number ∧ Order_owned_by request o.
Proof.
  unfold CancelOrderView_get_order, Order_owned_by.
  destruct (Request.user request).
  - intros (? & ? & ?)%Order_get_Ok. done.
  - destruct (truthy_str _); [|done]. simpl.
    intros (? & ? & ? & ?)%Order_get_Ok. done.
Qed.

(** X6.  A caller who owns no order with the given number gets "Order not
    found" from the detail view and from the cancel view, whether or not
    somebody else has an order with that number, and the cancel view
    leaves the store unchanged. *)
Theorem foreign_order_not_found request order_number db :
  (forall o, o ∈ orders db -> Order.order_number o = order_number ->
             ¬ Order_owned_by request o) ->
  OrderDetailView_get request order_number db
  = not_found_response "Order not found"
  ∧ CancelOrderView_patch request order_number db
    = (not_found_response "Order not found", db).
Proof.
  intros Hforeign.
  unfold OrderDetailView_get, CancelOrderView_patch, CancelOrderView_get_order.
  unfold Order_owned_by in Hforeign.
  destruct (Request.user request) as [uid|].
  - rewrite Order_get_none; [done|].
    intros o Ho [Hn Hu]. by apply (Hforeign o Ho Hn).
  - destruct (truthy_str (Request.session_key request)); [|done]. simpl.
    rewrite Order_get_none; [done|].
    intros o Ho (Hn & Hs & Hu). by apply (Hforeign o Ho Hn).
Qed.

Lemma foreign_order_not_found_witness :
  (exists o, o ∈ orders placed_db ∧ Order.order_number o = "ORD-1")
  ∧ OrderDetailView_get other_request "ORD-1" placed_db
    = not_found_response "Order not found"
  ∧ CancelOrderView_patch other_request "ORD-1" placed_db
    = (not_found_response "Order not found", placed_db).
Proof.
  split.
  { exists checkout_order. split; [|done]. vm_compute (orders placed_db). left. }
  apply (foreign_order_not_found other_request "ORD-1" placed_db).
  intros o Ho _. vm_compute in Ho.
  apply list_elem_of_singleton in Ho as ->. vm_compute. discriminate.
Defined.

(** X7.  The cancel view changes the store only for an order that carries
    the given number, belongs to the caller, is neither shipped, delivered
    nor cancelled, and is not paid. *)
Theorem cancel_changes_only_cancellable request order_number db response db' :
  CancelOrderView_patch request order_number db = (response, db') ->
  db' ≠ db ->
  exists o,
    o ∈ orders db
    ∧ Order.order_number o = order_number
    ∧ Order_owned_by request o
    ∧ (Order.status o ∉ [shipped; delivered; cancelled])
    ∧ Order.payment_status o ≠ paid.
Proof.
  unfold CancelOrderView_patch.
  destruct (CancelOrderView_get_order request order_number db) as [o|e] eqn:Hget.
  2:{ destruct e; intros [= _ <-]; done. }
  apply get_order_Ok in Hget as (Hin & Hn & Hown).
  destruct (bool_decide (Order.status o ∈ _)) eqn:Hst; [by intros [= _ <-]|].
  destruct (bool_decide (Order.payment_status o = paid)) eqn:Hpay;
    [by intros [= _ <-]|].
  intros _ _. exists o.
  apply bool_decide_eq_false in Hst. apply bool_decide_eq_false in Hpay. done.
Qed.

Lemma cancel_changes_only_cancellable_witness :
  exists o,
    o ∈ orders placed_db
    ∧ Order.order_number o = "ORD-1"
    ∧ Order_owned_by guest_request o
    ∧ (Order.status o ∉ [shipped; delivered; cancelled])
    ∧ Order.payment_status o ≠ paid.
Proof.
  apply (cancel_changes_only_cancellable guest_request "ORD-1" placed_db
           (fst (CancelOrderView_patch guest_request "ORD-1" placed_db))
           (snd (CancelOrderView_patch guest_request "ORD-1" placed_db))).
  - by destruct (CancelOrderView_patch _ _ _).
  - intros Heq. apply (f_equal (fun d => Order.status <$> head (orders d))) in Heq.
    vm_compute in Heq. discriminate.
Defined.

(** ** Adding to a cart *)

Lemma CartItem_save_presave (self : CartItem.t) (db : Db) :
  CartItem_save self db
  = match CartItem_violated_constraint (cart_items db) (CartItem_presave db self) with
    | Some c => (Raise (IntegrityError c), db)
    | None =>
        (Ok tt,
         set_cart_items (CartItem_write (CartItem_presave db self) (cart_items db)) db)
    end.
Proof. reflexivity. Qed.

Lemma truthy_int_Some (n : option Z) :
  truthy_int n = true -> exists k, n = Some k ∧ k ≠ 0.
Proof.
  destruct n as [k|]; [|done]. simpl. intros H%negb_true_iff%Z.eqb_neq. eauto.
Qed.

(** What a request that passed the serializer names. *)
Lemma is_valid_inv (db : Db) (data : AddToCartData.t) :
  AddToCartSerializer_is_valid db data = true ->
  1 <= AddToCartData.quantity data
  ∧ ((exists k v,
        AddToCartData.variant_id data = Some k
        ∧ truthy_int (AddToCartData.variant_id data) = true
        ∧ truthy_int (AddToCartData.product_id data) = false
        ∧ variants db !! k = Some v
        ∧ ProductVariant.is_active v = true
        ∧ AddToCartData.quantity data <= ProductVariant.stock v)
     ∨ (exists k p,
          AddToCartData.product_id data = Some k
          ∧ truthy_int (AddToCartData.variant_id data) = false
          ∧ truthy_int (AddToCartData.product_id data) = true
          ∧ products db !! k = Some p
          ∧ Product.is_active p = true
          ∧ Product_has_active_variants db k = false
          ∧ AddToCartData.quantity data <= Product.stock p)).
Proof.
  unfold AddToCartSerializer_is_valid, AddToCartSerializer_validate.
  intros [Hq Hv]%andb_true_iff. apply Z.leb_le in Hq. split; [done|].
  apply bool_decide_eq_true in Hv.
  destruct (truthy_int (AddToCartData.variant_id data)) eqn:Htv;
    destruct (truthy_int (AddToCartData.product_id data)) eqn:Htp;
    simpl in Hv; try done.
  - left. apply truthy_int_Some in Htv as (k & Hk & _). rewrite Hk in *.
    simpl in Hv. destruct (variants db !! k) as [v|] eqn:Hlk; [|done].
    destruct (ProductVariant.is_active v) eqn:Hact; [|done]. simpl in Hv.
    destruct (_ <? _) eqn:Hst; [done|]. apply Z.ltb_ge in Hst.
    exists k, v. done.
  - right. apply truthy_int_Some in Htp as (k & Hk & _). rewrite Hk in *.
    simpl in Hv. destruct (products db !! k) as [p|] eqn:Hlk; [|done].
    simpl in Hv.
    destruct (Product.is_active p) eqn:Hact; [|done]. simpl in Hv.
    destruct (Product_has_active_variants db k) eqn:Hav; [done|].
    destruct (_ <? _) eqn:Hst; [done|]. apply Z.ltb_ge in Hst.
    exists k, p. done.
Qed.

Lemma Cart_get_or_create_cases (P : Cart.t -> Prop) `{forall c, Decision (P c)}
    (new : Cart.t) (db : Db) :
  match Cart_get_or_create P new db with
  | (Ok cart, db1) =>
      (db1 = db ∧ cart ∈ carts db ∧ P cart)
      ∨ (db1 = set_carts (new :: carts db) db ∧ cart = new
         ∧ filter P (carts db) = [])
  | (Raise _, db1) => db1 = db
  end.
Proof.
  unfold Cart_get_or_create.
  destruct (filter P (carts db)) as [|c [|c' l]] eqn:Hf; [by right| |done].
  left. split; [done|].
  assert (c ∈ filter P (carts db)) as Hc by (rewrite Hf; left).
  by apply list_elem_of_filter in Hc as [? ?].
Qed.

Lemma get_or_create_cart_cases (fresh : Fresh.t) (request : Request.t) (db : Db) :
  match AddToCartView_get_or_create_cart fresh request db with
  | (Ok (cart, request'), db1) =>
      Request.user request' = Request.user request
      ∧ (truthy_str (Request.session_key request) = true ->
         Request.session_key request' = Request.session_key request)
      ∧ Cart_of_caller (Request.user request) (Request.session_key request') cart
      ∧ ((db1 = db ∧ cart ∈ carts db)
         ∨ (db1 = set_carts (cart :: carts db) db
            ∧ Cart.id cart = Fresh.cart_id fresh))
  | (Raise _, db1) => db1 = db
  end.
Proof.
  unfold AddToCartView_get_or_create_cart, Cart_of_caller.
  destruct (Request.user request) as [uid|] eqn:Hu.
  - unfold bind.
    pose proof (Cart_get_or_create_cases (fun c => Cart.user c = Some uid)
                  (Cart.mk (Fresh.cart_id fresh) (Some uid) None) db) as Hc.
    destruct (Cart_get_or_create _ _ db) as [[cart|e] db1]; [|done].
    simpl. split; [done|]. split; [done|].
    destruct Hc as [(-> & Hin & HP)|(-> & -> & _)]; [by split; [|left]|].
    split; [done|]. by right.
  - unfold bind.
    set (request' := if negb (truthy_str (Request.session_key request))
                     then Request.mk None (Some (Fresh.session_key fresh))
                     else request).
    pose proof (Cart_get_or_create_cases
                  (fun c => Cart.session_key c = Request.session_key request'
                            ∧ Cart.user c = None)
                  (Cart.mk (Fresh.cart_id fresh) None (Request.session_key request'))
                  db) as Hc.
    destruct (Cart_get_or_create _ _ db) as [[cart|e] db1]; [|done].
    simpl. split; [by unfold request'; destruct (negb _)|].
    split; [by unfold request'; intros ->|].
    destruct Hc as [(-> & Hin & HP)|(-> & -> & _)]; [by split; [|left]|].
    split; [done|]. by right.
Qed.

Lemma CartItem_get_or_create_cases (P : CartItem.t -> Prop)
    `{forall i, Decision (P i)} (new : CartItem.t) (db : Db) :
  match CartItem_get_or_create P new db with
  | (Ok (x, false), db1) =>
      db1 = db ∧ filter P (cart_items db) = [x]
  | (Ok (x, true), db1) =>
      x = CartItem_presave db new
      ∧ filter P (cart_items db) = []
      ∧ CartItem_violated_constraint (cart_items db) x = None
      ∧ db1 = set_cart_items (CartItem_write x (cart_items db)) db
  | (Raise _, db1) =>
      db1 = db
      ∧ (filter P (cart_items db) = [] ->
         CartItem_violated_constraint (cart_items db) (CartItem_presave db new)
         ≠ None)
  end.
Proof.
  unfold CartItem_get_or_create.
  destruct (filter P (cart_items db)) as [|x [|y l]] eqn:Hf; [|done..].
  unfold atomic. rewrite CartItem_save_presave.
  destruct (CartItem_violated_constraint _ _) as [c|] eqn:Hc; [|done].
  rewrite Hf. done.
Qed.

Lemma CartItem_get_or_create_ext (P Q : CartItem.t -> Prop)
    `{forall i, Decision (P i)} `{forall i, Decision (Q i)} (new : CartItem.t)
    (db : Db) :
  (forall i, P i <-> Q i) ->
  CartItem_get_or_create P new db = CartItem_get_or_create Q new db.
Proof.
  intros HPQ. unfold CartItem_get_or_create.
  rewrite (list_filter_iff P Q) by done.
  destruct (filter Q (cart_items db)) as [|x [|y l]]; [|done..].
  destruct (atomic _ _) as [[[]|[]] db']; try done.
  by rewrite (list_filter_iff P Q).
Qed.

(** [post] on a request that passed the serializer: the branches the
    serializer rules out are gone, and the two kinds of target read
    alike. *)
Lemma AddToCartView_post_valid fresh request data db :
  AddToCartSerializer_is_valid db data = true ->
  AddToCartView_post fresh request data db
  = match AddToCartView_get_or_create_cart fresh request db with
    | (Raise e, db1) => (cart_unhandled e, db1)
    | (Ok (cart, request'), db1) =>
        match CartItem_get_or_create
                (fun it => CartItem.cart_id it = Cart.id cart
                           ∧ CartItem_targets data it)
                (CartItem_new fresh cart db data) db1 with
        | (Raise e, db2) => (cart_unhandled e, db2)
        | (Ok (cart_item, true), db2) =>
            (item_created_response cart_item (Cart.id cart)
               (Request.session_key request')
               "Item added to cart successfully", db2)
        | (Ok (cart_item, false), db2) =>
            let new_quantity :=
              CartItem.quantity cart_item + AddToCartData.quantity data in
            if AddToCart_stock db data <? new_quantity
            then (cart_bad_request_response
                    ("Only " +:+ pretty (AddToCart_stock db data)
                     +:+ " items available in stock"), db2)
            else
              let cart_item := CartItem.set_quantity new_quantity cart_item in
              match CartItem_save cart_item db2 with
              | (Ok _, db3) =>
                  (item_created_response (CartItem_presave db2 cart_item)
                     (Cart.id cart) (Request.session_key request')
                     "Item added to cart successfully", db3)
              | (Raise e, db3) => (cart_unhandled e, db3)
              end
        end
    end.
Proof.
  intros Hvalid. unfold AddToCartView_post. rewrite Hvalid. simpl negb. cbv iota.
  apply is_valid_inv in Hvalid
    as (Hq & [(k & v & Hk & Htv & Htp & Hv & _ & Hst)
             |(k & p & Hk & Htv & Htp & Hp & _ & _ & Hst)]).
  - unfold CartItem_new. unfold AddToCart_stock, AddToCart_price.
    rewrite Htv, Hk. simpl. rewrite Hv. simpl.
    rewrite (proj2 (Z.ltb_ge _ _)) by done.
    destruct (AddToCartView_get_or_create_cart fresh request db)
      as [[[cart request']|e] db1]; [|done].
    rewrite (CartItem_get_or_create_ext _
               (fun it => CartItem.cart_id it = Cart.id cart
                          ∧ CartItem_targets data it)).
    2:{ intros i. unfold CartItem_targets. by rewrite Htv, Hk. }
    done.
  - unfold CartItem_new.
    unfold AddToCart_stock, AddToCart_price, Product_sale_price_or_price.
    rewrite Htv, Htp, Hk. simpl. rewrite Hp. simpl.
    rewrite (proj2 (Z.ltb_ge _ _)) by done.
    destruct (AddToCartView_get_or_create_cart fresh request db)
      as [[[cart request']|e] db1]; [|done].
    rewrite (CartItem_get_or_create_ext _
               (fun it => CartItem.cart_id it = Cart.id cart
                          ∧ CartItem_targets data it)).
    2:{ intros i. unfold CartItem_targets. by rewrite Htv, Hk. }
    done.
Qed.

Lemma CartItem_presave_fields (db : Db) (self : CartItem.t) :
  CartItem.id (CartItem_presave db self) = CartItem.id self
  ∧ CartItem.cart_id (CartItem_presave db self) = CartItem.cart_id self
  ∧ CartItem.variant_id (CartItem_presave db self) = CartItem.variant_id self
  ∧ CartItem.product_id (CartItem_presave db self) = CartItem.product_id self
  ∧ CartItem.quantity (CartItem_presave db self) = CartItem.quantity self.
Proof.
  unfold CartItem_presave.
  destruct (CartItem_variant db self), (CartItem_product db self); done.
Qed.

Lemma CartItem_write_elem (self : CartItem.t) (rows : list CartItem.t) :
  self ∈ CartItem_write self rows.
Proof.
  unfold CartItem_write. destruct (existsb _ rows) eqn:Hex.
  - apply existsb_exists in Hex as (r & Hr & Hid).
    apply list_elem_of_In in Hr. apply list_elem_of_fmap.
    exists r. by rewrite Hid.
  - apply elem_of_app. right. left.
Qed.

Lemma CartItem_write_length (self : CartItem.t) (rows : list CartItem.t) (old : CartItem.t) :
  old ∈ rows -> CartItem.id old = CartItem.id self ->
  length (CartItem_write self rows) = length rows.
Proof.
  intros Hold Hid. unfold CartItem_write.
  rewrite (existsb_true_intro _ _ old Hold) by (by apply Z.eqb_eq).
  apply length_map.
Qed.

(** A row the constraints accept has one target. *)
Lemma violated_constraint_None_target rows self :
  CartItem_violated_constraint rows self = None ->
  (is_Some (CartItem.variant_id self) ∧ CartItem.product_id self = None)
  ∨ (CartItem.variant_id self = None ∧ is_Some (CartItem.product_id self)).
Proof.
  unfold CartItem_violated_constraint.
  destruct (CartItem.variant_id self), (CartItem.product_id self); simpl; try done.
  - intros _. left. eauto.
  - intros _. right. eauto.
Qed.

(** A row with one target whose cart holds no line yet breaks no
    constraint. *)
Lemma violated_constraint_empty_cart rows self :
  (forall r, r ∈ rows -> CartItem.cart_id r ≠ CartItem.cart_id self) ->
  xorb (bool_decide (is_Some (CartItem.variant_id self)))
       (bool_decide (is_Some (CartItem.product_id self))) = true ->
  CartItem_violated_constraint rows self = None.
Proof.
  intros Hrows Hx. unfold CartItem_violated_constraint. rewrite Hx. simpl.
  assert (forall f : CartItem.t -> bool,
            existsb (fun r => negb (CartItem.id r =? CartItem.id self)
                              && (CartItem.cart_id r =? CartItem.cart_id self)
                              && f r) rows = false) as Hnone.
  { intros f. apply existsb_false_iff. intros r Hr.
    rewrite (proj2 (Z.eqb_neq _ _) (Hrows r Hr)). by rewrite andb_false_r. }
  by rewrite !Hnone, !andb_false_r.
Qed.

(** What a request that was answered "created" went through. *)
Lemma add_created_inv fresh request data db it cid sk message db' :
  AddToCartView_post fresh request data db
  = (item_created_response it cid sk message, db') ->
  AddToCartSerializer_is_valid db data = true
  ∧ exists cart request' db1,
      AddToCartView_get_or_create_cart fresh request db = (Ok (cart, request'), db1)
      ∧ cid = Cart.id cart
      ∧ sk = Request.session_key request'
      ∧ CartItem_violated_constraint (cart_items db1) it = None
      ∧ db' = set_cart_items (CartItem_write it (cart_items db1)) db1
      ∧ ((filter (fun l => CartItem.cart_id l = Cart.id cart
                           ∧ CartItem_targets data l) (cart_items db1) = []
          ∧ it = CartItem_presave db1 (CartItem_new fresh cart db data))
         ∨ (exists old,
              filter (fun l => CartItem.cart_id l = Cart.id cart
                               ∧ CartItem_targets data l) (cart_items db1) = [old]
              ∧ CartItem.quantity old + AddToCartData.quantity data
                <= AddToCart_stock db data
              ∧ it = CartItem_presave db1
                       (CartItem.set_quantity
                          (CartItem.quantity old + AddToCartData.quantity data)
                          old))).
Proof.
  intros H.
  destruct (AddToCartSerializer_is_valid db data) eqn:Hvalid.
  2:{ unfold AddToCartView_post in H. by rewrite Hvalid in H. }
  split; [done|]. rewrite AddToCartView_post_valid in H by done.
  destruct (AddToCartView_get_or_create_cart fresh request db)
    as [[[cart request']|e] db1]; [|done].
  exists cart, request', db1. split; [done|].
  pose proof (CartItem_get_or_create_cases
                (fun l => CartItem.cart_id l = Cart.id cart ∧ CartItem_targets data l)
                (CartItem_new fresh cart db data) db1) as Hc.
  destruct (CartItem_get_or_create _ _ db1) as [[[x []]|e] db2]; [| |done].
  - destruct Hc as (-> & Hf & Hv & ->). injection H as <- <- <- _ <-.
    split_and!; try done. by left.
  - destruct Hc as (-> & Hf). cbv zeta in H.
    destruct (_ <? _) eqn:Hst; [done|]. apply Z.ltb_ge in Hst.
    rewrite CartItem_save_presave in H.
    destruct (CartItem_violated_constraint _ _) eqn:Hv; [done|].
    injection H as <- <- <- _ <-.
    split_and!; try done. right. by exists x.
Qed.

(** X8.  A line that [AddToCartView.post] answers "created" with is stored,
    sits in a cart of the caller, has the one target the request names,
    and its quantity does not exceed that target's stock; the catalogue is
    not touched. *)
Theorem add_to_cart_created fresh request data db it cid sk message db' :
  AddToCartView_post fresh request data db
  = (item_created_response it cid sk message, db') ->
  it ∈ cart_items db'
  ∧ CartItem.cart_id it = cid
  ∧ (exists cart, cart ∈ carts db' ∧ Cart.id cart = cid
                  ∧ Cart_of_caller (Request.user request) sk cart)
  ∧ CartItem_targets data it
  ∧ (CartItem.variant_id it = None ∨ CartItem.product_id it = None)
  ∧ CartItem_get_stock db' it = AddToCart_stock db data
  ∧ CartItem.quantity it <= CartItem_get_stock db' it
  ∧ variants db' = variants db
  ∧ products db' = products db.
Proof.
  intros H. apply add_created_inv in H
    as (Hvalid & cart & request' & db1 & Hcart & -> & -> & Hv & -> & Hcase).
  pose proof (get_or_create_cart_cases fresh request db) as Hc.
  rewrite Hcart in Hc. destruct Hc as (_ & _ & Hown & Hdb1).
  assert (variants db1 = variants db ∧ products db1 = products db
          ∧ cart ∈ carts db1) as (HV & HP & Hin).
  { destruct Hdb1 as [[-> ?]|[-> _]]; [done|]. split_and!; try done.
    simpl. left. }
  pose proof (is_valid_inv _ _ Hvalid) as (Hq & Htarget).
  assert (CartItem.cart_id it = Cart.id cart ∧ CartItem_targets data it
          ∧ CartItem.quantity it <= AddToCart_stock db data)
    as (Hcid & Htg & Hqty).
  { destruct Hcase as [[Hf ->]|(old & Hf & Hst & ->)].
    - destruct (CartItem_presave_fields db1 (CartItem_new fresh cart db data))
        as (_ & -> & Hvid & Hpid & ->).
      split; [done|]. unfold CartItem_targets, AddToCart_stock.
      rewrite Hvid, Hpid. simpl.
      destruct Htarget as [(k & v & Hk & Htv & _ & Hlk & _ & Hs)
                          |(k & p & Hk & Htv & _ & Hlk & _ & _ & Hs)];
        rewrite Htv, Hk; simpl; rewrite Hlk; done.
    - assert (old ∈ filter (fun l => CartItem.cart_id l = Cart.id cart
                                     ∧ CartItem_targets data l) (cart_items db1))
        as Hold by (rewrite Hf; left).
      apply list_elem_of_filter in Hold as [[Hoc Hot] _].
      destruct (CartItem_presave_fields db1
                  (CartItem.set_quantity
                     (CartItem.quantity old + AddToCartData.quantity data) old))
        as (_ & -> & Hvid & Hpid & ->).
      split; [by destruct old|]. split; [|by destruct old].
      unfold CartItem_targets in *. rewrite Hvid, Hpid. by destruct old. }
  apply violated_constraint_None_target in Hv as Hone.
  assert (CartItem_get_stock (set_cart_items (CartItem_write it (cart_items db1)) db1) it
          = AddToCart_stock db data) as Hstock.
  { unfold CartItem_get_stock, CartItem_variant, CartItem_product, AddToCart_stock.
    cbn [variants products set_cart_items]. rewrite HV, HP.
    unfold CartItem_targets in Htg.
    destruct Htarget as [(k & v & Hk & Htv & _ & Hlk & _)
                        |(k & p & Hk & Htv & _ & Hlk & _)];
      rewrite Htv, Hk in *; rewrite Htg; simpl; rewrite Hlk; simpl; [done|].
    destruct Hone as [[[? Hsome] Hnone]|[-> _]]; [congruence|done]. }
  split_and!; try done.
  - apply CartItem_write_elem.
  - exists cart. split; [by destruct db1|]. done.
  - destruct Hone as [[_ ?]|[? _]]; [by right|by left].
  - by rewrite Hstock.
Qed.

Lemma add_to_cart_created_witness :
  exists it,
    AddToCartView_post sample_fresh guest_request add_two_helmets checkout_db
    = (item_created_response it 2 (Some "s3ss10n")
         "Item added to cart successfully",
       snd (AddToCartView_post sample_fresh guest_request add_two_helmets
              checkout_db))
    ∧ CartItem.quantity it = 5
    ∧ CartItem_get_stock
        (snd (AddToCartView_post sample_fresh guest_request add_two_helmets
                checkout_db)) it = 5
    ∧ CartItem.quantity it
      <= CartItem_get_stock
           (snd (AddToCartView_post sample_fresh guest_request add_two_helmets
                   checkout_db)) it.
Proof.
  eexists. split; [by vm_compute|]. split; [done|]. split; [by vm_compute|].
  eapply (add_to_cart_created sample_fresh guest_request add_two_helmets
            checkout_db).
  by vm_compute.
Defined.

Lemma CartItem_new_price fresh cart db db1 data :
  AddToCartSerializer_is_valid db data = true ->
  variants db1 = variants db -> products db1 = products db ->
  CartItem.price_snapshot (CartItem_presave db1 (CartItem_new fresh cart db data))
  = AddToCart_price db data.
Proof.
  intros Hvalid HV HP.
  apply is_valid_inv in Hvalid
    as (_ & [(k & v & Hk & Htv & _ & Hlk & _)|(k & p & Hk & Htv & _ & Hlk & _)]).
  - unfold CartItem_presave, CartItem_variant, CartItem_new, AddToCart_price.
    rewrite Htv, Hk, HV. simpl. rewrite Hlk. simpl.
    unfold ProductVariant_get_effective_price.
    destruct (ProductVariant.sale_price v) as [sp|].
    + destruct (Z.eqb_spec sp 0) as [->|Hsp].
      * by destruct (Z.eqb_spec (ProductVariant.price v) 0).
      * by rewrite (proj2 (Z.eqb_neq _ _) Hsp).
    + by destruct (Z.eqb_spec (ProductVariant.price v) 0).
  - unfold CartItem_presave, CartItem_variant, CartItem_product, CartItem_new,
      AddToCart_price.
    rewrite Htv, Hk, HP. simpl. rewrite Hlk. simpl.
    by destruct (Z.eqb_spec (Product_sale_price_or_price p) 0) as [->|].
Qed.

(** X9.  How [AddToCartView.post] counts.  When the caller's cart has no
    line for the target, the line it answers with is new: it carries the
    requested quantity, and its price snapshot is the target's sale price
    when that is set and not zero, else the list price.  When the cart has
    a line for the target, no line is added: the stored line keeps its key
    and its price snapshot (unless that was zero) and its quantity grows
    by the requested quantity. *)
Theorem add_to_cart_quantity fresh request data db it cid sk message db' :
  AddToCartView_post fresh request data db
  = (item_created_response it cid sk message, db') ->
  let lines := filter (fun l => CartItem.cart_id l = cid ∧ CartItem_targets data l)
                      (cart_items db) in
  (lines = []
   ∧ CartItem.id it = Fresh.cart_item_id fresh
   ∧ CartItem.quantity it = AddToCartData.quantity data
   ∧ CartItem.price_snapshot it = AddToCart_price db data)
  ∨ (exists old,
       lines = [old]
       ∧ CartItem.id it = CartItem.id old
       ∧ CartItem.quantity it = CartItem.quantity old + AddToCartData.quantity data
       ∧ (CartItem.price_snapshot old ≠ 0 ->
          CartItem.price_snapshot it = CartItem.price_snapshot old)
       ∧ length (cart_items db') = length (cart_items db)).
Proof.
  intros H lines. apply add_created_inv in H
    as (Hvalid & cart & request' & db1 & Hcart & -> & -> & Hv & -> & Hcase).
  pose proof (get_or_create_cart_cases fresh request db) as Hc.
  rewrite Hcart in Hc. destruct Hc as (_ & _ & _ & Hdb1).
  assert (variants db1 = variants db ∧ products db1 = products db
          ∧ cart_items db1 = cart_items db) as (HV & HP & HI).
  { destruct Hdb1 as [[-> ?]|[-> _]]; done. }
  rewrite HI in Hcase. fold lines in Hcase.
  destruct Hcase as [[Hf ->]|(old & Hf & Hst & ->)]; [left|right].
  - split; [done|].
    destruct (CartItem_presave_fields db1 (CartItem_new fresh cart db data))
      as (-> & _ & _ & _ & ->).
    split; [done|]. split; [done|]. by apply CartItem_new_price.
  - exists old. split; [done|].
    set (old' := CartItem.set_quantity _ old).
    destruct (CartItem_presave_fields db1 old') as (Hid & _ & _ & _ & Hq).
    rewrite Hid, Hq. split; [by destruct old|]. split; [by destruct old|].
    split.
    + intros Hp. unfold CartItem_presave.
      assert (CartItem.price_snapshot old' = CartItem.price_snapshot old) as Hp'
        by (by destruct old).
      destruct (CartItem_variant db1 old'), (CartItem_product db1 old'); simpl;
        rewrite ?Hp', ?(proj2 (Z.eqb_neq _ _) Hp); done.
    + cbn [cart_items set_cart_items]. rewrite HI.
      apply (CartItem_write_length _ _ old).
      * assert (old ∈ lines) as Hold by (rewrite Hf; left).
        by apply list_elem_of_filter in Hold as [_ ?].
      * rewrite Hid. by destruct old.
Qed.

Lemma add_to_cart_quantity_witness :
  (exists it db',
     AddToCartView_post sample_fresh user_request add_two_bells checkout_db
     = (item_created_response it 1 (Some "s3ss10n")
          "Item added to cart successfully", db')
     ∧ CartItem.id it = 3 ∧ CartItem.quantity it = 2
     ∧ CartItem.price_snapshot it = 2000)
  ∧ (exists it db',
       AddToCartView_post sample_fresh guest_request add_two_helmets checkout_db
       = (item_created_response it 2 (Some "s3ss10n")
            "Item added to cart successfully", db')
       ∧ CartItem.id it = 1 ∧ CartItem.quantity it = 5
       ∧ CartItem.price_snapshot it = 8000
       ∧ length (cart_items db') = 2%nat).
Proof.
  split.
  - do 2 eexists. split; [by vm_compute|].
    destruct (add_to_cart_quantity sample_fresh user_request add_two_bells
                checkout_db _ _ _ _ _ eq_refl) as [H|(old & H & _)];
      [|by vm_compute in H].
    by vm_compute.
  - do 2 eexists. split; [by vm_compute|].
    destruct (add_to_cart_quantity sample_fresh guest_request add_two_helmets
                checkout_db _ _ _ _ _ eq_refl) as [[H _]|H];
      [by vm_compute in H|].
    by vm_compute.
Defined.

Lemma CartItem_new_one_target fresh cart db db1 data :
  AddToCartSerializer_is_valid db data = true ->
  let new := CartItem_presave db1 (CartItem_new fresh cart db data) in
  CartItem.cart_id new = Cart.id cart
  ∧ xorb (bool_decide (is_Some (CartItem.variant_id new)))
         (bool_decide (is_Some (CartItem.product_id new))) = true.
Proof.
  intros Hvalid new.
  destruct (CartItem_presave_fields db1 (CartItem_new fresh cart db data))
    as (_ & Hc & Hvid & Hpid & _).
  fold new in Hc, Hvid, Hpid. rewrite Hc, Hvid, Hpid. split; [done|].
  apply is_valid_inv in Hvalid
    as (_ & [(k & v & Hk & Htv & _)|(k & p & Hk & Htv & _)]);
    simpl; rewrite Htv, Hk; done.
Qed.

(** X10.  A request that [AddToCartView.post] does not answer "created"
    changes nothing: not the cart lines, and no cart is left behind for a
    caller who had none.  The key a new cart would receive is one no cart
    line refers to. *)
Theorem add_to_cart_rejected_unchanged fresh request data db response db' :
  (forall it, it ∈ cart_items db -> CartItem.cart_id it ≠ Fresh.cart_id fresh) ->
  AddToCartView_post fresh request data db = (response, db') ->
  ¬ is_item_created response ->
  db' = db.
Proof.
  intros Hfresh H Hr.
  destruct (AddToCartSerializer_is_valid db data) eqn:Hvalid.
  2:{ unfold AddToCartView_post in H. rewrite Hvalid in H. by injection H as _ <-. }
  rewrite AddToCartView_post_valid in H by done.
  pose proof (get_or_create_cart_cases fresh request db) as Hc.
  destruct (AddToCartView_get_or_create_cart fresh request db)
    as [[[cart request']|e] db1]; [|by injection H as _ <-].
  destruct Hc as (_ & _ & _ & Hdb1).
  pose proof (CartItem_get_or_create_cases
                (fun l => CartItem.cart_id l = Cart.id cart ∧ CartItem_targets data l)
                (CartItem_new fresh cart db data) db1) as Hc.
  destruct Hdb1 as [[-> _]|[Hdb1 Hid]].
  - destruct (CartItem_get_or_create _ _ db) as [[[x []]|e] db2].
    + injection H as <- _. by destruct Hr.
    + destruct Hc as (-> & _). cbv zeta in H.
      destruct (_ <? _); [by injection H as _ <-|].
      rewrite CartItem_save_presave in H.
      destruct (CartItem_violated_constraint _ _); [by injection H as _ <-|].
      injection H as <- _. by destruct Hr.
    + destruct Hc as (-> & _). by injection H as _ <-.
  - exfalso.
    assert (cart_items db1 = cart_items db) as HI by (by rewrite Hdb1).
    assert (forall it, it ∈ cart_items db -> CartItem.cart_id it ≠ Cart.id cart)
      as Hcartfresh.
    { intros it Hit. rewrite Hid. by apply Hfresh. }
    assert (filter (fun l => CartItem.cart_id l = Cart.id cart
                             ∧ CartItem_targets data l) (cart_items db1) = [])
      as Hnone.
    { rewrite HI. apply filter_nil_intro. intros it Hit [Hcid _].
      by apply (Hcartfresh it Hit). }
    destruct (CartItem_get_or_create _ _ db1) as [[[x []]|e] db2].
    + injection H as <- _. by apply Hr.
    + destruct Hc as (_ & Hf). by rewrite Hnone in Hf.
    + destruct Hc as (_ & Hv). apply (Hv Hnone).
      destruct (CartItem_new_one_target fresh cart db db1 data Hvalid) as [Hcid Hx].
      apply violated_constraint_empty_cart; [|done].
      intros r Hr'. rewrite HI in Hr'. rewrite Hcid. by apply Hcartfresh.
Qed.

Lemma add_to_cart_rejected_unchanged_witness :
  AddToCartView_post sample_fresh guest_request add_three_helmets checkout_db
  = (cart_bad_request_response "Only 5 items available in stock", checkout_db).
Proof.
  assert (fst (AddToCartView_post sample_fresh guest_request add_three_helmets
                 checkout_db)
          = cart_bad_request_response "Only 5 items available in stock") as Hr
    by (by vm_compute).
  rewrite (surjective_pairing (AddToCartView_post _ _ _ _)), Hr.
  apply (f_equal (pair _)).
  apply (add_to_cart_rejected_unchanged sample_fresh guest_request
           add_three_helmets checkout_db
           (cart_bad_request_response "Only 5 items available in stock")).
  - intros it Hit. vm_compute in Hit.
    repeat (apply elem_of_cons in Hit as [->|Hit]; [by vm_compute|]).
    by apply elem_of_nil in Hit.
  - rewrite (surjective_pairing (AddToCartView_post _ _ _ _)), Hr. done.
  - simpl. tauto.
Defined.

(** ** Changing and clearing a cart *)

Lemma get_cart_item_Ok request pk db it :
  UpdateCartItemView_get_cart_item request pk db = Ok it ->
  it ∈ cart_items db ∧ CartItem.id it = pk ∧ CartItem_owned_by db request it.
Proof.
  unfold UpdateCartItemView_get_cart_item, CartItem_owned_by, Cart_of_caller.
  destruct (Request.user request) as [uid|].
  - destruct (filter _ (cart_items db)) as [|x [|y l]] eqn:Hf; intros [= <-].
    assert (x ∈ filter (fun it => CartItem.id it = pk
              ∧ from_option (fun c => bool_decide (Cart.user c = Some uid)) false
                  (CartItem_cart db it) = true) (cart_items db)) as Hx
      by (rewrite Hf; left).
    apply list_elem_of_filter in Hx as [[Hid Hc] Hin].
    split; [done|]. split; [done|]. split; [done|].
    destruct (CartItem_cart db x) as [c|]; [|done]. simpl in Hc.
    apply bool_decide_eq_true in Hc. eauto.
  - destruct (truthy_str (Request.session_key request)) eqn:Ht; [|done]. simpl.
    destruct (filter _ (cart_items db)) as [|x [|y l]] eqn:Hf; intros [= <-].
    assert (x ∈ filter (fun it => CartItem.id it = pk
              ∧ from_option
                  (fun c => bool_decide
                     (Cart.session_key c = Request.session_key request
                      ∧ Cart.user c = None)) false
                  (CartItem_cart db it) = true) (cart_items db)) as Hx
      by (rewrite Hf; left).
    apply list_elem_of_filter in Hx as [[Hid Hc] Hin].
    split; [done|]. split; [done|]. split; [done|].
    destruct (CartItem_cart db x) as [c|]; [|done]. simpl in Hc.
    apply bool_decide_eq_true in Hc. eauto.
Qed.

Lemma get_cart_item_foreign request pk db :
  (forall it, it ∈ cart_items db -> CartItem.id it = pk ->
              ¬ CartItem_owned_by db request it) ->
  UpdateCartItemView_get_cart_item request pk db = Raise (DoesNotExist "CartItem").
Proof.
  intros Hforeign.
  unfold UpdateCartItemView_get_cart_item.
  unfold CartItem_owned_by, Cart_of_caller in Hforeign.
  destruct (Request.user request) as [uid|].
  - rewrite filter_nil_intro; [done|]. intros it Hit [Hid Hc].
    apply (Hforeign it Hit Hid). split; [done|].
    destruct (CartItem_cart db it) as [c|]; [|done]. simpl in Hc.
    apply bool_decide_eq_true in Hc. eauto.
  - destruct (truthy_str (Request.session_key request)) eqn:Ht; [|done]. simpl.
    rewrite filter_nil_intro; [done|]. intros it Hit [Hid Hc].
    apply (Hforeign it Hit Hid). split; [done|].
    destruct (CartItem_cart db it) as [c|]; [|done]. simpl in Hc.
    apply bool_decide_eq_true in Hc. eauto.
Qed.

(** X11.  A caller cannot reach another caller's cart line: when no line
    with the given key sits in a cart of the caller, updating it and
    removing it both answer "Cart item not found" and change nothing. *)
Theorem foreign_cart_item_not_found request pk quantity db :
  1 <= quantity ->
  (forall it, it ∈ cart_items db -> CartItem.id it = pk ->
              ¬ CartItem_owned_by db request it) ->
  UpdateCartItemView_patch request pk quantity db
  = (cart_not_found_response "Cart item not found", db)
  ∧ UpdateCartItemView_delete request pk db
    = (cart_not_found_response "Cart item not found", db).
Proof.
  intros Hq Hforeign.
  unfold UpdateCartItemView_patch, UpdateCartItemView_delete,
    UpdateCartItemSerializer_is_valid.
  rewrite (proj2 (Z.leb_le _ _) Hq). simpl.
  by rewrite get_cart_item_foreign.
Qed.

Lemma foreign_cart_item_not_found_witness :
  (exists it, it ∈ cart_items checkout_db ∧ CartItem.id it = 1)
  ∧ UpdateCartItemView_patch user_request 1 1 checkout_db
    = (cart_not_found_response "Cart item not found", checkout_db)
  ∧ UpdateCartItemView_delete user_request 1 checkout_db
    = (cart_not_found_response "Cart item not found", checkout_db).
Proof.
  split.
  { eexists. split; [vm_compute (cart_items checkout_db); left|done]. }
  apply (foreign_cart_item_not_found user_request 1 1 checkout_db); [lia|].
  intros it Hit Hid [_ (c & Hc & Hown)]. vm_compute in Hit.
  repeat (apply elem_of_cons in Hit as [->|Hit];
          [by (vm_compute in Hc; injection Hc as <-)
             || by vm_compute in Hid|]).
  by apply elem_of_nil in Hit.
Defined.

Lemma CartItem_write_others (self : CartItem.t) (rows : list CartItem.t)
    (old : CartItem.t) :
  old ∈ rows -> CartItem.id old = CartItem.id self ->
  filter (fun r => CartItem.id r ≠ CartItem.id self) (CartItem_write self rows)
  = filter (fun r => CartItem.id r ≠ CartItem.id self) rows.
Proof.
  intros Hold Hid. unfold CartItem_write.
  rewrite (existsb_true_intro _ _ old Hold) by (by apply Z.eqb_eq).
  clear Hold. induction rows as [|r rows IH]; [done|]. simpl map.
  rewrite !filter_cons. destruct (Z.eqb_spec (CartItem.id r) (CartItem.id self)).
  - rewrite !decide_False by tauto. done.
  - rewrite !decide_True by done. by rewrite IH.
Qed.

Lemma CartItem_get_stock_keys db db' a b :
  variants db' = variants db -> products db' = products db ->
  CartItem.variant_id a = CartItem.variant_id b ->
  CartItem.product_id a = CartItem.product_id b ->
  CartItem_get_stock db' a = CartItem_get_stock db b.
Proof.
  intros HV HP Hv Hp. unfold CartItem_get_stock, CartItem_variant, CartItem_product.
  by rewrite HV, HP, Hv, Hp.
Qed.

(** X12.  When [UpdateCartItemView.patch] answers with a line, that line
    is the caller's line with the given key, stored with the requested
    quantity, which is at least 1 and at most the stock of its target;
    the lines with other keys, the carts and the catalogue are as
    before. *)
Theorem update_cart_item request pk quantity db it message db' :
  UpdateCartItemView_patch request pk quantity db
  = (item_success_response it message, db') ->
  1 <= quantity <= CartItem_get_stock db' it
  ∧ CartItem.id it = pk
  ∧ CartItem.quantity it = quantity
  ∧ it ∈ cart_items db'
  ∧ (exists old, old ∈ cart_items db ∧ CartItem.id old = pk
                 ∧ CartItem_owned_by db request old
                 ∧ CartItem.cart_id it = CartItem.cart_id old
                 ∧ CartItem.variant_id it = CartItem.variant_id old
                 ∧ CartItem.product_id it = CartItem.product_id old)
  ∧ filter (fun r => CartItem.id r ≠ pk) (cart_items db')
    = filter (fun r => CartItem.id r ≠ pk) (cart_items db)
  ∧ length (cart_items db') = length (cart_items db)
  ∧ carts db' = carts db
  ∧ variants db' = variants db
  ∧ products db' = products db.
Proof.
  unfold UpdateCartItemView_patch, UpdateCartItemSerializer_is_valid.
  destruct (Z.leb_spec 1 quantity) as [Hq|]; [|done]. simpl.
  destruct (UpdateCartItemView_get_cart_item request pk db) as [old|e] eqn:Hget.
  2:{ by destruct e. }
  apply get_cart_item_Ok in Hget as (Hin & Hid & Hown).
  destruct (Z.ltb_spec (CartItem_get_stock db old) quantity) as [|Hst]; [done|].
  rewrite CartItem_save_presave.
  destruct (CartItem_violated_constraint _ _); [done|].
  intros [= <- _ <-].
  destruct (CartItem_presave_fields db (CartItem.set_quantity quantity old))
    as (Hi & Hc & Hv & Hp & Hqty).
  assert (CartItem.id (CartItem_presave db (CartItem.set_quantity quantity old))
          = CartItem.id old) as Hi' by (rewrite Hi; by destruct old).
  assert (forall rows,
            CartItem_get_stock (set_cart_items rows db)
              (CartItem_presave db (CartItem.set_quantity quantity old))
            = CartItem_get_stock db old) as Hstock.
  { intros rows. apply CartItem_get_stock_keys; [done|done| |].
    - rewrite Hv. by destruct old.
    - rewrite Hp. by destruct old. }
  split_and!.
  - done.
  - by rewrite Hstock.
  - by rewrite Hi'.
  - rewrite Hqty. by destruct old.
  - apply CartItem_write_elem.
  - exists old. by split_and!.
  - cbn [cart_items set_cart_items]. rewrite <- Hid, <- Hi'.
    by apply (CartItem_write_others _ _ old).
  - cbn [cart_items set_cart_items]. by apply (CartItem_write_length _ _ old).
  - done.
  - done.
  - done.
Qed.

Lemma update_cart_item_witness :
  exists it db',
    UpdateCartItemView_patch guest_request 1 5 checkout_db
    = (item_success_response it "Cart item updated successfully", db')
    ∧ 1 <= 5 <= CartItem_get_stock db' it
    ∧ CartItem.id it = 1
    ∧ CartItem.quantity it = 5
    ∧ Cart_get_total_items db' guest_cart = 7.
Proof.
  do 2 eexists. split; [by vm_compute|].
  pose proof (update_cart_item guest_request 1 5 checkout_db _ _ _ eq_refl)
    as (Hq & Hid & Hqty & _).
  split; [exact Hq|]. split; [exact Hid|]. split; [exact Hqty|]. by vm_compute.
Defined.

(** X13.  [ClearCartView.delete] always answers with success.  Afterwards
    the cart it looked up for the caller has no lines, the lines of every
    other cart are as before, no cart row and no catalogue row has
    changed, and clearing a second time changes nothing more. *)
Theorem clear_cart request db response db' :
  ClearCartView_delete request db = (response, db') ->
  (exists message, response = cart_success_response message)
  ∧ (forall cart, ClearCartView_get_cart db request = Some cart ->
       Cart_items db' cart = []
       ∧ forall other, Cart.id other ≠ Cart.id cart ->
           Cart_items db' other = Cart_items db other)
  ∧ (ClearCartView_get_cart db request = None -> db' = db)
  ∧ carts db' = carts db
  ∧ variants db' = variants db
  ∧ products db' = products db
  ∧ snd (ClearCartView_delete request db') = db'.
Proof.
  unfold ClearCartView_delete.
  destruct (ClearCartView_get_cart db request) as [cart|] eqn:Hcart.
  - unfold Cart_clear, modify. intros [= <- <-].
    assert (ClearCartView_get_cart
              (set_cart_items
                 (filter (fun it => CartItem.cart_id it ≠ Cart.id cart)
                         (cart_items db)) db) request = Some cart) as Hcart'.
    { by rewrite <- Hcart. }
    split_and!; try done.
    + by eexists.
    + intros c [= <-]. split.
      * unfold Cart_items. cbn [cart_items set_cart_items].
        rewrite list_filter_filter. apply filter_nil_intro. by intros it _ [? ?].
      * intros other Hne. by apply (Cart_items_other db _ cart).
    + rewrite Hcart'. unfold set_cart_items. cbn. f_equal.
      rewrite list_filter_filter. apply list_filter_iff. tauto.
  - intros [= <- <-]. rewrite Hcart. split_and!; try done. by eexists.
Qed.

Lemma clear_cart_witness :
  (exists message,
     fst (ClearCartView_delete guest_request merge_db) = cart_success_response message)
  ∧ Cart_items (snd (ClearCartView_delete guest_request merge_db)) guest_cart = []
  ∧ Cart_items (snd (ClearCartView_delete guest_request merge_db)) user_cart
    = Cart_items merge_db user_cart
  ∧ length (Cart_items merge_db user_cart) = 1%nat
  ∧ length (Cart_items merge_db guest_cart) = 1%nat.
Proof.
  destruct (clear_cart guest_request merge_db
              (fst (ClearCartView_delete guest_request merge_db))
              (snd (ClearCartView_delete guest_request merge_db)))
    as (Hr & Hc & _).
  { by destruct (ClearCartView_delete _ _). }
  destruct (Hc guest_cart) as [Hempty Hother]; [by vm_compute|].
  split; [exact Hr|]. split; [exact Hempty|].
  split; [by apply Hother|]. by vm_compute.
Defined.



(** ** Checkout: the addresses of an order *)

(** The address [_get_or_create_address] hands back belongs to the caller:
    it is a row of the caller found by its key, or a new row, appended
    with both default flags off. *)
Lemma get_or_create_address_owner uid aid g ty db a db1 :
  CreateOrderView_get_or_create_address uid aid g ty db = (Ok a, db1) ->
  Address.user a = uid
  ∧ (addresses db1 = addresses db ∧ a ∈ addresses db
     ∨ addresses db1 = (addresses db ++ [a])%list
       ∧ Address.address_type a = ty
       ∧ Address.is_default_billing a = false
       ∧ Address.is_default_shipping a = false).
Proof.
  unfold CreateOrderView_get_or_create_address.
  destruct (truthy_int aid) eqn:Haid.
  - rewrite bind_gets.
    destruct (filter _ (addresses db)) as [|x [|y l]] eqn:Hf;
      [discriminate| |discriminate].
    intros [= -> <-].
    assert (a ∈ filter (λ a, Address.id a = aid ∧ Address.user a = uid)
                       (addresses db)) as Hx by (rewrite Hf; left).
    apply list_elem_of_filter in Hx as [[_ Hu] Hin].
    split; [done|]. by left.
  - destruct g as [g|]; [|discriminate].
    rewrite Address_save_plain_Ok by done.
    intros [= <- <-]. simpl. split; [done|]. by right.
Qed.

(** X15.  The addresses of a created order.  For a signed-in caller the
    order refers to a billing and a shipping address row that both belong
    to the caller, and carries no inline address; the rows the checkout
    adds (at most two) belong to the caller and are no defaults, and no
    existing row is changed.  For a guest the order refers to no address
    row and carries the two inline addresses of the request, and the
    addresses table is as before. *)
Theorem create_order_addresses request data db order message db' :
  CreateOrderView_post request data db = (created_response order message, db') ->
  Order.user order = Request.user request
  ∧ match Request.user request with
    | Some uid =>
        (exists b s,
           b ∈ addresses db' ∧ s ∈ addresses db'
           ∧ Address.user b = uid ∧ Address.user s = uid
           ∧ is_Some (Address.id b) ∧ is_Some (Address.id s)
           ∧ Order.billing_address order = Address.id b
           ∧ Order.shipping_address order = Address.id s)
        ∧ Order.guest_billing_address_data order = None
        ∧ Order.guest_shipping_address_data order = None
        ∧ exists new,
            addresses db' = (addresses db ++ new)%list
            ∧ (length new <= 2)%nat
            ∧ Forall (fun a => Address.user a = uid
                               ∧ Address.is_default_billing a = false
                               ∧ Address.is_default_shipping a = false) new
    | None =>
        Order.billing_address order = None
        ∧ Order.shipping_address order = None
        ∧ is_Some (Order.guest_billing_address_data order)
        ∧ is_Some (Order.guest_shipping_address_data order)
        ∧ Order.guest_billing_address_data order
          = CreateOrderData.guest_billing_address data
        ∧ Order.guest_shipping_address_data order
          = CreateOrderData.guest_shipping_address data
        ∧ addresses db' = addresses db
    end.
Proof.
  intros H. apply post_created in H as (Hvalid & cart & Hcart & H).
  unfold CreateOrderView_transaction in H.
  apply bind_Ok_inv in H as ([[[b s] gb] gs] & db1 & Hres & H).
  rewrite bind_gets in H.
  apply bind_Ok_inv in H as (o & db2 & Hsave & H).
  rewrite bind_gets in H.
  apply bind_Ok_inv in H as ([] & db3 & Hloop & H).
  apply bind_Ok_inv in H as ([] & db4 & Hpay & H).
  unfold Cart_clear in H. rewrite bind_modify in H. injection H as <- Hdb'.
  apply Order_save_new_Ok in Hsave as [Ho Hdb2]; [|done..].
  apply Payment_create_Ok in Hpay.
  pose proof (for_each_preserves
    (fun d => addresses d = addresses db2) _ _
    (fun x d r d' Hx HP =>
       let '(conj _ (conj _ (conj H3 _))) := create_order_item_frame _ _ _ _ _ Hx in
       eq_trans H3 HP)
    _ _ _ Hloop eq_refl) as Ha3.
  assert (addresses db' = addresses db1) as Ha'.
  { rewrite <- Hdb', Hpay. simpl. rewrite Ha3, Hdb2. done. }
  rewrite Ha'. clear Hdb' Hpay Hloop Ha3 Hdb2 Ha'.
  unfold CreateOrderSerializer_validate in Hvalid.
  destruct (Request.user request) as [uid|].
  - apply bind_Ok_inv in Hres as (ba & dba & Hb & Hres).
    apply bind_Ok_inv in Hres as (sa & dbs & Hsa & Hres).
    injection Hres as <- <- <- <- <-.
    pose proof (get_or_create_address_Ok _ _ _ _ _ _ _ Hb) as (_ & Hbid & _).
    pose proof (get_or_create_address_Ok _ _ _ _ _ _ _ Hsa) as (Hsin & Hsid & _).
    apply get_or_create_address_owner in Hb as (Hbu & Hbrows).
    apply get_or_create_address_owner in Hsa as (Hsu & Hsrows).
    subst o. simpl. split; [done|]. split_and!; try done.
    + exists ba, sa. split_and!; try done.
      destruct Hsrows as [[-> _]|[-> _]], Hbrows as [[-> ?]|[-> _]];
        rewrite ?elem_of_app, ?list_elem_of_singleton; tauto.
    + destruct Hbrows as [[Hb1 _]|(Hb1 & _ & Hb2 & Hb3)],
               Hsrows as [[Hs1 _]|(Hs1 & _ & Hs2 & Hs3)]; rewrite Hs1, Hb1.
      * exists []. rewrite app_nil_r. split; [done|]. split; [simpl; lia|done].
      * exists [sa]. split; [done|]. split; [simpl; lia|]. by repeat constructor.
      * exists [ba]. split; [done|]. split; [simpl; lia|]. by repeat constructor.
      * exists [ba; sa]. rewrite <- app_assoc. split; [done|].
        split; [simpl; lia|]. by repeat constructor.
  - injection Hres as <- <- <- <- <-. subst o. simpl.
    destruct (CreateOrderData.guest_billing_address data); [|done].
    destruct (CreateOrderData.guest_shipping_address data); [|done].
    split_and!; eauto.
Qed.

Lemma create_order_addresses_witness :
  exists order db',
    CreateOrderView_post user_request user_checkout user_checkout_db
    = (created_response order "Order created successfully", db')
    ∧ Order.user order = Some 7
    ∧ (exists b s,
         b ∈ addresses db' ∧ s ∈ addresses db'
         ∧ Address.user b = 7 ∧ Address.user s = 7
         ∧ is_Some (Address.id b) ∧ is_Some (Address.id s)
         ∧ Order.billing_address order = Address.id b
         ∧ Order.shipping_address order = Address.id s)
    ∧ length (addresses db') = 2%nat.
Proof.
  do 2 eexists. split; [by vm_compute|].
  pose proof (create_order_addresses user_request user_checkout user_checkout_db
                _ _ _ eq_refl) as (Hu & Haddr & _).
  split; [exact Hu|]. split; [exact Haddr|]. by vm_compute.
Defined.

(** ** Password reset *)

Lemma invalidate_elem user rows r :
  r ∈ PasswordResetToken_invalidate user rows ->
  (PasswordResetToken.user r = user -> PasswordResetToken.used r = true)
  ∧ (PasswordResetToken.user r ≠ user -> r ∈ rows).
Proof.
  unfold PasswordResetToken_invalidate. intros (x & -> & Hx)%list_elem_of_fmap.
  destruct (Z.eqb_spec (PasswordResetToken.user x) user) as [Hu|Hu]; simpl.
  - destruct (PasswordResetToken.used x) eqn:Hused; simpl; split; try done.
    all: by destruct x.
  - split; [|done]. by intros ?.
Qed.

Lemma invalidate_other user rows r :
  r ∈ rows -> PasswordResetToken.user r ≠ user ->
  r ∈ PasswordResetToken_invalidate user rows.
Proof.
  intros Hr Hu. unfold PasswordResetToken_invalidate. apply list_elem_of_fmap.
  exists r. split; [|done].
  by rewrite (proj2 (Z.eqb_neq _ _) Hu).
Qed.

Lemma invalidate_token user rows value :
  filter (fun r => PasswordResetToken.token r = value)
         (PasswordResetToken_invalidate user rows)
  = PasswordResetToken_invalidate user
      (filter (fun r => PasswordResetToken.token r = value) rows).
Proof.
  unfold PasswordResetToken_invalidate.
  induction rows as [|r rows IH]; [done|]. simpl map.
  rewrite !filter_cons.
  assert (PasswordResetToken.token
            (if (PasswordResetToken.user r =? user) && negb (PasswordResetToken.used r)
             then PasswordResetToken.set_used true r else r)
          = PasswordResetToken.token r) as ->
    by (destruct (_ && _); [by destruct r|done]).
  destruct (decide (PasswordResetToken.token r = value)); simpl; by rewrite IH.
Qed.

Lemma generate_token_inv now token user db new db' :
  PasswordResetToken_generate_token now token user db = (Ok new, db') ->
  new = PasswordResetToken.mk (reset_token_seq db) user token (now + hour) false
  ∧ reset_tokens db' = new :: PasswordResetToken_invalidate user (reset_tokens db)
  ∧ users db' = users db
  ∧ (forall r, r ∈ PasswordResetToken_invalidate user (reset_tokens db) ->
       PasswordResetToken.token r ≠ token).
Proof.
  unfold PasswordResetToken_generate_token.
  destruct (existsb _ _) eqn:Hex; [done|]. intros [= <- <-].
  rewrite existsb_false_iff in Hex. split_and!; try done.
  intros r Hr Ht. specialize (Hex r Hr). rewrite Ht in Hex.
  by rewrite String.eqb_refl in Hex.
Qed.

Lemma PasswordResetToken_get_new db new rows :
  reset_tokens db = new :: rows ->
  (forall r, r ∈ rows -> PasswordResetToken.token r ≠ PasswordResetToken.token new) ->
  PasswordResetToken_get (PasswordResetToken.token new) db = Ok new.
Proof.
  intros Hrows Hfresh. unfold PasswordResetToken_get. rewrite Hrows.
  rewrite filter_cons, decide_True by done.
  by rewrite filter_nil_intro.
Qed.

(** X16.  A token that [generate_token] returns is stored and can be
    looked up by its string; it is valid exactly before the hour after
    [now] has passed; it is the only token of its user that can be valid
    at any time, every earlier one being marked used; the tokens of other
    users and the users are untouched. *)
Theorem generate_token_supersedes now token user db new db' :
  PasswordResetToken_generate_token now token user db = (Ok new, db') ->
  PasswordResetToken_get token db' = Ok new
  ∧ PasswordResetToken.user new = user
  ∧ (forall t, PasswordResetToken_is_valid t new = true <-> t < now + hour)
  ∧ (forall r t, r ∈ reset_tokens db' -> PasswordResetToken.user r = user ->
       PasswordResetToken_is_valid t r = true -> r = new)
  ∧ (forall r, PasswordResetToken.user r ≠ user ->
       r ∈ reset_tokens db' <-> r ∈ reset_tokens db)
  ∧ users db' = users db.
Proof.
  intros (Hnew & Hrows & Husers & Hfresh)%generate_token_inv.
  split_and!; try done.
  - replace token with (PasswordResetToken.token new) by (by rewrite Hnew).
    apply (PasswordResetToken_get_new _ _ _ Hrows).
    intros r Hr. rewrite Hnew. by apply Hfresh.
  - by rewrite Hnew.
  - intros t. unfold PasswordResetToken_is_valid. rewrite Hnew. simpl.
    apply Z.ltb_lt.
  - intros r t Hr Hu Hv. rewrite Hrows in Hr.
    apply elem_of_cons in Hr as [->|Hr]; [done|].
    apply invalidate_elem in Hr as [Hused _].
    unfold PasswordResetToken_is_valid in Hv. by rewrite (Hused Hu) in Hv.
  - intros r Hu. rewrite Hrows, elem_of_cons. split.
    + intros [->|Hr].
      * destruct Hu. by rewrite Hnew.
      * apply invalidate_elem in Hr as [_ Hr]. by apply Hr.
    + intros Hr. right. by apply invalidate_other.
Qed.

Lemma generate_token_supersedes_witness :
  exists new db',
    PasswordResetToken_generate_token 6000000000 "t0k3n-3" 7 sample_accounts
    = (Ok new, db')
    ∧ PasswordResetToken_get "t0k3n-3" db' = Ok new
    ∧ map PasswordResetToken.used (reset_tokens sample_accounts) = [false; true]
    ∧ map PasswordResetToken.used (reset_tokens db') = [false; true; true].
Proof.
  do 2 eexists. split; [by vm_compute|].
  split; [|by vm_compute].
  eapply (generate_token_supersedes 6000000000 "t0k3n-3" 7 sample_accounts).
  by vm_compute.
Defined.

Lemma NoDup_fmap_elem_inj {A B} (f : A -> B) (l : list A) (x y : A) :
  NoDup (f <$> l) -> x ∈ l -> y ∈ l -> f x = f y -> x = y.
Proof.
  induction l as [|a l IH]; [by intros _ ?%elem_of_nil|].
  rewrite fmap_cons, NoDup_cons.
  intros [Ha Hnd] [->|Hx]%elem_of_cons [->|Hy]%elem_of_cons Hf; auto.
  - destruct Ha. rewrite Hf. apply list_elem_of_fmap. eauto.
  - destruct Ha. rewrite <- Hf. apply list_elem_of_fmap. eauto.
Qed.

Lemma filter_map_elem {A} (f : A -> A) (P : A -> Prop) `{forall x, Decision (P x)}
    (l : list A) :
  (forall x, x ∈ l -> P (f x) <-> P x) ->
  filter P (map f l) = map f (filter P l).
Proof.
  induction l as [|a l IH]; intros Hf; [done|]. simpl map.
  rewrite !filter_cons.
  assert (P (f a) <-> P a) as Ha by (apply Hf; left).
  assert (filter P (map f l) = map f (filter P l)) as Hl.
  { apply IH. intros x Hx. apply Hf. by right. }
  destruct (decide (P (f a))), (decide (P a)); simpl; try tauto; by rewrite Hl.
Qed.

Lemma validate_Valid now data db reset_token :
  ResetPasswordSerializer_validate now data db = Valid reset_token ->
  ResetPasswordData.new_password data = ResetPasswordData.confirm_password data
  ∧ filter (fun r => PasswordResetToken.token r = ResetPasswordData.token data)
           (reset_tokens db) = [reset_token]
  ∧ PasswordResetToken_is_valid now reset_token = true.
Proof.
  unfold ResetPasswordSerializer_validate, PasswordResetToken_get.
  destruct (String.eqb_spec (ResetPasswordData.new_password data)
              (ResetPasswordData.confirm_password data)); [|done]. simpl.
  destruct (filter _ (reset_tokens db)) as [|x [|y l]]; [done| |done].
  destruct (PasswordResetToken_is_valid now x) eqn:Hv; [|done]. simpl.
  by intros [= ->].
Qed.

(** X17.  A password reset that succeeds was made with a token that was
    valid; it sets the password of the token's user to the new one and
    marks every token of that user as used, so that the same token string
    is refused from then on, at any time and with any password. *)
Theorem reset_password_single_use now data db message email db' :
  NoDup (PasswordResetToken.id <$> reset_tokens db) ->
  ResetPasswordView_post now data db = (auth_success_response message email, db') ->
  (exists reset_token user,
     reset_token ∈ reset_tokens db
     ∧ PasswordResetToken.token reset_token = ResetPasswordData.token data
     ∧ PasswordResetToken_is_valid now reset_token = true
     ∧ user ∈ users db'
     ∧ User.id user = PasswordResetToken.user reset_token
     ∧ User.password user = ResetPasswordData.new_password data
     ∧ email = Some (User.email user)
     ∧ (forall r, r ∈ reset_tokens db' ->
          PasswordResetToken.user r = User.id user ->
          PasswordResetToken.used r = true))
  ∧ (forall now' data',
       ResetPasswordData.token data' = ResetPasswordData.token data ->
       ResetPasswordView_post now' data' db'
       = (auth_bad_request_response "Password reset failed", db')).
Proof.
  intros Hnd. unfold ResetPasswordView_post at 1.
  destruct (ResetPasswordSerializer_validate now data db) as [x| |] eqn:Hval;
    [|done..].
  apply validate_Valid in Hval as (Hpw & Hf & Hvalid).
  assert (x ∈ reset_tokens db ∧ PasswordResetToken.token x = ResetPasswordData.token data)
    as [Hx Htok].
  { assert (x ∈ filter (fun r => PasswordResetToken.token r
                                 = ResetPasswordData.token data) (reset_tokens db))
      as Hin by (rewrite Hf; left).
    by apply list_elem_of_filter in Hin as [? ?]. }
  unfold ResetPasswordSerializer_save.
  destruct (filter _ (users db)) as [|u us] eqn:Hu; [done|].
  assert (u ∈ users db ∧ User.id u = PasswordResetToken.user x) as [Huin Huid].
  { assert (u ∈ filter (fun u => User.id u = PasswordResetToken.user x) (users db))
      as Hin by (rewrite Hu; left).
    by apply list_elem_of_filter in Hin as [? ?]. }
  intros [= <- <- <-]. split.
  - exists x, (User.set_password (ResetPasswordData.new_password data) u).
    split_and!; try done.
    + cbn [users]. apply list_elem_of_fmap. exists u. split; [|done].
      by rewrite (proj2 (Z.eqb_eq _ _)) by (by destruct u).
    + cbn [reset_tokens]. intros r Hr Hru.
      apply invalidate_elem in Hr as [Hused _]. by apply Hused.
  - intros now' data' Htok'.
    unfold ResetPasswordView_post, ResetPasswordSerializer_validate.
    destruct (negb _); [done|].
    unfold PasswordResetToken_get. cbn [reset_tokens].
    rewrite invalidate_token, Htok'.
    rewrite filter_map_elem.
    2:{ intros r Hr. simpl.
        destruct (Z.eqb_spec (PasswordResetToken.id r) (PasswordResetToken.id x))
          as [Hid|]; [|done].
        assert (r = x) as ->; [|by destruct x].
        by apply (NoDup_fmap_elem_inj PasswordResetToken.id (reset_tokens db)). }
    rewrite Hf. simpl. rewrite Z.eqb_refl.
    unfold PasswordResetToken_is_valid. simpl.
    by rewrite andb_false_r.
Qed.

Lemma reset_password_single_use_witness :
  exists message email db',
    ResetPasswordView_post 4500000000 (reset_with "t0k3n-2") sample_accounts
    = (auth_success_response message email, db')
    ∧ email = Some "rider@example.com"
    ∧ map User.password (users db') = ["new-secret"; "other-secret"]
    ∧ ResetPasswordView_post 4600000000 (reset_with "t0k3n-2") db'
      = (auth_bad_request_response "Password reset failed", db').
Proof.
  do 3 eexists. split; [by vm_compute|]. split; [done|]. split; [by vm_compute|].
  eapply (reset_password_single_use 4500000000 (reset_with "t0k3n-2")
            sample_accounts); [|by vm_compute|done].
  apply (bool_decide_unpack _). by vm_compute.
Defined.

Lemma validate_email_cases email db :
  NoDup (User.email <$> users db) ->
  (ForgotPasswordSerializer_validate_email email db = Ok None
   ∧ forall u, u ∈ users db -> User.email u ≠ lower email)
  ∨ (exists u, ForgotPasswordSerializer_validate_email email db = Ok (Some u)
               ∧ u ∈ users db ∧ User.email u = lower email).
Proof.
  intros Hnd. unfold ForgotPasswordSerializer_validate_email.
  destruct (filter _ (users db)) as [|u [|v l]] eqn:Hf.
  - left. split; [done|]. intros u Hu He.
    assert (u ∈ filter (fun u => User.email u = lower email) (users db)) as Hin
      by (by apply list_elem_of_filter).
    rewrite Hf in Hin. by apply elem_of_nil in Hin.
  - right. exists u. split; [done|].
    assert (u ∈ filter (fun u => User.email u = lower email) (users db)) as Hin
      by (rewrite Hf; left).
    by apply list_elem_of_filter in Hin as [? ?].
  - exfalso.
    assert (NoDup (filter (fun u => User.email u = lower email) (users db))) as Hnd'.
    { apply NoDup_filter. by apply NoDup_fmap_1 in Hnd. }
    assert (u ∈ filter (fun u => User.email u = lower email) (users db)) as Hu
      by (rewrite Hf; left).
    assert (v ∈ filter (fun u => User.email u = lower email) (users db)) as Hv
      by (rewrite Hf; right; left).
    apply list_elem_of_filter in Hu as [Hue Hu].
    apply list_elem_of_filter in Hv as [Hve Hv].
    assert (u = v) as ->.
    { apply (NoDup_fmap_elem_inj User.email (users db)); congruence. }
    rewrite Hf in Hnd'. apply NoDup_cons in Hnd' as [Hnot _]. apply Hnot. left.
Qed.

Lemma generate_token_fresh now token user db :
  (forall r, r ∈ reset_tokens db -> PasswordResetToken.token r ≠ token) ->
  exists new db',
    PasswordResetToken_generate_token now token user db = (Ok new, db').
Proof.
  intros Hfresh. unfold PasswordResetToken_generate_token.
  rewrite (proj2 (existsb_false_iff _ _)); [by eauto|].
  intros r (x & -> & Hx)%list_elem_of_fmap.
  apply String.eqb_neq.
  replace (PasswordResetToken.token _) with (PasswordResetToken.token x)
    by (by destruct (_ && _), x).
  by apply Hfresh.
Qed.

(** X18.  When the mail goes out, [ForgotPasswordView.post] gives the same
    answer whether or not an account has the address; without an account
    nothing is written.  The accounts have distinct addresses and the new
    token string is not in use. *)
Theorem forgot_password_answer now token email db :
  NoDup (User.email <$> users db) ->
  (forall r, r ∈ reset_tokens db -> PasswordResetToken.token r ≠ token) ->
  fst (ForgotPasswordView_post now token true email db)
  = auth_success_response
      "If an account exists with this email, you will receive a password reset link shortly."
      None
  ∧ ((forall u, u ∈ users db -> User.email u ≠ lower email) ->
     snd (ForgotPasswordView_post now token true email db) = db).
Proof.
  intros Hnd Hfresh. unfold ForgotPasswordView_post.
  destruct (validate_email_cases email db Hnd) as [[-> Hnone]|(u & -> & Hu & He)].
  - done.
  - destruct (generate_token_fresh now token (User.id u) db Hfresh)
      as (new & db' & ->).
    split; [done|]. intros Hnone. by destruct (Hnone u Hu).
Qed.

Lemma forgot_password_answer_witness :
  fst (ForgotPasswordView_post 6000000000 "t0k3n-3" true "Rider@Example.com"
         sample_accounts)
  = fst (ForgotPasswordView_post 6000000000 "t0k3n-3" true "nobody@example.com"
           sample_accounts)
  ∧ snd (ForgotPasswordView_post 6000000000 "t0k3n-3" true "nobody@example.com"
           sample_accounts) = sample_accounts
  ∧ length (reset_tokens
              (snd (ForgotPasswordView_post 6000000000 "t0k3n-3" true
                      "Rider@Example.com" sample_accounts))) = 3%nat.
Proof.
  assert (NoDup (User.email <$> users sample_accounts)) as Hnd
    by (apply (bool_decide_unpack _); by vm_compute).
  assert (forall r, r ∈ reset_tokens sample_accounts ->
                    PasswordResetToken.token r ≠ "t0k3n-3") as Hfresh.
  { intros r Hr. vm_compute in Hr.
    repeat (apply elem_of_cons in Hr as [->|Hr]; [done|]).
    by apply elem_of_nil in Hr. }
  destruct (forgot_password_answer 6000000000 "t0k3n-3" "Rider@Example.com"
              sample_accounts Hnd Hfresh) as [H1 _].
  destruct (forgot_password_answer 6000000000 "t0k3n-3" "nobody@example.com"
              sample_accounts Hnd Hfresh) as [H2 H3].
  split; [by rewrite H1, H2|]. split; [|by vm_compute].
  apply H3. intros u Hu. vm_compute in Hu.
  repeat (apply elem_of_cons in Hu as [->|Hu]; [by vm_compute|]).
  by apply elem_of_nil in Hu.
Defined.

(** X19.  When the mail fails for an existing account, the view answers
    with status 500 but nothing is undone: the new token is stored and
    valid, and every token the user had before is marked used. *)
Theorem forgot_password_mail_failure now token email db u :
  NoDup (User.email <$> users db) ->
  (forall r, r ∈ reset_tokens db -> PasswordResetToken.token r ≠ token) ->
  u ∈ users db -> User.email u = lower email ->
  exists new db',
    ForgotPasswordView_post now token false email db
    = (auth_error_response "Failed to send reset email. Please try again." 500, db')
    ∧ PasswordResetToken_get token db' = Ok new
    ∧ PasswordResetToken.user new = User.id u
    ∧ PasswordResetToken_is_valid now new = true
    ∧ (forall r, r ∈ reset_tokens db' -> PasswordResetToken.user r = User.id u ->
         r ≠ new -> PasswordResetToken.used r = true).
Proof.
  intros Hnd Hfresh Hu He. unfold ForgotPasswordView_post.
  destruct (validate_email_cases email db Hnd) as [[_ Hnone]|(v & -> & Hv & Hve)].
  { by destruct (Hnone u Hu). }
  assert (v = u) as ->.
  { apply (NoDup_fmap_elem_inj User.email (users db)); congruence. }
  destruct (generate_token_fresh now token (User.id u) db Hfresh)
    as (new & db' & Hgen).
  rewrite Hgen. exists new, db'. split; [done|].
  apply generate_token_inv in Hgen as (Hnew & Hrows & _ & Hfresh').
  split_and!.
  - replace token with (PasswordResetToken.token new) by (by rewrite Hnew).
    apply (PasswordResetToken_get_new _ _ _ Hrows).
    intros r Hr. rewrite Hnew. by apply Hfresh'.
  - by rewrite Hnew.
  - unfold PasswordResetToken_is_valid. rewrite Hnew. simpl. apply Z.ltb_lt.
    unfold hour. lia.
  - intros r Hr Hru Hne. rewrite Hrows in Hr.
    apply elem_of_cons in Hr as [->|Hr]; [done|].
    by apply invalidate_elem in Hr as [Hused _]; apply Hused.
Qed.

Lemma forgot_password_mail_failure_witness :
  exists new db',
    ForgotPasswordView_post 6000000000 "t0k3n-3" false "Rider@Example.com"
      sample_accounts
    = (auth_error_response "Failed to send reset email. Please try again." 500, db')
    ∧ PasswordResetToken_get "t0k3n-3" db' = Ok new
    ∧ PasswordResetToken.user new = 7
    ∧ PasswordResetToken_is_valid 6000000000 new = true
    ∧ (forall r, r ∈ reset_tokens db' -> PasswordResetToken.user r = 7 ->
         r ≠ new -> PasswordResetToken.used r = true).
Proof.
  apply (forgot_password_mail_failure 6000000000 "t0k3n-3" "Rider@Example.com"
           sample_accounts (User.mk 7 "rider@example.com" "Rider" "old-secret")).
  - apply (bool_decide_unpack _). by vm_compute.
  - intros r Hr. vm_compute in Hr.
    repeat (apply elem_of_cons in Hr as [->|Hr]; [done|]).
    by apply elem_of_nil in Hr.
  - vm_compute (users sample_accounts). left.
  - by vm_compute.
Defined.

(** ** The stock of a product *)

Lemma Product_get_total_stock_sum db k :
  Product_get_total_stock db k
  = sum (map ProductVariant.stock (Product_active_variants db k)).
Proof.
  unfold Product_get_total_stock.
  destruct (Product_active_variants db k) as [|v l]; [done|].
  generalize (sum (map ProductVariant.stock (v :: l))). intros s.
  unfold truthy_int. by destruct (Z.eqb_spec s 0).
Qed.

Lemma sum_pos_exists (l : list Z) : 0 < sum l -> exists x, x ∈ l ∧ 0 < x.
Proof.
  induction l as [|a l IH]; [rewrite sum_nil; lia|].
  rewrite sum_cons. intros H.
  destruct (Z.lt_ge_cases 0 a) as [Ha|Ha].
  - exists a. split; [left|done].
  - destruct IH as (x & Hx & Hpos); [lia|]. exists x. split; [by right|done].
Qed.

Lemma sum_nonneg (l : list Z) : Forall (fun x => 0 <= x) l -> 0 <= sum l.
Proof.
  induction 1 as [|a l Ha _ IH]; [by rewrite sum_nil|]. rewrite sum_cons. lia.
Qed.

(** X20.  The stock summary of a product.  A product that is low on stock
    is in stock; a product is in stock exactly when the stock of its
    active variants adds up to more than zero, provided no active variant
    has a negative stock; a product without active variants has total
    stock zero and is neither in stock nor low on stock. *)
Theorem product_stock_summary db k :
  (forall threshold, Product_is_low_stock db k threshold = true ->
                     Product_is_in_stock db k = true)
  ∧ (Forall (fun v => 0 <= ProductVariant.stock v) (Product_active_variants db k) ->
     Product_is_in_stock db k = true <-> 0 < Product_get_total_stock db k)
  ∧ (Product_active_variants db k = [] ->
     Product_get_total_stock db k = 0
     ∧ Product_is_in_stock db k = false
     ∧ forall threshold, Product_is_low_stock db k threshold = false).
Proof.
  assert (0 < Product_get_total_stock db k -> Product_is_in_stock db k = true)
    as Hpos.
  { rewrite Product_get_total_stock_sum. intros (x & Hx & Hpos)%sum_pos_exists.
    apply list_elem_of_fmap in Hx as (v & -> & Hv).
    unfold Product_is_in_stock. apply bool_decide_eq_true. intros Hnil.
    assert (v ∈ filter (fun v => 0 < ProductVariant.stock v)
                       (Product_active_variants db k)) as Hin
      by (by apply list_elem_of_filter).
    rewrite Hnil in Hin. by apply elem_of_nil in Hin. }
  split_and!.
  - unfold Product_is_low_stock. intros threshold [H0 _]%andb_true_iff.
    apply Hpos. by apply Z.ltb_lt.
  - intros Hnn. split; [|done]. unfold Product_is_in_stock.
    intros Hin%bool_decide_eq_true. rewrite Product_get_total_stock_sum.
    destruct (filter _ _) as [|v l] eqn:Hf; [done|].
    assert (v ∈ filter (fun v => 0 < ProductVariant.stock v)
                       (Product_active_variants db k)) as Hv by (rewrite Hf; left).
    apply list_elem_of_filter in Hv as [Hpos' Hv].
    apply list_elem_of_split in Hv as (l1 & l2 & Hl). rewrite Hl in Hnn |- *.
    rewrite map_app, sum_app. simpl map. rewrite sum_cons.
    apply Forall_app in Hnn as [H1 H2]. apply Forall_cons in H2 as [_ H2].
    pose proof (sum_nonneg (map ProductVariant.stock l1)) as Hs1.
    pose proof (sum_nonneg (map ProductVariant.stock l2)) as Hs2.
    rewrite Forall_fmap in Hs1, Hs2. specialize (Hs1 H1). specialize (Hs2 H2). lia.
  - intros Hnone. unfold Product_is_low_stock, Product_is_in_stock.
    rewrite Product_get_total_stock_sum, Hnone. done.
Qed.

Lemma product_stock_summary_witness :
  Product_get_total_stock checkout_db 1 = 5
  ∧ Product_is_low_stock checkout_db 1 5 = true
  ∧ Product_is_in_stock checkout_db 1 = true
  ∧ Product_get_total_stock checkout_db 2 = 0
  ∧ Product_is_in_stock checkout_db 2 = false.
Proof.
  destruct (product_stock_summary checkout_db 1) as (Hlow & _ & _).
  destruct (product_stock_summary checkout_db 2) as (_ & _ & Hnone).
  destruct Hnone as (H0 & Hin & _); [by vm_compute|].
  split; [by vm_compute|]. split; [by vm_compute|].
  split; [apply (Hlow 5); by vm_compute|]. done.
Defined.

(** ** Adding to a cart twice *)

Lemma truthy_str_Some s : s ≠ "" -> truthy_str (Some s) = true.
Proof. by destruct s. Qed.

(** The cart [_get_or_create_cart] returned is the one a second call
    finds, with the request the first call returned; the second call
    writes nothing. *)
Lemma get_or_create_cart_again fresh fresh' request db cart request' db1 :
  Fresh.session_key fresh ≠ "" ->
  AddToCartView_get_or_create_cart fresh request db = (Ok (cart, request'), db1) ->
  AddToCartView_get_or_create_cart fresh' request' db1 = (Ok (cart, request'), db1).
Proof.
  intros Hsk. unfold AddToCartView_get_or_create_cart.
  destruct (Request.user request) as [uid|] eqn:Hu.
  - unfold bind, Cart_get_or_create.
    destruct (filter _ (carts db)) as [|c [|c' l]] eqn:Hf; [| |done].
    + intros [= <- <- <-]. rewrite Hu. simpl.
      rewrite filter_cons, decide_True by done. by rewrite Hf.
    + intros [= <- <- <-]. rewrite Hu. by rewrite Hf.
  - set (request1 := if negb (truthy_str (Request.session_key request))
                     then Request.mk None (Some (Fresh.session_key fresh))
                     else request).
    assert (Request.user request1 = None
            ∧ truthy_str (Request.session_key request1) = true) as [Hu1 Ht1].
    { unfold request1. destruct (truthy_str (Request.session_key request)) eqn:Ht;
        simpl; [done|]. split; [done|]. by apply truthy_str_Some. }
    unfold bind, Cart_get_or_create.
    destruct (filter _ (carts db)) as [|c [|c' l]] eqn:Hf; [| |done].
    + intros [= <- <- <-]. rewrite Hu1, Ht1. simpl.
      rewrite filter_cons, decide_True by done. by rewrite Hf.
    + intros [= <- <- <-]. rewrite Hu1, Ht1. simpl. by rewrite Hf.
Qed.

Lemma is_valid_same_target db db1 data1 data2 :
  AddToCartSerializer_is_valid db data1 = true ->
  variants db1 = variants db -> products db1 = products db ->
  AddToCartData.variant_id data2 = AddToCartData.variant_id data1 ->
  AddToCartData.product_id data2 = AddToCartData.product_id data1 ->
  1 <= AddToCartData.quantity data2 <= AddToCart_stock db data1 ->
  AddToCartSerializer_is_valid db1 data2 = true
  ∧ AddToCart_stock db1 data2 = AddToCart_stock db data1
  ∧ forall it, CartItem_targets data2 it <-> CartItem_targets data1 it.
Proof.
  intros Hvalid HV HP Hv Hp [Hq1 Hq2].
  unfold AddToCartSerializer_is_valid, AddToCartSerializer_validate,
    AddToCart_stock, CartItem_targets, Product_has_active_variants in *.
  rewrite Hv, Hp, HV, HP.
  apply is_valid_inv in Hvalid
    as (_ & [(k & v & Hk & Htv & Htp & Hlk & Hact & _)
            |(k & p & Hk & Htv & Htp & Hlk & Hact & Hnv & _)]).
  - rewrite Htv, Htp, Hk in *. simpl in *. rewrite Hlk in *. simpl in *.
    rewrite Hact. simpl.
    rewrite (proj2 (Z.leb_le _ _) Hq1), (proj2 (Z.ltb_ge _ _) Hq2). done.
  - unfold Product_has_active_variants in Hnv.
    rewrite Htv, Htp, Hk in *. simpl in *. rewrite Hlk in *. simpl in *.
    rewrite Hact, Hnv. simpl.
    rewrite (proj2 (Z.leb_le _ _) Hq1), (proj2 (Z.ltb_ge _ _) Hq2). done.
Qed.

(** Writing a line over the single line its cart has for the target
    breaks no constraint and leaves it the single line for the target. *)
Lemma write_single_line data rows cart_id old self :
  NoDup (CartItem.id <$> rows) ->
  filter (fun l => CartItem.cart_id l = cart_id ∧ CartItem_targets data l) rows
  = [old] ->
  CartItem.id self = CartItem.id old ->
  CartItem.cart_id self = cart_id ->
  CartItem.variant_id self = CartItem.variant_id old ->
  CartItem.product_id self = CartItem.product_id old ->
  (is_Some (CartItem.variant_id old) ∧ CartItem.product_id old = None
   ∧ truthy_int (AddToCartData.variant_id data) = true
   ∨ CartItem.variant_id old = None ∧ is_Some (CartItem.product_id old)
     ∧ truthy_int (AddToCartData.variant_id data) = false) ->
  CartItem_violated_constraint rows self = None
  ∧ filter (fun l => CartItem.cart_id l = cart_id ∧ CartItem_targets data l)
           (CartItem_write self rows) = [self].
Proof.
  intros Hnd Hf Hid Hcid Hvid Hpid Hone.
  assert (old ∈ rows ∧ CartItem.cart_id old = cart_id ∧ CartItem_targets data old)
    as (Hold & Hoc & Hot).
  { assert (old ∈ filter (fun l => CartItem.cart_id l = cart_id
                                   ∧ CartItem_targets data l) rows) as Hin
      by (rewrite Hf; left).
    by apply list_elem_of_filter in Hin as [[? ?] ?]. }
  assert (forall r, r ∈ rows -> CartItem.cart_id r = cart_id ->
                    CartItem_targets data r -> r = old) as Honly.
  { intros r Hr Hrc Hrt.
    assert (r ∈ filter (fun l => CartItem.cart_id l = cart_id
                                 ∧ CartItem_targets data l) rows) as Hin
      by (by apply list_elem_of_filter).
    rewrite Hf in Hin. by apply list_elem_of_singleton in Hin. }
  assert (CartItem_targets data self) as Hst.
  { unfold CartItem_targets in *. rewrite Hvid, Hpid. done. }
  split.
  - unfold CartItem_violated_constraint. rewrite Hvid, Hpid, Hid, Hcid.
    assert (forall (f : CartItem.t -> bool),
              (forall r, r ∈ rows -> CartItem.cart_id r = cart_id -> f r = true ->
                         CartItem_targets data r) ->
              existsb (fun r => negb (CartItem.id r =? CartItem.id old)
                                && (CartItem.cart_id r =? cart_id) && f r) rows
              = false) as Hnone.
    { intros f Hf'. apply existsb_false_iff. intros r Hr.
      destruct (Z.eqb_spec (CartItem.id r) (CartItem.id old)); [done|].
      destruct (Z.eqb_spec (CartItem.cart_id r) cart_id) as [Hrc|]; [|done].
      destruct (f r) eqn:Hfr; [|done].
      by rewrite (Honly r Hr Hrc (Hf' r Hr Hrc Hfr)) in n. }
    unfold CartItem_targets in *.
    destruct Hone as [([k Hk] & Hp & Ht)|(Hv & [k Hk] & Ht)].
    + rewrite Hk, Hp in *. rewrite Ht in *. simpl.
      rewrite Hnone; [done|]. intros r _ _ Hr%bool_decide_eq_true. congruence.
    + rewrite Hk, Hv in *. rewrite Ht in *. simpl.
      rewrite Hnone; [done|]. intros r _ _ Hr%bool_decide_eq_true. congruence.
  - unfold CartItem_write.
    rewrite (existsb_true_intro _ _ old Hold) by (by apply Z.eqb_eq).
    rewrite filter_map_elem.
    + rewrite Hf. simpl. by rewrite (proj2 (Z.eqb_eq _ _)).
    + intros r Hr. destruct (Z.eqb_spec (CartItem.id r) (CartItem.id self)) as [Hrid|];
        [|done].
      assert (r = old) as ->.
      { apply (NoDup_fmap_elem_inj CartItem.id rows); [done..|congruence]. }
      tauto.
Qed.

Lemma get_or_create_cart_frame fresh request rows db :
  AddToCartView_get_or_create_cart fresh request (set_cart_items rows db)
  = let (r, d) := AddToCartView_get_or_create_cart fresh request db in
    (r, set_cart_items rows d).
Proof.
  unfold AddToCartView_get_or_create_cart, Cart_get_or_create, bind.
  destruct (Request.user request) as [uid|]; cbv beta;
    replace (carts (set_cart_items rows db)) with (carts db) by (by destruct db).
  - destruct (filter _ (carts db)) as [|c [|c' l]]; destruct db; reflexivity.
  - destruct (filter _ (carts db)) as [|c [|c' l]]; destruct db; reflexivity.
Qed.

(** X21.  Adding to a cart twice.  After a request that was answered
    "created", a second request by the same caller (with the session the
    first answer carries) for the same target is answered "created" as
    long as the two quantities together stay within the stock: the line
    keeps its key, its quantity is the sum, and the cart has no more lines
    than after the first request. *)
Theorem add_to_cart_twice fresh fresh' request data data' db it cid sk message db1 :
  NoDup (CartItem.id <$> cart_items db) ->
  Fresh_unused fresh db ->
  AddToCartView_post fresh request data db
  = (item_created_response it cid sk message, db1) ->
  AddToCartData.variant_id data' = AddToCartData.variant_id data ->
  AddToCartData.product_id data' = AddToCartData.product_id data ->
  1 <= AddToCartData.quantity data' ->
  CartItem.quantity it + AddToCartData.quantity data' <= AddToCart_stock db data ->
  AddToCartData.quantity data' <= AddToCart_stock db data ->
  exists it' db2,
    AddToCartView_post fresh' (Request.mk (Request.user request) sk) data' db1
    = (item_created_response it' cid sk "Item added to cart successfully", db2)
    ∧ CartItem.id it' = CartItem.id it
    ∧ CartItem.quantity it' = CartItem.quantity it + AddToCartData.quantity data'
    ∧ length (cart_items db2) = length (cart_items db1).
Proof.
  intros Hnd (Hfc & Hfi & Hfs) H Hv' Hp' Hq1 Hsum Hq2.
  apply add_created_inv in H
    as (Hvalid & cart & request' & dbc & Hcart & -> & -> & Hviol & -> & Hcase).
  pose proof (get_or_create_cart_cases fresh request db) as Hc.
  rewrite Hcart in Hc. destruct Hc as (Hru & _ & _ & Hdbc).
  assert (variants dbc = variants db ∧ products dbc = products db
          ∧ cart_items dbc = cart_items db) as (HV & HP & HI).
  { destruct Hdbc as [[-> ?]|[-> _]]; done. }
  set (rows1 := CartItem_write it (cart_items dbc)).
  set (db1 := set_cart_items rows1 dbc).
  assert (Request.mk (Request.user request) (Request.session_key request') = request')
    as ->.
  { rewrite <- Hru. by destruct request'. }
  destruct (is_valid_same_target db db1 data data' Hvalid) as (Hvalid' & Hstock & Htg);
    [exact HV|exact HP|done|done|lia|].
  rewrite AddToCartView_post_valid by done.
  assert (AddToCartView_get_or_create_cart fresh' request' db1
          = (Ok (cart, request'), db1)) as ->.
  { unfold db1. rewrite get_or_create_cart_frame.
    by rewrite (get_or_create_cart_again fresh fresh' request db cart request' dbc
                  Hfs Hcart). }
  apply violated_constraint_None_target in Hviol as Hone.
  pose proof (is_valid_inv _ _ Hvalid) as (_ & Htarget).
  (* the stored line is the cart's single line for the target *)
  assert (CartItem.cart_id it = Cart.id cart ∧ CartItem_targets data it
          ∧ filter (fun l => CartItem.cart_id l = Cart.id cart
                             ∧ CartItem_targets data l) rows1 = [it]
          ∧ NoDup (CartItem.id <$> rows1)) as (Hic & Hit & Hf1 & Hnd1).
  { rewrite HI in Hcase. unfold rows1. rewrite HI.
    destruct Hcase as [[Hf Hnew]|(old & Hf & _ & Hold)].
    - destruct (CartItem_presave_fields dbc (CartItem_new fresh cart db data))
        as (Hid & Hcid & Hvid & Hpid & _).
      rewrite <- Hnew in Hid, Hcid, Hvid, Hpid.
      assert (CartItem_targets data it) as Ht.
      { unfold CartItem_targets. rewrite Hvid, Hpid. simpl.
        by destruct (truthy_int (AddToCartData.variant_id data)). }
      assert (existsb (fun r => CartItem.id r =? CartItem.id it) (cart_items db)
              = false) as Hex.
      { apply existsb_false_iff. intros r Hr. apply Z.eqb_neq.
        rewrite Hid. simpl. by apply Hfi. }
      unfold CartItem_write. rewrite Hex. split_and!; try done.
      + rewrite filter_app, Hf. simpl.
        by rewrite filter_cons, decide_True.
      + rewrite fmap_app. apply NoDup_app. split_and!; [done| |by apply NoDup_singleton].
        intros k Hk Hk'. apply list_elem_of_singleton in Hk' as ->.
        apply list_elem_of_fmap in Hk as (r & Hrid & Hr).
        rewrite Hid in Hrid. simpl in Hrid. by destruct (Hfi r Hr).
    - set (old' := CartItem.set_quantity _ old) in Hold.
      destruct (CartItem_presave_fields dbc old') as (Hid & Hcid & Hvid & Hpid & _).
      rewrite <- Hold in Hid, Hcid, Hvid, Hpid.
      assert (old ∈ filter (fun l => CartItem.cart_id l = Cart.id cart
                                     ∧ CartItem_targets data l) (cart_items db))
        as Hin by (rewrite Hf; left).
      apply list_elem_of_filter in Hin as [[Hoc Hot] Hoin].
      assert (CartItem.id it = CartItem.id old
              ∧ CartItem.cart_id it = Cart.id cart
              ∧ CartItem.variant_id it = CartItem.variant_id old
              ∧ CartItem.product_id it = CartItem.product_id old)
        as (Hid' & Hcid' & Hvid' & Hpid').
      { rewrite Hid, Hcid, Hvid, Hpid. by destruct old. }
      assert (CartItem_targets data it) as Ht.
      { unfold CartItem_targets in *. by rewrite Hvid', Hpid'. }
      destruct (write_single_line data (cart_items db) (Cart.id cart) old it)
        as [_ Hw]; try done.
      { unfold CartItem_targets in Hot. rewrite <- Hvid', <- Hpid'.
        destruct Hone as [[Hs Hn]|[Hn Hs]]; [left|right]; split_and!; try done.
        - destruct Htarget as [(k & v & Hk & Htv & _)|(k & p & Hk & Htv & _)];
            [done|].
          rewrite Htv in Hot. rewrite Hpid', Hot, Hk in Hn. done.
        - destruct Htarget as [(k & v & Hk & Htv & _)|(k & p & Hk & Htv & _)];
            [|done].
          rewrite Htv in Hot. rewrite Hvid', Hot, Hk in Hn. done. }
      split_and!; try done.
      unfold CartItem_write.
      rewrite (existsb_true_intro _ _ old Hoin) by (by apply Z.eqb_eq).
      replace (CartItem.id <$> map _ (cart_items db))
        with (CartItem.id <$> cart_items db); [done|].
      rewrite <- list_fmap_compose. apply list_fmap_ext. intros i r Hr. simpl.
      destruct (Z.eqb_spec (CartItem.id r) (CartItem.id it)); done. }
  (* the second request finds that line *)
  unfold CartItem_get_or_create.
  rewrite (list_filter_iff _ (fun l => CartItem.cart_id l = Cart.id cart
                                       ∧ CartItem_targets data l))
    by (intros l; by rewrite Htg).
  replace (cart_items db1) with rows1 by done. rewrite Hf1.
  cbv zeta. rewrite Hstock.
  rewrite (proj2 (Z.ltb_ge _ _)) by lia.
  set (it2 := CartItem.set_quantity _ it).
  rewrite CartItem_save_presave.
  replace (cart_items db1) with rows1 by done.
  destruct (CartItem_presave_fields db1 it2) as (Hid2 & Hcid2 & Hvid2 & Hpid2 & Hq2').
  destruct (write_single_line data rows1 (Cart.id cart) it (CartItem_presave db1 it2))
    as [-> _]; try done.
  { rewrite Hcid2. rewrite <- Hic. by destruct it. }
  { unfold CartItem_targets in Hit.
    destruct Hone as [[Hs Hn]|[Hn Hs]]; [left|right]; split_and!; try done.
    - destruct Htarget as [(k & v & Hk & Htv & _)|(k & p & Hk & Htv & _)];
        [done|].
      rewrite Htv in Hit. rewrite Hit, Hk in Hn. done.
    - destruct Htarget as [(k & v & Hk & Htv & _)|(k & p & Hk & Htv & _)];
        [|done].
      rewrite Htv in Hit. rewrite Hit, Hk in Hn. done. }
  do 2 eexists. split; [reflexivity|]. split_and!.
  - rewrite Hid2. by destruct it.
  - rewrite Hq2'. by destruct it.
  - cbn [cart_items set_cart_items]. fold rows1.
    apply (CartItem_write_length _ _ it).
    + assert (it ∈ filter (fun l => CartItem.cart_id l = Cart.id cart
                                    ∧ CartItem_targets data l) rows1) as Hin
        by (rewrite Hf1; left).
      by apply list_elem_of_filter in Hin as [_ ?].
    + rewrite Hid2. by destruct it.
Qed.


Lemma add_to_cart_twice_witness :
  exists it' db2,
    AddToCartView_post sample_fresh (Request.mk (Some 7) (Some "s3ss10n"))
      add_three_bells
      (snd (AddToCartView_post sample_fresh user_request add_two_bells checkout_db))
    = (item_created_response it' 1 (Some "s3ss10n")
         "Item added to cart successfully", db2)
    ∧ CartItem.id it' = 3
    ∧ CartItem.quantity it' = 2 + 3
    ∧ length (cart_items db2) = 3%nat.
Proof.
  assert (exists it,
            AddToCartView_post sample_fresh user_request add_two_bells checkout_db
            = (item_created_response it 1 (Some "s3ss10n")
                 "Item added to cart successfully",
               snd (AddToCartView_post sample_fresh user_request add_two_bells
                      checkout_db))
            ∧ CartItem.id it = 3 ∧ CartItem.quantity it = 2) as (it & Hpost & Hid & Hq).
  { eexists. split; [by vm_compute|]. done. }
  destruct (add_to_cart_twice sample_fresh sample_fresh user_request add_two_bells
              add_three_bells checkout_db it 1 (Some "s3ss10n")
              "Item added to cart successfully"
              (snd (AddToCartView_post sample_fresh user_request add_two_bells
                      checkout_db)))
    as (it' & db2 & Hpost' & Hid' & Hq' & Hlen); try done.
  - apply (bool_decide_unpack _). by vm_compute.
  - split_and!; [| |done].
    + intros c Hc. vm_compute in Hc.
      repeat (apply elem_of_cons in Hc as [->|Hc]; [done|]).
      by apply elem_of_nil in Hc.
    + intros l Hl. vm_compute in Hl.
      repeat (apply elem_of_cons in Hl as [->|Hl]; [done|]).
      by apply elem_of_nil in Hl.
  - rewrite Hq. by vm_compute.
  - exists it', db2. rewrite Hid', Hq', Hid, Hq, Hlen. split; [exact Hpost'|].
    split; [done|]. split; [done|]. by vm_compute.
Defined.

(** ** Adding a line and removing it *)

Lemma CartItem_cart_found db cart it :
  NoDup (Cart.id <$> carts db) -> cart ∈ carts db ->
  CartItem.cart_id it = Cart.id cart ->
  CartItem_cart db it = Some cart.
Proof.
  intros Hnd Hin Hid. unfold CartItem_cart.
  destruct (filter _ (carts db)) as [|c l] eqn:Hf.
  - assert (cart ∈ filter (fun c => Cart.id c = CartItem.cart_id it) (carts db))
      as Hc by (by apply list_elem_of_filter).
    rewrite Hf in Hc. by apply elem_of_nil in Hc.
  - simpl. f_equal.
    assert (c ∈ filter (fun c => Cart.id c = CartItem.cart_id it) (carts db))
      as Hc by (rewrite Hf; left).
    apply list_elem_of_filter in Hc as [Hcid Hc].
    apply (NoDup_fmap_elem_inj Cart.id (carts db)); congruence.
Qed.

(** X22.  Adding a line and removing it again.  When a request was
    answered "created" with a new line, removing that line, by the same
    caller with the session the answer carries, succeeds and leaves the
    cart lines exactly as they were before the line was added.  Cart keys
    are distinct and the keys handed out are new. *)
Theorem add_then_remove fresh request data db it cid sk message db1 :
  NoDup (Cart.id <$> carts db) ->
  Fresh_unused fresh db ->
  AddToCartView_post fresh request data db
  = (item_created_response it cid sk message, db1) ->
  CartItem.id it = Fresh.cart_item_id fresh ->
  exists db2,
    UpdateCartItemView_delete (Request.mk (Request.user request) sk)
      (CartItem.id it) db1
    = (cart_success_response "Cart item removed successfully", db2)
    ∧ cart_items db2 = cart_items db
    ∧ carts db2 = carts db1.
Proof.
  intros Hnd (Hfc & Hfi & Hfs) H Hnewid.
  apply add_created_inv in H
    as (Hvalid & cart & request' & dbc & Hcart & -> & -> & Hviol & -> & Hcase).
  pose proof (get_or_create_cart_cases fresh request db) as Hc.
  rewrite Hcart in Hc. destruct Hc as (Hru & Hsame & Hown & Hdbc).
  assert (Request.mk (Request.user request) (Request.session_key request') = request')
    as ->.
  { rewrite <- Hru. by destruct request'. }
  assert (cart_items dbc = cart_items db) as HI.
  { destruct Hdbc as [[-> ?]|[-> _]]; done. }
  assert (NoDup (Cart.id <$> carts dbc) ∧ cart ∈ carts dbc) as [Hndc Hcin].
  { destruct Hdbc as [[-> ?]|[-> Hid]]; [done|]. simpl. split; [|left].
    apply NoDup_cons. split; [|done].
    intros (c & Hc & Hcin)%list_elem_of_fmap. rewrite Hid in Hc.
    by destruct (Hfc c Hcin). }
  assert (truthy_str (Request.session_key request') = true
          ∨ is_Some (Request.user request')) as Hident.
  { unfold AddToCartView_get_or_create_cart in Hcart.
    destruct (Request.user request) as [uid|] eqn:Hu.
    - right. rewrite Hru. eauto.
    - left. unfold bind in Hcart.
      destruct (Cart_get_or_create _ _ db) as [[c|e] d]; [|done].
      injection Hcart as _ <- _.
      destruct (truthy_str (Request.session_key request)) eqn:Ht; simpl; [done|].
      by apply truthy_str_Some. }
  assert (cart_items db = cart_items db ∧
          (it ∉ cart_items db) ∧
          CartItem_write it (cart_items dbc) = (cart_items db ++ [it])%list
          ∧ CartItem.cart_id it = Cart.id cart) as (_ & Hnotin & Hw & Hic).
  { rewrite HI. split; [done|].
    assert (forall r, r ∈ cart_items db -> CartItem.id r ≠ CartItem.id it) as Hids.
    { intros r Hr. rewrite Hnewid. by apply Hfi. }
    split; [intros Hin; by apply (Hids it Hin)|].
    split.
    - unfold CartItem_write. rewrite (proj2 (existsb_false_iff _ _)); [done|].
      intros r Hr. apply Z.eqb_neq. by apply Hids.
    - destruct Hcase as [[_ ->]|(old & Hf & _ & ->)].
      + by destruct (CartItem_presave_fields dbc (CartItem_new fresh cart db data))
          as (_ & -> & _).
      + destruct (CartItem_presave_fields dbc
                    (CartItem.set_quantity
                       (CartItem.quantity old + AddToCartData.quantity data) old))
          as (_ & -> & _).
        rewrite HI in Hf.
        assert (old ∈ filter (fun l => CartItem.cart_id l = Cart.id cart
                                       ∧ CartItem_targets data l) (cart_items db))
          as Hin by (rewrite Hf; left).
        apply list_elem_of_filter in Hin as [[? _] _]. by destruct old. }
  rewrite Hw.
  set (db1 := set_cart_items (cart_items db ++ [it]) dbc).
  assert (forall l, CartItem_cart db1 l = CartItem_cart dbc l) as Hcartsame
    by (intros l; by destruct dbc).
  assert (cart_items db1 = (cart_items db ++ [it])%list) as Hci by (by destruct dbc).
  assert (UpdateCartItemView_get_cart_item request' (CartItem.id it) db1 = Ok it)
    as Hget.
  { unfold UpdateCartItemView_get_cart_item, Cart_of_caller in *.
    assert (forall owner : Cart.t -> bool, owner cart = true ->
              filter (fun l => CartItem.id l = CartItem.id it
                               ∧ from_option owner false (CartItem_cart db1 l) = true)
                     (cart_items db1) = [it]) as Hfilter.
    { intros owner Hoc. rewrite Hci, filter_app, filter_nil_intro.
      - simpl. rewrite filter_cons, decide_True; [done|]. split; [done|].
        rewrite Hcartsame, (CartItem_cart_found dbc cart it); done.
      - intros r Hr [Hid _]. rewrite Hnewid in Hid. by destruct (Hfi r Hr). }
    rewrite Hru in *.
    destruct (Request.user request) as [uid|].
    - rewrite Hfilter; [done|]. by apply bool_decide_eq_true.
    - destruct Hident as [->|[? ?]]; [|done]. simpl.
      rewrite Hfilter; [done|]. by apply bool_decide_eq_true. }
  unfold UpdateCartItemView_delete. rewrite Hget.
  eexists. split; [reflexivity|]. split; [|by destruct dbc].
  cbn [cart_items set_cart_items]. rewrite Hci, filter_app. simpl.
  rewrite filter_cons, decide_False by tauto.
  rewrite filter_nil, app_nil_r.
  assert (forall rows : list CartItem.t,
            (forall r, r ∈ rows -> CartItem.id r ≠ CartItem.id it) ->
            filter (fun r => CartItem.id r ≠ CartItem.id it) rows = rows) as Hkeep.
  { clear. induction rows as [|r rows IH]; intros Hrows; [done|].
    rewrite filter_cons, decide_True by (apply Hrows; left).
    f_equal. apply IH. intros r' Hr'. apply Hrows. by right. }
  apply Hkeep. intros r Hr. rewrite Hnewid. by apply Hfi.
Qed.

Lemma add_then_remove_witness :
  exists it db2,
    AddToCartView_post sample_fresh user_request add_two_bells checkout_db
    = (item_created_response it 1 (Some "s3ss10n")
         "Item added to cart successfully",
       snd (AddToCartView_post sample_fresh user_request add_two_bells checkout_db))
    ∧ UpdateCartItemView_delete (Request.mk (Some 7) (Some "s3ss10n"))
        (CartItem.id it)
        (snd (AddToCartView_post sample_fresh user_request add_two_bells
                checkout_db))
      = (cart_success_response "Cart item removed successfully", db2)
    ∧ cart_items db2 = cart_items checkout_db.
Proof.
  assert (exists it,
            AddToCartView_post sample_fresh user_request add_two_bells checkout_db
            = (item_created_response it 1 (Some "s3ss10n")
                 "Item added to cart successfully",
               snd (AddToCartView_post sample_fresh user_request add_two_bells
                      checkout_db))
            ∧ CartItem.id it = 3) as (it & Hpost & Hid).
  { eexists. split; [by vm_compute|]. done. }
  destruct (add_then_remove sample_fresh user_request add_two_bells checkout_db
              it 1 (Some "s3ss10n") "Item added to cart successfully"
              (snd (AddToCartView_post sample_fresh user_request add_two_bells
                      checkout_db)))
    as (db2 & Hdel & Hitems & _); try done.
  - apply (bool_decide_unpack _). by vm_compute.
  - split_and!; [| |done].
    + intros c Hc. vm_compute in Hc.
      repeat (apply elem_of_cons in Hc as [->|Hc]; [done|]).
      by apply elem_of_nil in Hc.
    + intros l Hl. vm_compute in Hl.
      repeat (apply elem_of_cons in Hl as [->|Hl]; [done|]).
      by apply elem_of_nil in Hl.
  - exists it, db2. split; [exact Hpost|]. split; [exact Hdel|]. exact Hitems.
Defined.
